(** * naucse.models: the model graph, the lazy lesson loader and session times

    A shallow embedding of [naucse/models.py].  Python objects that the code
    mutates ([Course], [Root], [Session]) are records threaded through a
    state-and-exception monad; an exception keeps the state reached so far,
    as in Python.  Dicts are [gmap]s, sets are [gset]s, keyword-argument
    dicts whose order is visible (primary keys) are association lists. *)

From stdpp Require Import base option list gmap strings pretty fin_maps fin_sets list_numbers sorting.
From Stdlib Require Import ZArith Lia Ascii.

Local Open Scope string_scope.
Local Open Scope Z_scope.
Local Open Scope list_scope.

(* [set_solver] clears hypotheses it has already consumed. *)
#[local] Set Warnings "-clear-no-such-hyp".

(** ** Python values, exceptions and the monad *)

(** The model classes, as type objects (keys of the URL factory tables). *)
Inductive ModelClass :=
| ClsRoot | ClsCourse | ClsSession | ClsMaterial | ClsLesson | ClsPage
| ClsSolution | ClsStaticFile | ClsLicense | ClsRunYear | ClsSessionPage.

#[global] Instance ModelClass_eq_dec : EqDecision ModelClass.
Proof. solve_decision. Defined.

Definition ModelClass_to_nat (c : ModelClass) : nat :=
  match c with
  | ClsRoot => 0 | ClsCourse => 1 | ClsSession => 2 | ClsMaterial => 3
  | ClsLesson => 4 | ClsPage => 5 | ClsSolution => 6 | ClsStaticFile => 7
  | ClsLicense => 8 | ClsRunYear => 9 | ClsSessionPage => 10
  end%nat.

Definition ModelClass_of_nat (n : nat) : option ModelClass :=
  match n with
  | 0 => Some ClsRoot | 1 => Some ClsCourse | 2 => Some ClsSession
  | 3 => Some ClsMaterial | 4 => Some ClsLesson | 5 => Some ClsPage
  | 6 => Some ClsSolution | 7 => Some ClsStaticFile | 8 => Some ClsLicense
  | 9 => Some ClsRunYear | 10 => Some ClsSessionPage | _ => None
  end%nat.

#[global] Instance ModelClass_countable : Countable ModelClass.
Proof.
  apply (inj_countable ModelClass_to_nat ModelClass_of_nat).
  intros []; reflexivity.
Defined.

(** [cls.__name__] *)
Definition class_name (c : ModelClass) : string :=
  match c with
  | ClsRoot => "Root" | ClsCourse => "Course" | ClsSession => "Session"
  | ClsMaterial => "Material" | ClsLesson => "Lesson" | ClsPage => "Page"
  | ClsSolution => "Solution" | ClsStaticFile => "StaticFile"
  | ClsLicense => "License" | ClsRunYear => "RunYear"
  | ClsSessionPage => "SessionPage"
  end.

(** The exception classes the module raises, with Python's subclass order:
    [NoURLType] derives from [NoURL], which derives from [LookupError]. *)
Inductive ExcClass :=
| Exception_ | LookupError | NoURL | NoURLType | KeyError
| ValueError | TypeError | AttributeError | ExternalError.

#[global] Instance ExcClass_eq_dec : EqDecision ExcClass.
Proof. solve_decision. Defined.

(** The direct base class ([Exception] itself is [Exception_] here). *)
Definition exc_base (c : ExcClass) : option ExcClass :=
  match c with
  | Exception_ => None
  | LookupError => Some Exception_
  | NoURL => Some LookupError        (* class NoURL(LookupError) *)
  | NoURLType => Some NoURL          (* class NoURLType(NoURL) *)
  | KeyError => Some LookupError
  | ValueError | TypeError | AttributeError | ExternalError => Some Exception_
  end.

(** [issubclass c d], by walking the bases (the hierarchy has depth 4). *)
Fixpoint issubclass_fuel (fuel : nat) (c d : ExcClass) : bool :=
  if decide (c = d) then true
  else match fuel, exc_base c with
       | S fuel', Some b => issubclass_fuel fuel' b d
       | _, _ => false
       end.
Definition issubclass (c d : ExcClass) : bool := issubclass_fuel 4 c d.

(** Python values that occur as primary keys, URLs and return values. *)
Inductive PyVal :=
| VNone
| VStr (s : string)
| VInt (z : Z)
| VExc (c : ExcClass) (arg : string).   (* an exception object held as a value *)

#[global] Instance PyVal_eq_dec : EqDecision PyVal.
Proof. solve_decision. Defined.

(** A raised exception: its class and its argument (rendered as a string). *)
Record exn := Exn { exn_class : ExcClass; exn_arg : string }.

#[global] Instance exn_eq_dec : EqDecision exn.
Proof. solve_decision. Defined.

Definition isinstance (e : exn) (c : ExcClass) : bool := issubclass (exn_class e) c.

Inductive Result (A : Type) :=
| Ok (a : A)
| Raise (e : exn).
Arguments Ok {A} a.
Arguments Raise {A} e.

(** A method on a mutable object of type [S]: it returns or raises, and
    leaves a state either way. *)
Definition M (S A : Type) : Type := S → Result A * S.

Definition ret {S A} (a : A) : M S A := λ s, (Ok a, s).
Definition raise {S A} (e : exn) : M S A := λ s, (Raise e, s).
Definition bind {S A B} (m : M S A) (k : A → M S B) : M S B :=
  λ s, match m s with
       | (Ok a, s') => k a s'
       | (Raise e, s') => (Raise e, s')
       end.
Definition get {S} : M S S := λ s, (Ok s, s).
Definition modify {S} (f : S → S) : M S unit := λ s, (Ok tt, f s).

(** [try: m  except c: h] *)
Definition try_except {S A} (m : M S A) (c : ExcClass) (h : M S A) : M S A :=
  λ s, match m s with
       | (Raise e, s') => if isinstance e c then h s' else (Raise e, s')
       | r => r
       end.

Notation "'let*' x ':=' m 'in' k" := (bind m (λ x, k))
  (at level 10, x name, m at level 100, k at level 200, only parsing).
Notation "m >>> k" := (bind m (λ _, k))
  (at level 65, right associativity, only parsing).

(** [for x in l: body x] *)
Fixpoint for_each {S A} (body : A → M S unit) (l : list A) : M S unit :=
  match l with
  | [] => ret tt
  | x :: l' => bind (body x) (λ _, for_each body l')
  end.

(** Truthiness of an optional string ([None] and [''] are false). *)
Definition truthy (o : option string) : bool :=
  match o with
  | Some s => bool_decide (s ≠ "")
  | None => false
  end.

(** ** Ordered dicts of keyword arguments *)

Definition Pks : Type := list (string * PyVal).

(** [d[k] = v]: an existing key keeps its place, a new key goes last. *)
Fixpoint dict_set (k : string) (v : PyVal) (d : Pks) : Pks :=
  match d with
  | [] => [(k, v)]
  | (k', v') :: d' =>
      if decide (k' = k) then (k, v) :: d' else (k', v') :: dict_set k v d'
  end.

(** [{**d1, **d2}] *)
Definition dict_update (d1 d2 : Pks) : Pks :=
  fold_left (λ d kv, dict_set kv.1 kv.2 d) d2 d1.

Definition dict_keys (d : Pks) : list string := d.*1.

(** ** Model: class attributes *)

Definition is_upper (a : ascii) : bool :=
  let n := nat_of_ascii a in (65 <=? n)%nat && (n <=? 90)%nat.

Definition ascii_lower (a : ascii) : ascii :=
  if is_upper a then ascii_of_nat (nat_of_ascii a + 32) else a.

(** [re.sub('([A-Z])', r'-\1', name)] *)
Fixpoint dash_capitals (s : string) : string :=
  match s with
  | EmptyString => EmptyString
  | String a s' =>
      if is_upper a then String "-"%char (String a (dash_capitals s'))
      else String a (dash_capitals s')
  end.

Fixpoint str_lower (s : string) : string :=
  match s with
  | EmptyString => EmptyString
  | String a s' => String (ascii_lower a) (str_lower s')
  end.

(** [s.lstrip('-')] *)
Fixpoint lstrip_dash (s : string) : string :=
  match s with
  | String "-"%char s' => lstrip_dash s'
  | _ => s
  end.

(** [Model.__init_subclass__]: no class sets [model_slug] itself, so every
    slug is derived from the class name. *)
Definition model_slug (c : ModelClass) : string :=
  lstrip_dash (str_lower (dash_capitals (class_name c))).

(** The class attribute [pk_name] ([None] for [Root] and, by inheritance
    from [Model], for no other class). *)
Definition pk_name (c : ModelClass) : option string :=
  match c with
  | ClsRoot => None
  | ClsSolution => Some "index"
  | ClsStaticFile => Some "filename"
  | ClsRunYear => Some "year"
  | ClsCourse | ClsSession | ClsMaterial | ClsLesson | ClsPage
  | ClsLicense | ClsSessionPage => Some "slug"
  end.




(** ** Dates and times ([datetime], [dateutil.tz]) *)

Module datetime.

Record date := mkdate { year : Z; month : Z; day : Z }.

(** A [tzinfo] object: a fixed offset parsed from [%z] (minutes east of
    UTC), or a zone of the tz database obtained from [dateutil.tz.gettz],
    known by its name; the rules of the zones are the library's and are not
    part of this development. *)
Inductive tzinfo :=
| tzoffset (minutes : Z)
| tzfile (name : string).

(** [datetime.time]; the formats the converters parse carry no fraction of
    a second. *)
Record time := mktime { hour : Z; minute : Z; second : Z; tzinfo_ : option tzinfo }.

(** [datetime.datetime]: a date and a time of day with its [tzinfo]. *)
Record datetime := mkdatetime { date_ : date; timetz : time }.

(** [datetime.datetime.combine(d, t)] keeps the [tzinfo] of [t]. *)
Definition combine (d : date) (t : time) : datetime := mkdatetime d t.

(** [dt.replace(tzinfo=tz)] *)
Definition replace_tzinfo (dt : datetime) (tz : tzinfo) : datetime :=
  mkdatetime (date_ dt)
    (mktime (hour (timetz dt)) (minute (timetz dt)) (second (timetz dt)) (Some tz)).

End datetime.

(** ** The model graph *)

(** A URL factory, called as [url_for] with the primary keys as keyword
    arguments and [_external=external].  It is a callable that the
    application registers: it returns a URL or raises. *)
Definition UrlFactory : Type := Pks → bool → Result string.

(** Fields that [get_url] of a subclass reads. *)
Inductive Fields :=
| NoFields
| LicenseFields (url title : string)
| MaterialFields (title : option string) (type : string)
    (external_url lesson_slug : option string).

(** A node: the root with its table [url_factories] (URL type, then class),
    or an object of class [cls] with its [parent] and the value [pk] of
    [getattr(self, self.pk_name)]. *)
Inductive Node :=
| RootNode (url_factories : gmap string (gmap ModelClass UrlFactory))
| ChildNode (cls : ModelClass) (parent : Node) (pk : PyVal) (fields : Fields).

(** [type(self)] *)
Definition type_of (n : Node) : ModelClass :=
  match n with
  | RootNode _ => ClsRoot
  | ChildNode cls _ _ _ => cls
  end.

(** [self.root]: [self.parent.root], and the root itself at the top. *)
Fixpoint root_of (n : Node) : Node :=
  match n with
  | RootNode _ => n
  | ChildNode _ parent _ _ => root_of parent
  end.

Definition url_factories_of (n : Node) : gmap string (gmap ModelClass UrlFactory) :=
  match root_of n with
  | RootNode fs => fs
  | ChildNode _ _ _ _ => ∅
  end.

(** [get_pks], with the overrides of [Root], [StaticFile], [SessionPage]
    and [RunYear]; every other class inherits [Model.get_pks]. *)
Fixpoint get_pks (self : Node) : Pks :=
  match self with
  | RootNode _ => []
  | ChildNode cls parent pk _ =>
      match cls with
      | ClsRoot => []
      | ClsStaticFile => dict_set "filename" pk (get_pks parent)
      | ClsSessionPage => dict_set "page_slug" pk (get_pks parent)
      | ClsRunYear => dict_set "year" pk (get_pks parent)
      | _ =>
          let pk_name := model_slug cls +:+ "_" +:+ default "None" (pk_name cls) in
          dict_set pk_name pk (get_pks parent)
      end
  end.

(** [str(v)] inside an f-string. *)
Definition py_str (v : PyVal) : string :=
  match v with
  | VNone => "None"
  | VStr s => s
  | VInt z => pretty z
  | VExc _ arg => arg
  end.

Fixpoint join (sep : string) (l : list string) : string :=
  match l with
  | [] => ""
  | [s] => s
  | s :: l' => s +:+ sep +:+ join sep l'
  end.

(** [Model.__repr__] *)
Definition repr (self : Node) : string :=
  "<" +:+ class_name (type_of self) +:+ " "
      +:+ join " " (map (λ kv, kv.1 +:+ "=" +:+ py_str kv.2) (get_pks self)) +:+ ">".

(** [Root._url_for(obj_type, pks, url_type, external=...)].  Every caller
    passes a class, so the branch for [obj_type is None] is not taken. *)
Definition _url_for (url_factories : gmap string (gmap ModelClass UrlFactory))
    (obj_type : ModelClass) (pks : Pks) (url_type : string) (external : bool)
  : Result PyVal :=
  match url_factories !! url_type with
  | None => Raise (Exn NoURLType url_type)
  | Some urls =>
      match urls !! obj_type with
      | None => Raise (Exn NoURL (class_name obj_type))
      | Some url_for =>
          match url_for pks external with
          | Ok url => Ok (VStr url)
          | Raise e => Raise e
          end
      end
  end.

Module Model.

(** [Model.get_url(self, url_type='web', *, external=False)] *)
Definition get_url (self : Node) (url_type : string) (external : bool) : Result PyVal :=
  _url_for (url_factories_of self) (type_of self) (get_pks self) url_type external.

End Model.

(** ** Course: the lazy lesson loader *)

(** Modelled from the spec: [naucse.converters.load] and [naucse.sanitize]
    are not among the sources.  Loading a rendered lesson sanitizes the
    content of its pages and solutions with [_sanitize_page_content], whose
    callback [page_url] calls [Course.get_lesson_url(lesson, page=page)] for
    every link to a lesson page.  Of a rendered lesson the loader therefore
    sees the list of these links, in the order they are resolved.  The
    other converters and after-load hooks that run in that load
    ([Page._generate_title], [Lesson._set_title], [LicenseConverter.load])
    can raise as well; a load that fails in one of them is not represented
    here, and nothing below says that a load returns. *)
Record Lesson := mkLesson { page_links : list (string * string) }.

Module Course.

Record t := mk {
  parent : Node;
  slug : string;
  default_time : option (gmap string datetime.time);
  timezone : option datetime.tzinfo;
  start_date : option datetime.date;
  end_date : option datetime.date;
  _frozen : bool;
  _lessons : gmap string Lesson;
  _requested_lessons : gset string;
  (** [self.renderer.get_lessons(slugs, vars=self.vars, path=self.base_path)]:
      an external collaborator; it returns rendered lessons by slug or
      raises. *)
  renderer_get_lessons : gset string → Result (gmap string Lesson);
  (** Instrumentation, not a field of the source: the arguments of the
      calls of [renderer.get_lessons] so far, oldest first. *)
  fetched : list (gset string);
}.

Definition set_frozen (b : bool) (c : t) : t :=
  mk (parent c) (slug c) (default_time c) (timezone c) (start_date c) (end_date c)
     b (_lessons c) (_requested_lessons c) (renderer_get_lessons c) (fetched c).
Definition set_lessons (l : gmap string Lesson) (c : t) : t :=
  mk (parent c) (slug c) (default_time c) (timezone c) (start_date c) (end_date c)
     (_frozen c) l (_requested_lessons c) (renderer_get_lessons c) (fetched c).
Definition set_requested_lessons (r : gset string) (c : t) : t :=
  mk (parent c) (slug c) (default_time c) (timezone c) (start_date c) (end_date c)
     (_frozen c) (_lessons c) r (renderer_get_lessons c) (fetched c).
Definition set_fetched (f : list (gset string)) (c : t) : t :=
  mk (parent c) (slug c) (default_time c) (timezone c) (start_date c) (end_date c)
     (_frozen c) (_lessons c) (_requested_lessons c) (renderer_get_lessons c) f.

(** The course as a node of the graph, and a lesson of it. *)
Definition node (self : t) : Node :=
  ChildNode ClsCourse (parent self) (VStr (slug self)) NoFields.
Definition lesson_node (self : t) (lesson_slug : string) : Node :=
  ChildNode ClsLesson (node self) (VStr lesson_slug) NoFields.

(** [Course.get_lesson_url(self, slug, *, page='index', **kw)]; the keyword
    arguments [kw] that [Model.get_url] accepts are [url_type] and
    [external]. *)
Definition get_lesson_url (slug : string) (page : string)
    (url_type : string) (external : bool) : M t PyVal := λ self,
  if decide (slug ∈ dom (_lessons self)) then
    (Model.get_url (lesson_node self slug) url_type external, self)
  else if _frozen self then
    (Ok (VExc KeyError slug), self)
  else
    let self := set_requested_lessons ({[slug]} ∪ _requested_lessons self) self in
    (_url_for (url_factories_of (parent self)) ClsPage
       (dict_update [("page_slug", VStr page); ("lesson_slug", VStr slug)]
                    (get_pks (node self)))
       "web" false,
     self).

(** The calls of [page_url] made while one rendered lesson is loaded. *)
Definition load_lesson (lesson : Lesson) : M t unit :=
  for_each (λ link, get_lesson_url link.1 link.2 "web" false >>> ret tt)
           (page_links lesson).

(** [load(DictConverter(Lesson, key_arg='slug'), rendered, parent=self)] *)
Definition load_rendered (rendered : gmap string Lesson) : M t (gmap string Lesson) :=
  for_each (λ kv, load_lesson kv.2) (map_to_list rendered) >>> ret rendered.

(** The body of [for slug in slugs] at the end of [load_lessons]. *)
Definition merge_lesson (new_lessons : gmap string Lesson) (slug : string) : M t unit :=
  match new_lessons !! slug with
  | None => raise (Exn ValueError (slug +:+ " missing from rendered lessons"))
  | Some lesson =>
      modify (λ self,
        set_requested_lessons (_requested_lessons self ∖ {[slug]})
          (set_lessons (<[slug := lesson]> (_lessons self)) self))
  end.

(** [Course.load_lessons(self, slugs)].  A set is iterated in the order of
    [elements]. *)
Definition load_lessons (slugs : gset string) : M t unit := λ self,
  if _frozen self then
    raise (Exn Exception_ "course is frozen") self
  else
    let slugs := slugs ∖ dom (_lessons self) in
    let self := set_fetched (fetched self ++ [slugs]) self in
    match renderer_get_lessons self slugs with
    | Raise e => (Raise e, self)
    | Ok rendered =>
        (let* new_lessons := load_rendered rendered in
         for_each (merge_lesson new_lessons) (elements slugs)) self
    end.

(** [self._requested_lessons.difference_update(self._lessons)] *)
Definition difference_update : M t unit :=
  modify (λ self,
    set_requested_lessons (_requested_lessons self ∖ dom (_lessons self)) self).

Definition too_deep (self : t) : exn :=
  Exn ValueError ("Lessons in course " +:+ slug self +:+ " are linked too deeply").

(** The [while] loop of [load_all_lessons].  [link_depth] counts down from
    50; [link_depth -= 1] followed by the test [link_depth < 0] is the match
    on the counter: at 0 the decrement gives -1 and the loop raises. *)
Fixpoint load_all_loop (link_depth : nat) : M t unit := λ self,
  if decide (_requested_lessons self = ∅) then (Ok tt, self)
  else
    match difference_update self with
    | (Raise e, self) => (Raise e, self)
    | (Ok _, self) =>
        if decide (_requested_lessons self = ∅) then (Ok tt, self)   (* break *)
        else
          match load_lessons (_requested_lessons self) self with
          | (Raise e, self) => (Raise e, self)
          | (Ok _, self) =>
              match link_depth with
              | O => (Raise (too_deep self), self)
              | S link_depth => load_all_loop link_depth self
              end
          end
    end.

(** [Course.load_all_lessons(self)] *)
Definition load_all_lessons : M t unit := λ self,
  if _frozen self then (Ok tt, self)
  else (difference_update >>> load_all_loop 50) self.

(** [Course.freeze(self)] *)
Definition freeze : M t unit := λ self,
  if _frozen self then (Ok tt, self)
  else (load_all_lessons >>> modify (set_frozen true)) self.

End Course.

(** [_LessonsDict]: the value of [course.lessons]; its state is the course. *)
Module _LessonsDict.

(** [self.course._lessons[key]] *)
Definition lookup (key : string) : M Course.t Lesson := λ course,
  match Course._lessons course !! key with
  | Some lesson => (Ok lesson, course)
  | None => (Raise (Exn KeyError key), course)
  end.

(** [__getitem__] *)
Definition __getitem__ (key : string) : M Course.t Lesson :=
  try_except (lookup key) KeyError
    (Course.load_lessons {[key]} >>> lookup key).

(** [iter(self.course._lessons)]: the keys that the iterator yields.  A
    dict yields each key once, in the order of insertion, which for the
    lessons of one round of [load_lessons] is the order in which Python
    iterates a set of strings.  [_lessons] is kept here as a finite map,
    without that order, so the result is the set of the keys. *)
Definition keys : M Course.t (gset string) :=
  λ course, (Ok (dom (Course._lessons course)), course).

(** [len(self.course._lessons)] *)
Definition length : M Course.t nat :=
  λ course, (Ok (size (Course._lessons course)), course).

(** [__iter__]: the keys, after a freeze. *)
Definition __iter__ : M Course.t (gset string) := Course.freeze >>> keys.

(** [__len__] *)
Definition __len__ : M Course.t nat := Course.freeze >>> length.

End _LessonsDict.

(** ** Material, License and the dispatch of [get_url] *)

Module Material.

(** The after-load hook of [lesson_slug]. *)
Definition _validate_lesson_slug (self : Node) : Result unit :=
  match self with
  | ChildNode _ _ _ (MaterialFields _ _ external_url lesson_slug) =>
      if truthy lesson_slug && truthy external_url then
        Raise (Exn ValueError "external_url and lesson_slug are incompatible")
      else Ok tt
  | _ => Raise (Exn AttributeError "lesson_slug")
  end.

(** [Material.get_url(self, url_type='web', **kwargs)]; the state is
    [self.course]. *)
Definition get_url (self : Node) (url_type : string) : M Course.t PyVal :=
  match self with
  | ChildNode _ _ _ (MaterialFields _ _ external_url lesson_slug) =>
      if truthy lesson_slug then
        Course.get_lesson_url (default "" lesson_slug) "index" "web" false
      else if bool_decide (url_type ≠ "web") then
        raise (Exn NoURLType url_type)
      else if truthy external_url then
        ret (VStr (default "" external_url))
      else
        raise (Exn NoURL (repr self))
  | _ => raise (Exn AttributeError "lesson_slug")
  end.

End Material.

Module License.

(** [License.get_url(self, *args, **kwargs)] *)
Definition get_url (self : Node) : Result PyVal :=
  match self with
  | ChildNode _ _ _ (LicenseFields url _) => Ok (VStr url)
  | _ => Raise (Exn AttributeError "url")
  end.

End License.

(** [self.get_url(url_type, external=external)], resolved by the class of
    [self]: [Material] and [License] override [Model.get_url].  The state is
    the course that owns the node (only a [Material] touches it). *)
Definition get_url (self : Node) (url_type : string) (external : bool)
  : M Course.t PyVal :=
  match type_of self with
  | ClsMaterial => Material.get_url self url_type
  | ClsLicense => λ course, (License.get_url self, course)
  | _ => λ course, (Model.get_url self url_type external, course)
  end.

(** The property [Model._url]. *)
Definition _url (self : Node) : M Course.t PyVal :=
  try_except (get_url self "web" true) NoURL (ret VNone).

(** ** Session: resolving the time of a session *)

Module Session.

(** What [SessionTimeConverter.load] returns: a [datetime] or a [time]. *)
Inductive TimeValue :=
| TDatetime (dt : datetime.datetime)
| TTime (t : datetime.time).

Record t := mk {
  slug : string;
  date : option datetime.date;
  time : option (gmap string TimeValue);
  course : Course.t;
}.

Definition set_time (tm : option (gmap string TimeValue)) (self : t) : t :=
  mk (slug self) (date self) tm (course self).

Definition missing_timezone (kind : string) (self : t) : exn :=
  Exn ValueError
    (kind +:+ " time of session " +:+ slug self +:+ " is missing "
     +:+ "timezone information. Provide an offset or set "
     +:+ "a timezone for the whole course.").

(** The chain of [isinstance] tests in the loop of [_fix_time], for
    [time = self.time.get(kind, None)]: the [datetime] to go on with, or
    [None] where the code sets [self.time = None] and returns.  The last
    branch ([raise TypeError]) needs a value that is neither a [datetime]
    nor a [time], which the converter does not produce. *)
Definition resolve (self : t) (kind : string) (time : option TimeValue)
  : Result (option datetime.datetime) :=
  match time with
  | Some (TDatetime dt) => Ok (Some dt)
  | Some (TTime t) =>
      match date self with
      | Some d => Ok (Some (datetime.combine d t))
      | None => Ok None
      end
  | None =>
      match date self, Course.default_time (course self) with
      | Some d, Some default_time =>
          if decide (default_time = ∅) then Ok None
          else match default_time !! kind with
               | Some t => Ok (Some (datetime.combine d t))
               | None => Raise (Exn KeyError kind)
               end
      | _, _ => Ok None
      end
  end.

(** [if time.tzinfo is None: ...] *)
Definition stamp (self : t) (kind : string) (time : datetime.datetime)
  : Result datetime.datetime :=
  match datetime.tzinfo_ (datetime.timetz time) with
  | Some _ => Ok time
  | None =>
      match Course.timezone (course self) with
      | None => Raise (missing_timezone kind self)
      | Some tz => Ok (datetime.replace_tzinfo time tz)
      end
  end.

(** [for kind in 'start', 'end'], over the dict [times] that [self.time]
    held when the loop started. *)
Fixpoint fix_loop (times : gmap string TimeValue) (kinds : list string)
    (result : gmap string TimeValue) : M t unit := λ self,
  match kinds with
  | [] => (Ok tt, set_time (Some result) self)
  | kind :: kinds =>
      match resolve self kind (times !! kind) with
      | Raise e => (Raise e, self)
      | Ok None => (Ok tt, set_time None self)
      | Ok (Some time) =>
          match stamp self kind time with
          | Raise e => (Raise e, self)
          | Ok time => fix_loop times kinds (<[kind := TDatetime time]> result) self
          end
      end
  end.

(** [Session._fix_time], the after-load hook of [time]. *)
Definition _fix_time : M t unit := λ self,
  match time self with
  | None =>
      fix_loop ∅ ["start"; "end"] ∅ (set_time (Some ∅) self)
  | Some times =>
      if decide (dom times = ({["start"; "end"]} : gset string)) then
        fix_loop times ["start"; "end"] ∅ self
      else
        (Raise (Exn ValueError "Session time may must have start and end"), self)
  end.

End Session.

(** ** Root: the courses and their indices *)

Module RunYear.

Record t := mk { year : Z; runs : gmap string Course.t }.

End RunYear.

Module Root.

Record t := mk {
  url_factories : gmap string (gmap ModelClass UrlFactory);
  courses : gmap string Course.t;
  run_years : gmap Z RunYear.t;
  self_study_courses : gmap string Course.t;
}.

Definition set_courses (cs : gmap string Course.t) (r : t) : t :=
  mk (url_factories r) cs (run_years r) (self_study_courses r).
Definition set_run_years (ys : gmap Z RunYear.t) (r : t) : t :=
  mk (url_factories r) (courses r) ys (self_study_courses r).
Definition set_self_study_courses (cs : gmap string Course.t) (r : t) : t :=
  mk (url_factories r) (courses r) (run_years r) cs.

(** [range(course.start_date.year, course.end_date.year+1)], for a course
    whose [start_date] is set. *)
Definition years (start_date : datetime.date) (course : Course.t) : Result (list Z) :=
  match Course.end_date course with
  | Some end_date =>
      Ok (seqZ (datetime.year start_date)
               (datetime.year end_date + 1 - datetime.year start_date))
  | None => Raise (Exn AttributeError "year")
  end.

(** [del self.run_years[year][slug]] *)
Definition del_run (slug : string) (year : Z) : M t unit := λ self,
  match run_years self !! year with
  | None => (Raise (Exn KeyError (pretty year)), self)
  | Some run_year =>
      match RunYear.runs run_year !! slug with
      | None => (Raise (Exn KeyError slug), self)
      | Some _ =>
          (Ok tt,
           set_run_years
             (<[year := RunYear.mk (RunYear.year run_year)
                          (delete slug (RunYear.runs run_year))]> (run_years self))
             self)
      end
  end.

(** [del self.self_study_courses[slug]] *)
Definition del_self_study (slug : string) : M t unit := λ self,
  match self_study_courses self !! slug with
  | None => (Raise (Exn KeyError slug), self)
  | Some _ => (Ok tt, set_self_study_courses (delete slug (self_study_courses self)) self)
  end.

(** The body of the second loop: create the [RunYear] if it is missing,
    then [self.run_years[year][slug] = course]. *)
Definition add_run (slug : string) (course : Course.t) (year : Z) : M t unit :=
  modify (λ self,
    let run_year := default (RunYear.mk year ∅) (run_years self !! year) in
    set_run_years
      (<[year := RunYear.mk (RunYear.year run_year)
                   (<[slug := course]> (RunYear.runs run_year))]> (run_years self))
      self).

(** The branch [if slug in self.courses]. *)
Definition remove_old (slug : string) : M t unit := λ self,
  match courses self !! slug with
  | None => (Ok tt, self)
  | Some old =>
      match Course.start_date old with
      | Some start_date =>
          match years start_date old with
          | Raise e => (Raise e, self)
          | Ok ys => for_each (del_run slug) ys self
          end
      | None => del_self_study slug self
      end
  end.

(** [Root.add_course(self, course)] *)
Definition add_course (course : Course.t) : M t unit :=
  let slug := Course.slug course in
  remove_old slug >>>
  modify (λ self, set_courses (<[slug := course]> (courses self)) self) >>>
  match Course.start_date course with
  | Some start_date =>
      λ self, match years start_date course with
              | Raise e => (Raise e, self)
              | Ok ys => for_each (add_run slug course) ys self
              end
  | None =>
      modify (λ self,
        set_self_study_courses (<[slug := course]> (self_study_courses self)) self)
  end.

End Root.

(** ** Looking a course up *)

(** [s.split('/')] *)
Fixpoint split_slash (s : string) : list string :=
  match s with
  | EmptyString => [""]
  | String a s' =>
      if decide (a = "/"%char) then "" :: split_slash s'
      else match split_slash s' with
           | part :: parts => String a part :: parts
           | [] => [String a ""]
           end
  end.

(** [self.courses[slug]] *)
Definition courses_getitem (slug : string) (self : Root.t) : Result Course.t :=
  match Root.courses self !! slug with
  | Some course => Ok course
  | None => Raise (Exn KeyError slug)
  end.

(** [Root.get_course(self, slug)].  The builtin [int] is a parameter: it
    returns the number a string denotes or raises. *)
Definition get_course (int : string → Result Z) (slug : string) (self : Root.t)
  : Result Course.t :=
  if decide (slug = "lessons") then courses_getitem slug self
  else
    match split_slash slug with
    | [year; identifier] =>
        if decide (year = "courses") then courses_getitem slug self
        else
          match int year with
          | Raise e => Raise e
          | Ok y =>
              match Root.run_years self !! y with
              | None => Raise (Exn KeyError (pretty y))
              | Some run_year =>
                  match RunYear.runs run_year !! slug with
                  | Some course => Ok course
                  | None => Raise (Exn KeyError slug)
                  end
              end
          end
    | [part] =>
        Raise (Exn ValueError "not enough values to unpack (expected 2, got 1)")
    | _ => Raise (Exn ValueError "too many values to unpack (expected 2)")
    end.

(** ** Previous and next *)

(** [set_prev_next(sequence)].  The elements are objects, named here by keys
    of a type [K]; the attributes [prev] and [next] of the objects are a map
    from an object to the pair assigned to it (an object the map lacks has
    neither attribute). *)
Definition set_prev_next `{Countable K} (sequence : list K)
    (attrs : gmap K (option K * option K)) : gmap K (option K * option K) :=
  fold_left
    (λ attrs pnn, <[pnn.1.2 := (pnn.1.1, pnn.2)]> attrs)
    (zip (zip (None :: (Some <$> sequence)) sequence)
         ((Some <$> tail sequence) ++ [None]))
    attrs.

(** [material.lesson_slug] *)
Definition lesson_slug_of (material : Node) : option string :=
  match material with
  | ChildNode _ _ _ (MaterialFields _ _ _ lesson_slug) => lesson_slug
  | _ => None
  end.

(** The after-load hook [Session._index_materials]: materials are named by
    their index in [self.materials]. *)
Definition _index_materials (materials : list Node)
    (attrs : gmap nat (option nat * option nat)) : gmap nat (option nat * option nat) :=
  set_prev_next
    (filter (λ i, truthy (lesson_slug_of (default (RootNode ∅) (materials !! i))) = true)
            (seq 0 (length materials)))
    attrs.

(** ** The sessions of a course *)

(** A session as the hooks of [Course] see it. *)
Record SessionObj := mkSessionObj {
  session_slug : string;
  session_date : option datetime.date;
  session_materials : list Node;
  session_serial : option string;
}.

(** A course being loaded: the course, its ordered dict of sessions (a list,
    keyed by the slugs of the sessions), and the [prev] and [next]
    attributes of the sessions. *)
Record CourseLoad := mkCourseLoad {
  load_course : Course.t;
  load_sessions : list SessionObj;
  load_links : gmap string (option string * option string);
}.

(** A tuple comparison [version < (major, minor)]. *)
Definition version_lt (version bound : Z * Z) : bool :=
  (version.1 <? bound.1) || ((version.1 =? bound.1) && (version.2 <? bound.2)).

(** The lesson slugs that the nested loop of [_sessions_after_load] adds,
    in order. *)
Definition material_lesson_slugs (sessions : list SessionObj) : list string :=
  sessions ≫= λ session,
    omap (λ material,
            if truthy (lesson_slug_of material) then lesson_slug_of material else None)
         (session_materials session).

(** [for serial, session in enumerate(sessions, start=1):
       session.serial = str(serial)] *)
Fixpoint number_sessions (serial : nat) (sessions : list SessionObj) : list SessionObj :=
  match sessions with
  | [] => []
  | session :: sessions =>
      mkSessionObj (session_slug session) (session_date session)
        (session_materials session) (Some (pretty serial))
      :: number_sessions (S serial) sessions
  end.

(** The after-load hook [Course._sessions_after_load], for a document of
    the given API version. *)
Definition _sessions_after_load (version : Z * Z) (self : CourseLoad) : CourseLoad :=
  let links := set_prev_next (session_slug <$> load_sessions self) (load_links self) in
  let course :=
    fold_left
      (λ course slug,
         Course.set_requested_lessons ({[slug]} ∪ Course._requested_lessons course) course)
      (material_lesson_slugs (load_sessions self)) (load_course self) in
  let sessions :=
    if version_lt version (0, 1) && bool_decide (1 < length (load_sessions self))%nat
    then number_sessions 1 (load_sessions self)
    else load_sessions self in
  mkCourseLoad course sessions links.

(** Python's order on dates. *)
Definition date_lt (d1 d2 : datetime.date) : bool :=
  (datetime.year d1 <? datetime.year d2)
  || ((datetime.year d1 =? datetime.year d2)
      && ((datetime.month d1 <? datetime.month d2)
          || ((datetime.month d1 =? datetime.month d2)
              && (datetime.day d1 <? datetime.day d2)))).

(** [min(dates, default=None)] and [max(dates, default=None)]: the first
    least and the first greatest element. *)
Definition min_date (dates : list datetime.date) : option datetime.date :=
  match dates with
  | [] => None
  | d :: dates => Some (fold_left (λ m d', if date_lt d' m then d' else m) dates d)
  end.
Definition max_date (dates : list datetime.date) : option datetime.date :=
  match dates with
  | [] => None
  | d :: dates => Some (fold_left (λ m d', if date_lt m d' then d' else m) dates d)
  end.

(** [(d for d in dates if d)] over the dates of the sessions. *)
Definition session_dates (sessions : list SessionObj) : list datetime.date :=
  omap session_date sessions.

(** The default factories of [Course.start_date] and [Course.end_date]. *)
Definition default_start_date (sessions : list SessionObj) : option datetime.date :=
  min_date (session_dates sessions).
Definition default_end_date (sessions : list SessionObj) : option datetime.date :=
  max_date (session_dates sessions).

(** ** More of Material and Course *)

(** [Material.url_or_none(self, *args, **kwargs)] *)
Definition url_or_none (self : Node) (url_type : string) : M Course.t PyVal :=
  try_except (Material.get_url self url_type) NoURL (ret VNone).

(** [Course._has_lesson(self, slug)] ([self.course] is [self]). *)
Definition _has_lesson (slug : string) (self : Course.t) : bool :=
  bool_decide (slug ∈ dom (Course._lessons self))
  || bool_decide (slug ∈ Course._requested_lessons self).

(** ** The cover pages of a session *)

(** A session page as [load(SessionPage, ..., slug=slug, parent=self)]
    builds it. *)
Record SessionPageObj := mkSessionPageObj {
  session_page_slug : string;
  session_page_content : string;
}.

(** Modelled from the spec: [naucse.converters.load] is not among the
    sources.  Loaded from the empty document [{'session-page': {}}], a
    [SessionPage] takes the default of its only field: [content], with
    the factory [str]. *)
Definition default_session_page (slug : string) : SessionPageObj :=
  mkSessionPageObj slug "".

(** The after-load hook [Session._set_pages], on the value of [self.pages];
    it returns the new value. *)
Definition _set_pages (pages : option (gmap string SessionPageObj))
  : gmap string SessionPageObj :=
  let pages :=
    match pages with
    | Some pages => if decide (pages = ∅) then ∅ else pages
    | None => ∅
    end in
  fold_left
    (λ pages slug,
       if decide (slug ∈ dom pages) then pages
       else <[slug := default_session_page slug]> pages)
    ["front"; "back"] pages.

(** ** The timezone of a course *)

(** The after-load hook [Course.set_timezone], for the value of
    [self._timezone_name] as loaded: the new [_timezone_name] and
    [timezone].  [dateutil.tz.gettz] is a parameter; it returns [None] for
    a name it does not know. *)
Definition set_timezone (gettz : string → option datetime.tzinfo)
    (version : Z * Z) (_timezone_name : option string)
  : option string * option datetime.tzinfo :=
  if version_lt version (0, 3) then
    (Some "Europe/Prague", gettz "Europe/Prague")
  else if truthy _timezone_name then
    (_timezone_name, gettz (default "" _timezone_name))
  else
    (_timezone_name, None).

(** ** Titles of pages *)

Record PageObj := mkPageObj {
  page_slug : string;
  page_title : option string;
  page_subtitle : option string;
}.

(** [str(v)] of an optional string inside an f-string. *)
Definition str_of_option (o : option string) : string := default "None" o.

(** The after-load hook [Page._generate_title]; [lesson_title] is
    [self.lesson.title]. *)
Definition _generate_title (lesson_title : option string) (self : PageObj)
  : Result PageObj :=
  match page_title self with
  | Some _ => Ok self
  | None =>
      if decide (page_slug self = "index") then
        Ok (mkPageObj (page_slug self) lesson_title (page_subtitle self))
      else
        match page_subtitle self with
        | None => Raise (Exn ValueError "Either title or subtitle is required")
        | Some subtitle =>
            Ok (mkPageObj (page_slug self)
                  (Some (str_of_option lesson_title +:+ " – " +:+ subtitle))
                  (page_subtitle self))
        end
  end.

(** The after-load hook [Lesson._set_title]: the new [self.title]. *)
Definition _set_title (title : option string) (pages : gmap string PageObj)
  : Result (option string) :=
  match title with
  | Some _ => Ok title
  | None =>
      match pages !! "index" with
      | Some page => Ok (page_title page)
      | None => Raise (Exn KeyError "index")
      end
  end.

(** ** The material of a lesson *)

(** The loop of the property [Lesson.material] over the materials of the
    sessions, in order.  [material.lesson] reads [course.lessons[slug]] when
    the material has a [lesson_slug] (also an empty one).  Lessons are
    compared as objects; the lesson stored under a slug is never replaced,
    so the lesson [self] of this course is the one stored under
    [self_slug], and no other.  Falling off the loop returns [None]. *)
Fixpoint lesson_material (self_slug : string) (materials : list Node)
  : M Course.t (option Node) :=
  match materials with
  | [] => ret None
  | material :: rest =>
      match lesson_slug_of material with
      | None => lesson_material self_slug rest
      | Some slug =>
          bind (_LessonsDict.__getitem__ slug)
            (λ _, if decide (slug = self_slug) then ret (Some material)
                  else lesson_material self_slug rest)
      end
  end.

(** [for session in sessions.values(): for material in session.materials] *)
Definition all_materials (sessions : list SessionObj) : list Node :=
  sessions ≫= session_materials.

(** The characters of a string. *)
Fixpoint chars (s : string) : list ascii :=
  match s with
  | EmptyString => []
  | String a s' => a :: chars s'
  end.

(** ** The recent runs derived from a course *)

(** A course object among those of the root.  Courses are compared as
    objects ([course.base_course == self], no [__eq__] is defined), so an
    object carries its identity; [base_course] is the identity of the
    object that [_set_base_course] stored, or [None]. *)
Record CourseObj := mkCourseObj {
  obj_id : nat;
  obj_course : Course.t;
  canonical : bool;
  base_course : option nat;
}.

(** [result.sort(key=key, reverse=True)] on the decorated list: the sort is
    stable, elements with equal keys keep their order. *)
Fixpoint insert_reverse {A} (x : datetime.date * A) (l : list (datetime.date * A))
  : list (datetime.date * A) :=
  match l with
  | [] => [x]
  | y :: l' => if date_lt x.1 y.1 then y :: insert_reverse x l' else x :: l
  end.
Definition sort_reverse {A} (l : list (datetime.date * A)) : list (datetime.date * A) :=
  foldr insert_reverse [] l.

(** The loop of [Course.get_recent_derived_runs] over
    [self.root.courses.values()]; each course is kept with its
    [start_date], the key of the sort.  [course.end_date > cutoff] on an
    [end_date] that is [None] is a [TypeError]. *)
Fixpoint recent_loop (cutoff : datetime.date) (self : CourseObj)
    (courses : list CourseObj) (result : list (datetime.date * CourseObj))
  : Result (list (datetime.date * CourseObj)) :=
  match courses with
  | [] => Ok result
  | course :: rest =>
      match Course.start_date (obj_course course) with
      | None => recent_loop cutoff self rest result
      | Some start_date =>
          if decide (base_course course = Some (obj_id self)) then
            match Course.end_date (obj_course course) with
            | None =>
                Raise (Exn TypeError
                  "'>' not supported between instances of 'NoneType' and 'datetime.date'")
            | Some end_date =>
                if date_lt cutoff end_date
                then recent_loop cutoff self rest (result ++ [(start_date, course)])
                else recent_loop cutoff self rest result
            end
          else recent_loop cutoff self rest result
      end
  end.

(** [Course.get_recent_derived_runs(self)].  [cutoff] is
    [datetime.date.today() - datetime.timedelta(days=2*30)], a value of the
    library; [courses] is [self.root.courses.values()]. *)
Definition get_recent_derived_runs (cutoff : datetime.date)
    (courses : list CourseObj) (self : CourseObj) : Result (list CourseObj) :=
  match (if canonical self then recent_loop cutoff self courses [] else Ok []) with
  | Raise e => Raise e
  | Ok result => Ok ((sort_reverse result).*2)
  end.

(** A run that [get_recent_derived_runs] keeps. *)
Definition is_recent_run (cutoff : datetime.date) (self course : CourseObj) : bool :=
  match Course.start_date (obj_course course), Course.end_date (obj_course course) with
  | Some _, Some end_date =>
      bool_decide (base_course course = Some (obj_id self)) && date_lt cutoff end_date
  | _, _ => false
  end.

(** A course on which the comparison with the cutoff fails. *)
Definition lacks_end_date (self course : CourseObj) : Prop :=
  is_Some (Course.start_date (obj_course course))
  ∧ base_course course = Some (obj_id self)
  ∧ Course.end_date (obj_course course) = None.

(** The courses that the loop keeps, with their keys. *)
Definition keyed_recent_runs (cutoff : datetime.date) (self : CourseObj)
    (courses : list CourseObj) : list (datetime.date * CourseObj) :=
  omap (λ course, if is_recent_run cutoff self course
                  then (λ d, (d, course)) <$> Course.start_date (obj_course course)
                  else None) courses.

(** ** Session times in documents *)

(** [dateformat.replace('%z', '')] *)
Fixpoint remove_z (dateformat : string) : string :=
  match dateformat with
  | String "%"%char (String "z"%char rest) => remove_z rest
  | String a rest => String a (remove_z rest)
  | EmptyString => EmptyString
  end.

(** [_strptime_with_optional_z(data, dateformat)].
    [datetime.datetime.strptime] is a parameter, with the data first as in
    the call. *)
Definition _strptime_with_optional_z
    (strptime : string → string → Result datetime.datetime)
    (data dateformat : string) : Result datetime.datetime :=
  let dateformat :=
    if negb (bool_decide ("+"%char ∈ chars data) || bool_decide ("-"%char ∈ chars data))
    then remove_z dateformat else dateformat in
  strptime data dateformat.

(** [SessionTimeConverter.load(self, data, context)] *)
Definition SessionTimeConverter_load
    (strptime : string → string → Result datetime.datetime)
    (data : string) : Result Session.TimeValue :=
  let time_format :=
    if decide (length (filter (λ c, c = ":"%char) (chars data)) = 2%nat)
    then "%H:%M:%S" else "%H:%M" in
  match _strptime_with_optional_z strptime data ("%Y-%m-%d " +:+ time_format +:+ "%z") with
  | Ok value => Ok (Session.TDatetime value)
  | Raise e =>
      if isinstance e ValueError then
        match _strptime_with_optional_z strptime data (time_format +:+ "%z") with
        | Ok value => Ok (Session.TTime (datetime.timetz value))
        | Raise e' => Raise e'
        end
      else Raise e
  end.

(** The formats that the converter passes to [strptime] before it drops
    [%z]: a date and a time, or a time alone, with or without seconds. *)
Definition formats_without_z : list string :=
  ["%Y-%m-%d %H:%M:%S"; "%Y-%m-%d %H:%M"; "%H:%M:%S"; "%H:%M"].

(** What the library's [strptime] is known to do with these formats, with
    and without a final [%z].  Data that does not match the format is a
    [ValueError].  The directive [%z] matches [Z] or a sign followed by
    digits, colons and a dot, and the whole of the data must match: data
    that is parsed with [%z] at the end of the format ends with [Z] (or
    [z]), or holds a sign with no space and no other sign behind it. *)
Definition ends_with_offset (data : string) : Prop :=
  (∃ before, chars data = before ++ ["Z"%char])
  ∨ (∃ before, chars data = before ++ ["z"%char])
  ∨ (∃ before sign offset,
       chars data = before ++ sign :: offset
       ∧ (sign = "+"%char ∨ sign = "-"%char)
       ∧ (" "%char ∉ offset) ∧ ("+"%char ∉ offset) ∧ ("-"%char ∉ offset)).

Record strptime_of_library (strptime : string → string → Result datetime.datetime)
  : Prop := {
  strptime_raises_ValueError :
    ∀ data format e,
      format ∈ formats_without_z ++ ((λ f, f +:+ "%z") <$> formats_without_z) →
      strptime data format = Raise e → exn_class e = ValueError;
  strptime_offset :
    ∀ data format value,
      format ∈ formats_without_z →
      strptime data (format +:+ "%z") = Ok value → ends_with_offset data;
}.

(** [time_from_string(time_string)] *)
Definition time_from_string
    (strptime : string → string → Result datetime.datetime)
    (time_string : string) : Result datetime.time :=
  match _strptime_with_optional_z strptime time_string "%H:%M" with
  | Ok value => Ok (datetime.timetz value)
  | Raise e => Raise e
  end.

(** [TimeIntervalConverter.load(self, data, context)]: the entries of the
    dict display are evaluated in order. *)
Definition TimeIntervalConverter_load
    (strptime : string → string → Result datetime.datetime)
    (data : gmap string string) : Result (gmap string datetime.time) :=
  match data !! "start" with
  | None => Raise (Exn KeyError "start")
  | Some start =>
      match time_from_string strptime start with
      | Raise e => Raise e
      | Ok start =>
          match data !! "end" with
          | None => Raise (Exn KeyError "end")
          | Some end_ =>
              match time_from_string strptime end_ with
              | Raise e => Raise e
              | Ok end_ => Ok (<["end" := end_]> (<["start" := start]> ∅))
              end
          end
      end
  end.

(** Known of the library: only the directive [%z] gives a result its
    [tzinfo]. *)
Definition strptime_without_z_is_naive
    (strptime : string → string → Result datetime.datetime) : Prop :=
  ∀ data value, strptime data "%H:%M" = Ok value →
                datetime.tzinfo_ (datetime.timetz value) = None.

(** ** Predicates used in the statements *)

(** The class of the parent that the loaders give an object of class [cls]:
    courses, run years and licenses hang off the root, sessions and lessons
    off a course, materials and session pages off a session, pages and
    static files off a lesson, solutions off a page. *)
Definition parent_class (cls : ModelClass) : option ModelClass :=
  match cls with
  | ClsRoot => None
  | ClsCourse | ClsRunYear | ClsLicense => Some ClsRoot
  | ClsSession | ClsLesson => Some ClsCourse
  | ClsMaterial | ClsSessionPage => Some ClsSession
  | ClsPage | ClsStaticFile => Some ClsLesson
  | ClsSolution => Some ClsPage
  end.

Fixpoint well_parented (n : Node) : bool :=
  match n with
  | RootNode _ => true
  | ChildNode cls parent _ _ =>
      bool_decide (parent_class cls = Some (type_of parent)) && well_parented parent
  end.

(** The key that [get_pks] of class [cls] adds to the parent's keys. *)
Definition own_key (cls : ModelClass) : string :=
  match cls with
  | ClsStaticFile => "filename"
  | ClsSessionPage => "page_slug"
  | ClsRunYear => "year"
  | _ => model_slug cls +:+ "_" +:+ default "None" (pk_name cls)
  end.

(** The position of a node in the graph: the classes and primary-key values
    on the way down from the root. *)
Fixpoint position (n : Node) : list (ModelClass * PyVal) :=
  match n with
  | RootNode _ => []
  | ChildNode cls parent pk _ => position parent ++ [(cls, pk)]
  end.

(** What the loader leaves alone in a course: everything but the lessons,
    the requested lessons and the log of renderer calls. *)
Record same_settings (c c' : Course.t) : Prop := {
  same_parent : Course.parent c' = Course.parent c;
  same_slug : Course.slug c' = Course.slug c;
  same_default_time : Course.default_time c' = Course.default_time c;
  same_timezone : Course.timezone c' = Course.timezone c;
  same_start_date : Course.start_date c' = Course.start_date c;
  same_end_date : Course.end_date c' = Course.end_date c;
  same_frozen : Course._frozen c' = Course._frozen c;
  same_renderer : Course.renderer_get_lessons c' = Course.renderer_get_lessons c;
}.

(** A step that at most requests more lessons. *)
Definition requests_only (c c' : Course.t) : Prop :=
  same_settings c c'
  ∧ Course._lessons c' = Course._lessons c
  ∧ Course.fetched c' = Course.fetched c
  ∧ Course._requested_lessons c ⊆ Course._requested_lessons c'.


(** Every link of a loaded lesson leads to a lesson that is loaded or
    requested. *)
Definition links_tracked (self : Course.t) : Prop :=
  ∀ slug lesson link,
    Course._lessons self !! slug = Some lesson →
    link ∈ page_links lesson →
    link.1 ∈ dom (Course._lessons self) ∨ link.1 ∈ Course._requested_lessons self.

(** Every link of a loaded lesson leads to a loaded lesson. *)
Definition links_resolved (self : Course.t) : Prop :=
  ∀ slug lesson link,
    Course._lessons self !! slug = Some lesson →
    link ∈ page_links lesson →
    link.1 ∈ dom (Course._lessons self).

(** [self.run_years[year][slug]], when both keys are present. *)
Definition run_of (self : Root.t) (year : Z) (slug : string) : option Course.t :=
  run_year ← Root.run_years self !! year; RunYear.runs run_year !! slug.

(** The years a course is indexed under ([None] for a self-study course). *)
Definition span (course : Course.t) : option (Z * Z) :=
  match Course.start_date course, Course.end_date course with
  | Some s, Some e => Some (datetime.year s, datetime.year e)
  | _, _ => None
  end.

(** Whether a year lies in the span of a course. *)
Definition in_span (course : Course.t) (year : Z) : bool :=
  match span course with
  | Some (first, last) => bool_decide (first ≤ year ≤ last)
  | None => false
  end.

(** A course is time-bound or self-study: [start_date] and [end_date] are
    both set or both absent. *)
Definition dates_paired (course : Course.t) : Prop :=
  is_Some (Course.start_date course) ↔ is_Some (Course.end_date course).

(** The indices of a root are those derived from its courses: a course is
    stored under its own slug; it is in the run year [year] exactly when
    [year] lies in its span, and among the self-study courses exactly when
    it has no start date. *)
Record indices_derived (self : Root.t) : Prop := {
  courses_keyed : ∀ slug course,
    Root.courses self !! slug = Some course →
    Course.slug course = slug ∧ dates_paired course;
  run_years_derived : ∀ year slug course,
    run_of self year slug = Some course ↔
    Root.courses self !! slug = Some course
    ∧ ∃ first last, span course = Some (first, last) ∧ first ≤ year ≤ last;
  self_study_derived : ∀ slug course,
    Root.self_study_courses self !! slug = Some course ↔
    Root.courses self !! slug = Some course ∧ Course.start_date course = None;
}.

(** ** Sample objects *)

Module Sample.

(** A renderer backed by a fixed repository of lessons. *)
Definition repo_renderer (repo : gmap string Lesson) (slugs : gset string)
  : Result (gmap string Lesson) :=
  Ok (filter (λ kv, kv.1 ∈ slugs) repo).

(** A chain of [n] lessons, each but the last linking to the next. *)
Definition chain_slug (i : nat) : string := "lesson" +:+ pretty i.
Definition chain_lesson (n i : nat) : Lesson :=
  mkLesson (if decide (i < n)%nat then [(chain_slug (S i), "index")] else []).
Definition chain (n : nat) : gmap string Lesson :=
  list_to_map (map (λ i, (chain_slug i, chain_lesson n i)) (seq 1 n)).

Definition web_urls : gmap string (gmap ModelClass UrlFactory) :=
  {[ "web" :=
       {[ ClsPage := (λ pks _, Ok ("/page/" +:+ join "/" (map (λ kv, py_str kv.2) pks)));
          ClsLesson := (λ pks _, Ok ("/lesson/" +:+ join "/" (map (λ kv, py_str kv.2) pks))) ]} ]}.

Definition root : Node := RootNode web_urls.

(** A course as [Course.__init__] and the loader leave it, with the given
    renderer and the lessons its materials refer to. *)
Definition course (slug : string) (requested : gset string)
    (renderer : gset string → Result (gmap string Lesson)) : Course.t :=
  Course.mk root slug None None None None false ∅ requested renderer [].

(** A course whose only material refers to the first lesson of a chain. *)
Definition chain_course (n : nat) : Course.t :=
  course "course" {[chain_slug 1]} (repo_renderer (chain n)).

Definition frozen_course : Course.t :=
  Course.set_frozen true (course "course" ∅ (repo_renderer ∅)).




Definition session_node : Node :=
  ChildNode ClsSession (Course.node (chain_course 2)) (VStr "first") NoFields.

Definition material (external_url lesson_slug : option string) : Node :=
  ChildNode ClsMaterial session_node VNone
    (MaterialFields (Some "A material") "link" external_url lesson_slug).


(** A page under a root that registers no URL factory at all. *)
Definition page_without_urls : Node :=
  ChildNode ClsPage
    (ChildNode ClsLesson (ChildNode ClsCourse (RootNode ∅) (VStr "course") NoFields)
       (VStr "intro") NoFields)
    (VStr "index") NoFields.

Definition static_file : Node :=
  ChildNode ClsStaticFile (Course.lesson_node (chain_course 2) "intro")
    (VStr "img.png") NoFields.

Definition t (h m : Z) : datetime.time := datetime.mktime h m 0 None.

(** A course with [default_time = {start: 09:00, end: 12:00}] and the
    timezone Europe/Prague. *)
Definition prague_course : Course.t :=
  Course.mk root "2024/spring"
    (Some {[ "start" := t 9 0; "end" := t 12 0 ]})
    (Some (datetime.tzfile "Europe/Prague"))
    None None false ∅ ∅ (repo_renderer ∅) [].

Definition session (date : option datetime.date)
    (time : option (gmap string Session.TimeValue)) (course : Course.t) : Session.t :=
  Session.mk "first" date time course.

(** Courses for the indices of the root: a run over two years, a run within
    one year, and a self-study course, all under one slug. *)
Definition dated_course (slug : string) (first last : Z) : Course.t :=
  Course.mk root slug None None
    (Some (datetime.mkdate first 9 1)) (Some (datetime.mkdate last 6 30))
    false ∅ ∅ (repo_renderer ∅) [].

Definition empty_root : Root.t := Root.mk web_urls ∅ ∅ ∅.

(** A self-study course: no dates. *)
Definition self_study (slug : string) : Course.t := course slug ∅ (repo_renderer ∅).

(** A root that holds the run [2023/spring] of the years 2023 and 2024. *)
Definition root_with_run : Root.t :=
  (Root.add_course (dated_course "2023/spring" 2023 2024) empty_root).2.

(** A root that holds a run of the years 2023 and 2024 under a slug that
    names the year 2022. *)
Definition root_with_misfiled_run : Root.t :=
  (Root.add_course (dated_course "2022/spring" 2023 2024) empty_root).2.

End Sample.


(** More sample objects: a course with two sessions being loaded. *)
Module SampleSessions.

Definition first : SessionObj :=
  mkSessionObj "first" (Some (datetime.mkdate 2024 3 4))
    [Sample.material None (Some "lesson1");
     Sample.material (Some "https://example.org/") None] None.

Definition second : SessionObj :=
  mkSessionObj "second" (Some (datetime.mkdate 2024 3 11))
    [Sample.material None (Some "lesson2")] None.

Definition loading : CourseLoad :=
  mkCourseLoad (Sample.course "course" ∅ (Sample.repo_renderer (Sample.chain 2)))
    [first; second] ∅.

End SampleSessions.

(** * Properties *)

(** ** Exceptions and the monad *)

Lemma isinstance_NoURL (e : exn) :
  isinstance e NoURL = true ↔ exn_class e = NoURL ∨ exn_class e = NoURLType.
Proof.
  destruct e as [c arg]; unfold isinstance; simpl.
  destruct c; vm_compute; split; intros H; try reflexivity;
    try discriminate; try (destruct H; discriminate); auto.
Qed.

Lemma try_except_ok {S A} (m h : M S A) (c : ExcClass) (s s' : S) (a : A) :
  m s = (Ok a, s') → try_except m c h s = (Ok a, s').
Proof. unfold try_except; intros ->; reflexivity. Qed.

Lemma try_except_caught {S A} (m h : M S A) (c : ExcClass) (s s' : S) (e : exn) :
  m s = (Raise e, s') → isinstance e c = true → try_except m c h s = h s'.
Proof. unfold try_except; intros -> ->; reflexivity. Qed.

Lemma try_except_passed {S A} (m h : M S A) (c : ExcClass) (s s' : S) (e : exn) :
  m s = (Raise e, s') → isinstance e c = false → try_except m c h s = (Raise e, s').
Proof. unfold try_except; intros -> ->; reflexivity. Qed.

(** ** URL resolution *)

(** C10. On a frozen course, [get_lesson_url] of a slug that is not among the
    materialized lessons raises nothing: it returns a [KeyError] object as
    its value, and leaves the course, its requested lessons included, as it
    was. *)
Theorem get_lesson_url_frozen_returns_KeyError
    (self : Course.t) (slug page url_type : string) (external : bool) :
  Course._frozen self = true →
  slug ∉ dom (Course._lessons self) →
  Course.get_lesson_url slug page url_type external self
  = (Ok (VExc KeyError slug), self).
Proof.
  intros Hfrozen Hmissing. unfold Course.get_lesson_url.
  destruct (decide (slug ∈ dom (Course._lessons self))) as [Hin|_]; [done|].
  by rewrite Hfrozen.
Qed.

Lemma get_lesson_url_frozen_returns_KeyError_witness :
  Course.get_lesson_url "intro" "index" "web" false Sample.frozen_course
  = (Ok (VExc KeyError "intro"), Sample.frozen_course)
  ∧ Course._requested_lessons
      (Course.get_lesson_url "intro" "index" "web" false Sample.frozen_course).2
    = Course._requested_lessons Sample.frozen_course.
Proof.
  assert (H : Course.get_lesson_url "intro" "index" "web" false Sample.frozen_course
              = (Ok (VExc KeyError "intro"), Sample.frozen_course)).
  { apply get_lesson_url_frozen_returns_KeyError.
    - reflexivity.
    - vm_compute; discriminate. }
  split; [exact H | by rewrite H].
Defined.




(** C8. The after-load hook of [lesson_slug] raises a [ValueError] exactly
    when [lesson_slug] and [external_url] are both set, that is, both are
    non-empty strings, as for [lesson_slug="intro"] with
    [external_url="https://x"].  Every other material passes the hook: one
    that lacks one of the two fields, and also one that gives one of them
    as the empty string. *)
Theorem material_lesson_slug_excludes_external_url
    (parent : Node) (pk : PyVal) (title : option string) (type : string)
    (external_url lesson_slug : option string) :
  (Material._validate_lesson_slug
     (ChildNode ClsMaterial parent pk
        (MaterialFields title type external_url lesson_slug))
   = Raise (Exn ValueError "external_url and lesson_slug are incompatible")
   ↔ ∃ url slug, external_url = Some url ∧ lesson_slug = Some slug
                 ∧ url ≠ "" ∧ slug ≠ "")
  ∧ (Material._validate_lesson_slug
       (ChildNode ClsMaterial parent pk
          (MaterialFields title type external_url lesson_slug))
     = Ok tt
     ↔ external_url = None ∨ external_url = Some ""
       ∨ lesson_slug = None ∨ lesson_slug = Some "")
  ∧ Material._validate_lesson_slug
      (ChildNode ClsMaterial parent pk
         (MaterialFields title type (Some "https://x") (Some "intro")))
    = Raise (Exn ValueError "external_url and lesson_slug are incompatible")
  ∧ Material._validate_lesson_slug
      (ChildNode ClsMaterial parent pk
         (MaterialFields title type (Some "") (Some "intro")))
    = Ok tt.
Proof.
  assert (Htruthy : ∀ o, truthy o = true ↔ ∃ v, o = Some v ∧ v ≠ "").
  { intros [v|]; simpl.
    - rewrite bool_decide_eq_true. split; [by eexists|]. by intros (? & [= <-] & ?).
    - split; [done|]. by intros (? & ? & _). }
  assert (Hfalsy : ∀ o, truthy o = false ↔ o = None ∨ o = Some "").
  { intros [v|]; simpl.
    - rewrite bool_decide_eq_false. split.
      + intros Hv. right. f_equal. by destruct (decide (v = "")).
      + intros [?|[= ->]]; [done|]. by intros ?.
    - split; [by left|done]. }
  split; [|split; [|split]]; try reflexivity.
  - simpl. destruct (truthy lesson_slug) eqn:Hslug, (truthy external_url) eqn:Hurl;
      simpl; split; try done.
    + intros _. apply Htruthy in Hslug as (slug & -> & ?).
      apply Htruthy in Hurl as (url & -> & ?). by eexists _, _.
    + intros (url & slug & -> & -> & Hu & Hs).
      apply Hfalsy in Hurl as [?|[= ->]]; done.
    + intros (url & slug & -> & -> & Hu & Hs).
      apply Hfalsy in Hslug as [?|[= ->]]; done.
    + intros (url & slug & -> & -> & Hu & Hs).
      apply Hfalsy in Hslug as [?|[= ->]]; done.
  - simpl. destruct (truthy lesson_slug) eqn:Hslug, (truthy external_url) eqn:Hurl;
      simpl; split; try done.
    + apply Htruthy in Hslug as (slug & -> & ?).
      apply Htruthy in Hurl as (url & -> & ?).
      intros [?|[[= ->]|[?|[= ->]]]]; done.
    + intros _. apply Hfalsy in Hurl. tauto.
    + intros _. apply Hfalsy in Hslug. tauto.
    + intros _. apply Hfalsy in Hslug. tauto.
Qed.

Lemma material_lesson_slug_excludes_external_url_witness :
  Material._validate_lesson_slug (Sample.material (Some "https://x") (Some "intro"))
  = Raise (Exn ValueError "external_url and lesson_slug are incompatible")
  ∧ Material._validate_lesson_slug (Sample.material (Some "https://x") None) = Ok tt
  ∧ Material._validate_lesson_slug (Sample.material (Some "https://x") (Some "")) = Ok tt.
Proof.
  split; [|split].
  - apply (proj1 (material_lesson_slug_excludes_external_url Sample.session_node VNone
                    (Some "A material") "link" (Some "https://x") (Some "intro"))).
    exists "https://x", "intro". by repeat split.
  - apply (proj1 (proj2 (material_lesson_slug_excludes_external_url
                           Sample.session_node VNone
                           (Some "A material") "link" (Some "https://x") None))).
    right; right; by left.
  - apply (proj1 (proj2 (material_lesson_slug_excludes_external_url
                           Sample.session_node VNone
                           (Some "A material") "link" (Some "https://x") (Some "")))).
    by do 3 right.
Defined.

(** The claim C4 as stated fails: for a page whose root registers no URL
    factory, [get_url] raises [NoURLType], and [_url] swallows it and yields
    [None]. *)
Lemma url_swallows_NoURLType :
  get_url Sample.page_without_urls "web" true Sample.frozen_course
  = (Raise (Exn NoURLType "web"), Sample.frozen_course)
  ∧ _url Sample.page_without_urls Sample.frozen_course
    = (Ok VNone, Sample.frozen_course).
Proof. split; reflexivity. Qed.

(** C4 (amended). The property [_url] returns what [get_url(external=True)]
    returns; it yields [None] when that call raises [NoURL] or its subclass
    [NoURLType], and lets every other exception through. *)
Theorem url_swallows_NoURL_and_subclass
    (self : Node) (course course' : Course.t) (r : Result PyVal) :
  get_url self "web" true course = (r, course') →
  match r with
  | Ok v => _url self course = (Ok v, course')
  | Raise e =>
      (exn_class e = NoURL ∨ exn_class e = NoURLType →
       _url self course = (Ok VNone, course'))
      ∧ (exn_class e ≠ NoURL → exn_class e ≠ NoURLType →
         _url self course = (Raise e, course'))
  end.
Proof.
  intros Hget. unfold _url. destruct r as [v|e].
  - by apply try_except_ok.
  - split.
    + intros Hclass. apply isinstance_NoURL in Hclass.
      by rewrite (try_except_caught _ _ _ _ _ _ Hget Hclass).
    + intros Hne1 Hne2. apply try_except_passed; [done|].
      destruct (isinstance e NoURL) eqn:Hinst; [|done].
      apply isinstance_NoURL in Hinst. tauto.
Qed.

Lemma url_swallows_NoURL_and_subclass_witness :
  _url Sample.page_without_urls Sample.frozen_course = (Ok VNone, Sample.frozen_course)
  ∧ _url (Sample.material None None) Sample.frozen_course
    = (Ok VNone, Sample.frozen_course).
Proof.
  split.
  - refine (proj1 (url_swallows_NoURL_and_subclass Sample.page_without_urls
                     Sample.frozen_course Sample.frozen_course
                     (Raise (Exn NoURLType "web")) _) _).
    + reflexivity.
    + right; reflexivity.
  - refine (proj1 (url_swallows_NoURL_and_subclass (Sample.material None None)
                     Sample.frozen_course Sample.frozen_course
                     (Raise (Exn NoURL (repr (Sample.material None None)))) _) _).
    + reflexivity.
    + left; reflexivity.
Defined.

(** ** Primary keys *)

(** Case analysis on a class whose parent has the class [parent_class]
    gives it. *)
Ltac by_parent_class Hclass :=
  simpl in Hclass;
  first [ discriminate Hclass
        | injection Hclass as Hclass; rewrite <- Hclass ].

(** A decidable closed proposition, by evaluation. *)
Ltac by_evaluation := apply (bool_decide_unpack _); vm_compute; exact I.

Lemma dict_set_fresh (k : string) (v : PyVal) (d : Pks) :
  k ∉ dict_keys d → dict_set k v d = d ++ [(k, v)].
Proof.
  unfold dict_keys. induction d as [|[k' v'] d IH]; simpl; intros Hfresh; [done|].
  apply not_elem_of_cons in Hfresh as [Hne Hfresh].
  rewrite decide_False by congruence. by rewrite IH.
Qed.

Lemma get_pks_child (cls : ModelClass) (parent : Node) (pk : PyVal) (fields : Fields) :
  cls ≠ ClsRoot →
  get_pks (ChildNode cls parent pk fields) = dict_set (own_key cls) pk (get_pks parent).
Proof. intros Hcls. destruct cls; try reflexivity. congruence. Qed.

(** The keys of a node's primary keys are fixed by its class. *)
Lemma get_pks_keys (n : Node) :
  well_parented n = true →
  dict_keys (get_pks n)
  = match type_of n with
    | ClsRoot => []
    | ClsCourse => ["course_slug"]
    | ClsRunYear => ["year"]
    | ClsLicense => ["license_slug"]
    | ClsSession => ["course_slug"; "session_slug"]
    | ClsLesson => ["course_slug"; "lesson_slug"]
    | ClsMaterial => ["course_slug"; "session_slug"; "material_slug"]
    | ClsSessionPage => ["course_slug"; "session_slug"; "page_slug"]
    | ClsPage => ["course_slug"; "lesson_slug"; "page_slug"]
    | ClsStaticFile => ["course_slug"; "lesson_slug"; "filename"]
    | ClsSolution => ["course_slug"; "lesson_slug"; "page_slug"; "solution_index"]
    end.
Proof.
  induction n as [fs|cls parent IH pk fields]; [reflexivity|].
  simpl well_parented. intros Hwp. apply andb_true_iff in Hwp as [Hclass Hparent].
  apply bool_decide_eq_true in Hclass. specialize (IH Hparent).
  assert (Hcls : cls ≠ ClsRoot) by (intros ->; discriminate).
  rewrite (get_pks_child _ _ _ _ Hcls).
  assert (Hfresh : own_key cls ∉ dict_keys (get_pks parent)).
  { rewrite IH. destruct cls; by_parent_class Hclass; by_evaluation. }
  rewrite (dict_set_fresh _ _ _ Hfresh). unfold dict_keys in *.
  rewrite fmap_app, IH. simpl type_of.
  destruct cls; by_parent_class Hclass; reflexivity.
Qed.

Lemma own_key_fresh (cls : ModelClass) (parent : Node) (pk : PyVal) (fields : Fields) :
  well_parented (ChildNode cls parent pk fields) = true →
  own_key cls ∉ dict_keys (get_pks parent).
Proof.
  simpl well_parented. intros Hwp. apply andb_true_iff in Hwp as [Hclass Hparent].
  apply bool_decide_eq_true in Hclass.
  rewrite (get_pks_keys _ Hparent).
  destruct cls; by_parent_class Hclass; by_evaluation.
Qed.

(** The primary keys of a node depend on its position only. *)
Lemma get_pks_position (n n' : Node) :
  position n = position n' → get_pks n = get_pks n'.
Proof.
  revert n'. induction n as [fs|cls parent IH pk fields];
    intros [fs'|cls' parent' pk' fields']; simpl position; intros Hpos.
  - reflexivity.
  - symmetry in Hpos. apply app_eq_nil in Hpos as [_ Hnil]. discriminate.
  - apply app_eq_nil in Hpos as [_ Hnil]. discriminate.
  - apply app_inj_tail in Hpos as [Hparent Hlast].
    inversion Hlast; subst cls' pk'.
    simpl. rewrite (IH _ Hparent). reflexivity.
Qed.

(** The claim C5 as stated fails for a static file: [StaticFile.get_pks]
    adds the key ["filename"], not the model slug and key field joined by an
    underscore (which would be ["static-file_filename"]). *)
Lemma static_file_key_is_not_prefixed :
  get_pks Sample.static_file
  = [("course_slug", VStr "course"); ("lesson_slug", VStr "intro");
     ("filename", VStr "img.png")]
  ∧ pk_name ClsStaticFile = Some "filename"
  ∧ model_slug ClsStaticFile +:+ "_" +:+ "filename" = "static-file_filename"
  ∧ "static-file_filename" ∉ dict_keys (get_pks Sample.static_file).
Proof.
  repeat split. by_evaluation.
Qed.

(** C5 (amended). For every node below the root, placed as the loaders
    place it, [get_pks] is the parent's primary keys followed by exactly
    one new entry, the node's own key value.  The key is the model slug, an
    underscore and the name of the key field, except for the classes that
    override [get_pks]: a static file adds ["filename"], a session page
    ["page_slug"] and a run year ["year"].  The result is a function of the
    node's position in the graph alone. *)
Theorem get_pks_extends_parent_by_own_key
    (cls : ModelClass) (parent : Node) (pk : PyVal) (fields : Fields) :
  well_parented (ChildNode cls parent pk fields) = true →
  get_pks (ChildNode cls parent pk fields) = get_pks parent ++ [(own_key cls, pk)]
  ∧ (own_key cls ∉ dict_keys (get_pks parent))
  ∧ (cls ∉ [ClsStaticFile; ClsSessionPage; ClsRunYear] →
     ∃ field, pk_name cls = Some field
              ∧ own_key cls = model_slug cls +:+ "_" +:+ field)
  ∧ own_key ClsStaticFile = "filename"
  ∧ own_key ClsSessionPage = "page_slug"
  ∧ own_key ClsRunYear = "year"
  ∧ (∀ n', position n' = position (ChildNode cls parent pk fields) →
           get_pks n' = get_pks (ChildNode cls parent pk fields)).
Proof.
  intros Hwp.
  assert (Hcls : cls ≠ ClsRoot).
  { intros ->. simpl in Hwp. discriminate. }
  pose proof (own_key_fresh _ _ _ _ Hwp) as Hfresh.
  split; [|split; [exact Hfresh|split; [|repeat split]]].
  - rewrite (get_pks_child _ _ _ _ Hcls). by apply dict_set_fresh.
  - intros Hplain. clear Hwp Hfresh.
    destruct cls; try (by destruct Hcls);
      try (by exfalso; apply Hplain; repeat constructor);
      (eexists; split; reflexivity).
  - intros n' Hpos. by apply get_pks_position.
Qed.

Lemma get_pks_extends_parent_by_own_key_witness :
  get_pks (ChildNode ClsSolution
             (ChildNode ClsPage (Course.lesson_node (Sample.chain_course 2) "intro")
                (VStr "index") NoFields)
             (VInt 0) NoFields)
  = get_pks (ChildNode ClsPage (Course.lesson_node (Sample.chain_course 2) "intro")
               (VStr "index") NoFields)
    ++ [("solution_index", VInt 0)]
  ∧ get_pks Sample.static_file
    = get_pks (Course.lesson_node (Sample.chain_course 2) "intro")
      ++ [("filename", VStr "img.png")].
Proof.
  split.
  - apply (get_pks_extends_parent_by_own_key ClsSolution). reflexivity.
  - apply (get_pks_extends_parent_by_own_key ClsStaticFile). reflexivity.
Defined.

(** ** Session times *)

(** The dict that the loop of [_fix_time] reads: [self.time], or the empty
    dict put in place of [None]. *)
Lemma fix_time_unfold (self : Session.t) (times : gmap string Session.TimeValue) :
  Session.time self = Some times →
  dom times = ({["start"; "end"]} : gset string) →
  Session._fix_time self = Session.fix_loop times ["start"; "end"] ∅ self.
Proof.
  intros Htime Hdom. unfold Session._fix_time. rewrite Htime.
  by rewrite decide_True.
Qed.

(** When both kinds resolve, [self.time] becomes the two stamped values. *)
Lemma fix_loop_resolved (self : Session.t) (times : gmap string Session.TimeValue)
    (s s' e e' : datetime.datetime) :
  Session.resolve self "start" (times !! "start") = Ok (Some s) →
  Session.stamp self "start" s = Ok s' →
  Session.resolve self "end" (times !! "end") = Ok (Some e) →
  Session.stamp self "end" e = Ok e' →
  Session.fix_loop times ["start"; "end"] ∅ self
  = (Ok tt,
     Session.set_time
       (Some (<["end" := Session.TDatetime e']> (<["start" := Session.TDatetime s']> ∅)))
       self).
Proof.
  intros Hs Hs' He He'. simpl. rewrite Hs, Hs', He, He'. reflexivity.
Qed.

Lemma resolve_ignores_time (self : Session.t) (tm : option (gmap string Session.TimeValue))
    (kind : string) (v : option Session.TimeValue) :
  Session.resolve (Session.set_time tm self) kind v = Session.resolve self kind v.
Proof. reflexivity. Qed.

Lemma stamp_ignores_time (self : Session.t) (tm : option (gmap string Session.TimeValue))
    (kind : string) (dt : datetime.datetime) :
  Session.stamp (Session.set_time tm self) kind dt = Session.stamp self kind dt.
Proof. reflexivity. Qed.

(** The time of a session after load.  (1) A [datetime] that carries an
    offset is used as it is.  (2) A bare time is combined with the date of
    the session.  (3) An absent value falls back to the course's
    [default_time] for that kind, combined with the date.  (4) Without a
    date, a value that is a bare time or absent makes the whole attribute
    [None], without an error.  A naive result is stamped with the timezone
    of the course, and without one a [ValueError] naming the kind and the
    session is raised.  When both kinds resolve, [self.time] holds the two
    stamped values.  The session of 2024-03-04 with no time, in a course
    with [default_time] 09:00 to 12:00 and timezone Europe/Prague, starts
    at 2024-03-04 09:00 and ends at 12:00, both in the zone Europe/Prague
    (whose offset on that day is the tz database's to give). *)
Theorem session_time_resolution :
  (∀ self kind dt tz,
      datetime.tzinfo_ (datetime.timetz dt) = Some tz →
      Session.resolve self kind (Some (Session.TDatetime dt)) = Ok (Some dt)
      ∧ Session.stamp self kind dt = Ok dt)
  ∧ (∀ self kind t d,
      Session.date self = Some d →
      Session.resolve self kind (Some (Session.TTime t))
      = Ok (Some (datetime.combine d t)))
  ∧ (∀ self kind d default_time t,
      Session.date self = Some d →
      Course.default_time (Session.course self) = Some default_time →
      default_time !! kind = Some t →
      Session.resolve self kind None = Ok (Some (datetime.combine d t)))
  ∧ (∀ self,
      Session.date self = None →
      (Session.time self = None
       ∨ ∃ times t, Session.time self = Some times
                    ∧ dom times = ({["start"; "end"]} : gset string)
                    ∧ times !! "start" = Some (Session.TTime t)) →
      Session._fix_time self = (Ok tt, Session.set_time None self))
  ∧ (∀ self kind dt,
      datetime.tzinfo_ (datetime.timetz dt) = None →
      match Course.timezone (Session.course self) with
      | Some tz => Session.stamp self kind dt = Ok (datetime.replace_tzinfo dt tz)
      | None =>
          Session.stamp self kind dt
          = Raise (Exn ValueError
                     (kind +:+ " time of session " +:+ Session.slug self
                      +:+ " is missing timezone information. Provide an offset "
                      +:+ "or set a timezone for the whole course."))
      end)
  ∧ (∀ self times s s' e e',
      (Session.time self = Some times
       ∧ dom times = ({["start"; "end"]} : gset string)
       ∨ Session.time self = None ∧ times = ∅) →
      Session.resolve self "start" (times !! "start") = Ok (Some s) →
      Session.stamp self "start" s = Ok s' →
      (Session.resolve self "end" (times !! "end") = Ok (Some e) →
       Session.stamp self "end" e = Ok e' →
       Session._fix_time self
       = (Ok tt,
          Session.set_time
            (Some (<["end" := Session.TDatetime e']>
                     (<["start" := Session.TDatetime s']> ∅)))
            self)))
  ∧ (∀ self times s e,
      Session.time self = Some times →
      dom times = ({["start"; "end"]} : gset string) →
      Session.resolve self "start" (times !! "start") = Ok (Some s) →
      Session.stamp self "start" s = Raise e →
      Session._fix_time self = (Raise e, self))
  ∧ (let self := Sample.session (Some (datetime.mkdate 2024 3 4)) None
                   Sample.prague_course in
     let start :=
       datetime.mkdatetime (datetime.mkdate 2024 3 4)
         (datetime.mktime 9 0 0 (Some (datetime.tzfile "Europe/Prague"))) in
     let end_ :=
       datetime.mkdatetime (datetime.mkdate 2024 3 4)
         (datetime.mktime 12 0 0 (Some (datetime.tzfile "Europe/Prague"))) in
     Session._fix_time self
     = (Ok tt,
        Session.set_time
          (Some (<["end" := Session.TDatetime end_]>
                   (<["start" := Session.TDatetime start]> ∅)))
          self)).
Proof.
  split; [|split; [|split; [|split; [|split; [|split; [|split]]]]]].
  - intros self kind dt tz Htz. split; [reflexivity|].
    unfold Session.stamp. by rewrite Htz.
  - intros self kind t d Hdate. simpl. by rewrite Hdate.
  - intros self kind d default_time t Hdate Hdefault Hkind. simpl.
    rewrite Hdate, Hdefault.
    destruct (decide (default_time = ∅)) as [->|_].
    + by rewrite lookup_empty in Hkind.
    + by rewrite Hkind.
  - intros self Hdate [Htime|(times & t & Htime & Hdom & Hstart)].
    + unfold Session._fix_time. rewrite Htime. simpl.
      rewrite lookup_empty. simpl. by rewrite Hdate.
    + rewrite (fix_time_unfold _ _ Htime Hdom). simpl.
      rewrite Hstart. simpl. by rewrite Hdate.
  - intros self kind dt Hnaive. unfold Session.stamp. rewrite Hnaive.
    by destruct (Course.timezone (Session.course self)).
  - intros self times s s' e e' [[Htime Hdom]|[Htime ->]] Hs Hs' He He'.
    + rewrite (fix_time_unfold _ _ Htime Hdom).
      by apply (fix_loop_resolved self times s s' e e').
    + unfold Session._fix_time. rewrite Htime.
      by rewrite (fix_loop_resolved (Session.set_time (Some ∅) self) ∅ s s' e e').
  - intros self times s e Htime Hdom Hs Hs'.
    rewrite (fix_time_unfold _ _ Htime Hdom). simpl. by rewrite Hs, Hs'.
  - reflexivity.
Qed.

Lemma session_time_resolution_witness :
  Session._fix_time (Sample.session None None Sample.prague_course)
  = (Ok tt, Session.set_time None (Sample.session None None Sample.prague_course))
  ∧ Session.resolve (Sample.session (Some (datetime.mkdate 2024 3 4)) None
                       Sample.prague_course) "start" None
    = Ok (Some (datetime.combine (datetime.mkdate 2024 3 4) (Sample.t 9 0))).
Proof.
  pose proof session_time_resolution as (_ & _ & Hdefault & Hnodate & _).
  split.
  - apply Hnodate; [reflexivity | left; reflexivity].
  - apply (Hdefault _ _ _ {[ "start" := Sample.t 9 0; "end" := Sample.t 12 0 ]});
      reflexivity.
Defined.

(** ** Loops in the monad *)

(** An invariant of the body is an invariant of the loop, whether the loop
    ends or raises. *)
Lemma for_each_invariant {S A} (P : S → Prop) (body : A → M S unit) (l : list A) :
  (∀ x s r s', x ∈ l → P s → body x s = (r, s') → P s') →
  ∀ s r s', P s → for_each body l s = (r, s') → P s'.
Proof.
  induction l as [|x l IH]; intros Hbody s r s' HP Hrun; simpl in Hrun.
  - unfold ret in Hrun. by inversion Hrun; subst.
  - assert (Htail : ∀ y s r s', y ∈ l → P s → body y s = (r, s') → P s').
    { intros y s2 r2 s3 Hy. apply Hbody. by right. }
    assert (Hhead : x ∈ x :: l) by left.
    unfold bind in Hrun. destruct (body x s) as [[[]|e] s1] eqn:Hx.
    + apply (IH Htail s1 r s'); [|done]. by eapply Hbody.
    + inversion Hrun; subst. by eapply Hbody.
Qed.

(** A loop that ends has run its body on every element; what a step
    establishes for its element, and later steps keep, holds at the end. *)
Lemma for_each_ok {S A} (P : S → Prop) (Q : A → S → Prop)
    (body : A → M S unit) (l : list A) :
  (∀ x s s', x ∈ l → P s → body x s = (Ok tt, s') → P s' ∧ Q x s') →
  (∀ x y s s', y ∈ l → P s → Q x s → body y s = (Ok tt, s') → Q x s') →
  ∀ s s', P s → for_each body l s = (Ok tt, s') → P s' ∧ ∀ x, x ∈ l → Q x s'.
Proof.
  induction l as [|x l IH]; intros Hstep Hkeep s s' HP Hrun; simpl in Hrun.
  - unfold ret in Hrun. inversion Hrun; subst. split; [done|].
    intros x Hx. by apply elem_of_nil in Hx.
  - assert (Hstep' : ∀ y s s', y ∈ l → P s → body y s = (Ok tt, s') → P s' ∧ Q y s').
    { intros y s2 s3 Hy. apply Hstep. by right. }
    assert (Hkeep' : ∀ z y s s', y ∈ l → P s → Q z s → body y s = (Ok tt, s') → Q z s').
    { intros z y s2 s3 Hy. apply Hkeep. by right. }
    assert (Hhead : x ∈ x :: l) by left.
    unfold bind in Hrun. destruct (body x s) as [[[]|e] s1] eqn:Hx; [|done].
    destruct (Hstep x s s1 Hhead HP Hx) as [HP1 HQ1].
    destruct (IH Hstep' Hkeep' s1 s' HP1 Hrun) as [HP' HQ'].
    split; [done|]. intros y Hy. apply elem_of_cons in Hy as [->|Hy]; [|by apply HQ'].
    (* the head's postcondition survives the rest of the loop *)
    clear IH HQ' Hx Hhead Hstep Hkeep.
    revert s1 HP1 HQ1 Hrun.
    induction l as [|y l IHl]; intros s1 HP1 HQ1 Hrun; simpl in Hrun.
    + unfold ret in Hrun. by inversion Hrun; subst.
    + unfold bind in Hrun. destruct (body y s1) as [[[]|e'] s2] eqn:Hy; [|done].
      assert (Hy_in : y ∈ y :: l) by left.
      apply (IHl (λ z a b Hz, Hstep' z a b (list_elem_of_further _ _ _ Hz))
                 (λ w z a b Hz, Hkeep' w z a b (list_elem_of_further _ _ _ Hz)) s2);
        [| |done].
      * by destruct (Hstep' y s1 s2 Hy_in HP1 Hy).
      * by apply (Hkeep' x y s1 s2).
Qed.

(** ** The lazy lesson loader *)

Lemma same_settings_refl (c : Course.t) : same_settings c c.
Proof. by split. Qed.

Lemma same_settings_trans (c1 c2 c3 : Course.t) :
  same_settings c1 c2 → same_settings c2 c3 → same_settings c1 c3.
Proof. intros [] []. split; congruence. Qed.

Lemma requests_only_refl (c : Course.t) : requests_only c c.
Proof. split; [apply same_settings_refl|]. by repeat split. Qed.

Lemma requests_only_trans (c1 c2 c3 : Course.t) :
  requests_only c1 c2 → requests_only c2 c3 → requests_only c1 c3.
Proof.
  intros (Hs1 & Hl1 & Hf1 & Hr1) (Hs2 & Hl2 & Hf2 & Hr2).
  split; [by eapply same_settings_trans|].
  split; [congruence|]. split; [congruence|]. set_solver.
Qed.

Lemma get_lesson_url_spec (slug page url_type : string) (external : bool)
    (c c' : Course.t) (r : Result PyVal) :
  Course.get_lesson_url slug page url_type external c = (r, c') →
  requests_only c c'
  ∧ (Course._frozen c = false →
     slug ∈ dom (Course._lessons c) ∨ slug ∈ Course._requested_lessons c').
Proof.
  unfold Course.get_lesson_url.
  destruct (decide (slug ∈ dom (Course._lessons c))) as [Hin|Hout].
  - intros [= _ <-]. split; [apply requests_only_refl | by left].
  - destruct (Course._frozen c) eqn:Hfrozen.
    + intros [= _ <-]. split; [apply requests_only_refl | done].
    + intros [= _ <-]. split.
      * repeat split; simpl; try done. set_solver.
      * intros _. right. simpl. set_solver.
Qed.

Lemma load_lesson_spec (lesson : Lesson) (c c' : Course.t) (r : Result unit) :
  Course.load_lesson lesson c = (r, c') →
  requests_only c c'
  ∧ (r = Ok tt → Course._frozen c = false →
     ∀ link, link ∈ page_links lesson →
       link.1 ∈ dom (Course._lessons c) ∨ link.1 ∈ Course._requested_lessons c').
Proof.
  unfold Course.load_lesson. intros Hrun.
  set (body := λ link : string * string,
         bind (Course.get_lesson_url link.1 link.2 "web" false) (λ _, ret tt)) in *.
  assert (Hbody : ∀ link s r' s', body link s = (r', s') →
            requests_only s s'
            ∧ (Course._frozen s = false →
               link.1 ∈ dom (Course._lessons s) ∨ link.1 ∈ Course._requested_lessons s')).
  { intros link s r' s' Hstep. unfold body, bind in Hstep.
    destruct (Course.get_lesson_url link.1 link.2 "web" false s) as [[v|e] s1] eqn:Hget;
      apply get_lesson_url_spec in Hget; unfold ret in Hstep;
      by inversion Hstep; subst. }
  split.
  - apply (for_each_invariant (requests_only c) body (page_links lesson)
             (λ x s r' s' _ Hs Hx, requests_only_trans _ _ _ Hs (proj1 (Hbody _ _ _ _ Hx)))
             c r c' (requests_only_refl c) Hrun).
  - intros -> Hfrozen.
    refine (proj2 (for_each_ok (requests_only c)
              (λ link s, link.1 ∈ dom (Course._lessons c)
                         ∨ link.1 ∈ Course._requested_lessons s)
              body (page_links lesson) _ _ c c' (requests_only_refl c) Hrun)).
    + intros link s s' _ Hs Hstep. destruct (Hbody _ _ _ _ Hstep) as [Hframe Hreq].
      split; [by eapply requests_only_trans|].
      destruct Hs as (Hset & Hlessons & _). rewrite <- Hlessons. apply Hreq.
      rewrite (same_frozen _ _ Hset). done.
    + intros link y s s' _ Hs [Hin|Hin] Hstep; [by left|right].
      destruct (Hbody _ _ _ _ Hstep) as [(_ & _ & _ & Hsub) _]. exact (Hsub _ Hin).
Qed.

Lemma load_rendered_spec (rendered : gmap string Lesson) (c c' : Course.t)
    (r : Result (gmap string Lesson)) :
  Course.load_rendered rendered c = (r, c') →
  requests_only c c'
  ∧ (∀ new_lessons, r = Ok new_lessons →
       new_lessons = rendered
       ∧ (Course._frozen c = false →
          ∀ slug lesson link,
            rendered !! slug = Some lesson → link ∈ page_links lesson →
            link.1 ∈ dom (Course._lessons c) ∨ link.1 ∈ Course._requested_lessons c')).
Proof.
  unfold Course.load_rendered, bind. intros Hrun.
  destruct (for_each (λ kv : string * Lesson, Course.load_lesson kv.2)
              (map_to_list rendered) c) as [[[]|e] s1] eqn:Hloop.
  - unfold ret in Hrun. inversion Hrun; subst r c'. clear Hrun.
    assert (Hboth := for_each_ok (requests_only c)
              (λ kv s, Course._frozen c = false →
                       ∀ link, link ∈ page_links kv.2 →
                         link.1 ∈ dom (Course._lessons c)
                         ∨ link.1 ∈ Course._requested_lessons s)
              (λ kv : string * Lesson, Course.load_lesson kv.2) (map_to_list rendered)).
    destruct (Hboth) with (s := c) (s' := s1) as [Hframe Hlinks];
      [| |apply requests_only_refl|done|].
    + intros kv s s' _ Hs Hstep. apply load_lesson_spec in Hstep as [Hf Hl].
      split; [by eapply requests_only_trans|].
      intros Hfrozen link Hlink. destruct Hs as (Hset & Hlessons & _).
      rewrite <- Hlessons. apply Hl; [done| |done].
      by rewrite (same_frozen _ _ Hset).
    + intros kv y s s' _ Hs HQ Hstep Hfrozen link Hlink.
      destruct (HQ Hfrozen link Hlink) as [Hin|Hin]; [by left|right].
      apply load_lesson_spec in Hstep as [(_ & _ & _ & Hsub) _]. exact (Hsub _ Hin).
    + split; [done|]. intros new_lessons [= <-]. split; [done|].
      intros Hfrozen slug lesson link Hslug Hlink.
      apply (Hlinks (slug, lesson)); [|done|done]. by apply elem_of_map_to_list.
  - inversion Hrun; subst. split; [|done].
    apply (for_each_invariant (requests_only c)
             (λ kv : string * Lesson, Course.load_lesson kv.2) (map_to_list rendered)
             (λ x s r' s' _ Hs Hx,
                requests_only_trans _ _ _ Hs (proj1 (load_lesson_spec _ _ _ _ Hx)))
             c _ _ (requests_only_refl c) Hloop).
Qed.

(** The loop that merges the new lessons: it either takes every slug of
    the list from [new_lessons] and drops it from the requested lessons, or
    raises at a slug that was not rendered. *)
Lemma merge_lessons_spec (new_lessons : gmap string Lesson) (l : list string)
    (c c' : Course.t) (r : Result unit) :
  for_each (Course.merge_lesson new_lessons) l c = (r, c') →
  same_settings c c' ∧ Course.fetched c' = Course.fetched c
  ∧ (r = Ok tt →
     (∀ slug, slug ∈ l → is_Some (new_lessons !! slug))
     ∧ (∀ slug, Course._lessons c' !! slug
                = if decide (slug ∈ l) then new_lessons !! slug
                  else Course._lessons c !! slug)
     ∧ Course._requested_lessons c'
       = Course._requested_lessons c ∖ list_to_set l).
Proof.
  revert c. induction l as [|x l IH]; intros c Hrun; simpl in Hrun.
  - unfold ret in Hrun. inversion Hrun; subst r c'.
    split; [apply same_settings_refl|]. split; [done|]. intros _.
    split; [intros slug Hin; by apply elem_of_nil in Hin|].
    split.
    + intros slug. rewrite decide_False; [done|]. apply not_elem_of_nil.
    + simpl. set_solver.
  - unfold bind, Course.merge_lesson in Hrun.
    destruct (new_lessons !! x) as [lesson|] eqn:Hx.
    + unfold modify in Hrun.
      apply IH in Hrun as (Hset & Hfetched & Hok). clear IH.
      split; [|split].
      * eapply same_settings_trans; [|exact Hset]. by split.
      * by rewrite Hfetched.
      * intros Hr. destruct (Hok Hr) as (Hall & Hlessons & Hreq).
        split; [|split].
        -- intros slug Hin. apply elem_of_cons in Hin as [->|Hin]; [by eexists|by apply Hall].
        -- intros slug. rewrite Hlessons. simpl.
           destruct (decide (slug ∈ l)) as [Hin|Hout].
           ++ rewrite decide_True; [done|by right].
           ++ destruct (decide (slug = x)) as [->|Hne].
              ** rewrite decide_True by (by left). by rewrite lookup_insert_eq.
              ** rewrite decide_False.
                 { by rewrite lookup_insert_ne. }
                 intros Hin. apply elem_of_cons in Hin as [?|?]; done.
        -- rewrite Hreq. simpl. set_solver.
    + unfold raise in Hrun. inversion Hrun; subst r c'.
      split; [apply same_settings_refl|]. by split.
Qed.

(** [load_lessons] on a course that is not frozen: one call of the renderer,
    for the given slugs that are not loaded yet; when it returns, each of
    them is loaded as rendered and no longer requested, and nothing else
    changed but for the requests that the links of the rendered lessons
    added. *)
Lemma load_lessons_spec (slugs : gset string) (c c' : Course.t) (r : Result unit) :
  Course._frozen c = false →
  Course.load_lessons slugs c = (r, c') →
  same_settings c c'
  ∧ Course.fetched c' = Course.fetched c ++ [slugs ∖ dom (Course._lessons c)]
  ∧ (r = Ok tt →
     ∃ rendered requested,
       Course.renderer_get_lessons c (slugs ∖ dom (Course._lessons c)) = Ok rendered
       ∧ slugs ∖ dom (Course._lessons c) ⊆ dom rendered
       ∧ (∀ slug, Course._lessons c' !! slug
                  = if decide (slug ∈ slugs ∖ dom (Course._lessons c))
                    then rendered !! slug else Course._lessons c !! slug)
       ∧ Course._requested_lessons c ⊆ requested
       ∧ Course._requested_lessons c'
         = requested ∖ (slugs ∖ dom (Course._lessons c))
       ∧ (∀ slug lesson link,
            rendered !! slug = Some lesson → link ∈ page_links lesson →
            link.1 ∈ dom (Course._lessons c) ∨ link.1 ∈ requested)).
Proof.
  intros Hfrozen. unfold Course.load_lessons. rewrite Hfrozen.
  set (todo := slugs ∖ dom (Course._lessons c)).
  set (c0 := Course.set_fetched (Course.fetched c ++ [todo]) c).
  assert (Hc0 : same_settings c c0) by (by split).
  destruct (Course.renderer_get_lessons c0 todo) as [rendered|e] eqn:Hrender.
  - unfold bind.
    destruct (Course.load_rendered rendered c0) as [[new_lessons|e] c1] eqn:Hload.
    + intros Hmerge.
      apply load_rendered_spec in Hload as [(Hset1 & Hl1 & Hf1 & Hr1) Hnew].
      destruct (Hnew _ eq_refl) as [-> Hlinks]. clear Hnew.
      apply merge_lessons_spec in Hmerge as (Hset2 & Hf2 & Hok).
      split; [|split].
      * eapply same_settings_trans; [exact Hc0|].
        by eapply same_settings_trans.
      * by rewrite Hf2, Hf1.
      * intros Hr. destruct (Hok Hr) as (Hall & Hlessons & Hreq).
        exists rendered, (Course._requested_lessons c1).
        split; [done|]. split; [|split; [|split; [|split]]].
        -- intros slug Hin. apply elem_of_dom, Hall. by apply elem_of_elements.
        -- intros slug. rewrite Hlessons, Hl1. simpl.
           destruct (decide (slug ∈ elements todo)) as [Hin|Hout].
           ++ rewrite decide_True; [done|]. by apply elem_of_elements.
           ++ rewrite decide_False; [done|]. by rewrite <- elem_of_elements.
        -- exact Hr1.
        -- rewrite Hreq. by rewrite list_to_set_elements_L.
        -- intros slug lesson link Hslug Hlink.
           by apply (Hlinks Hfrozen slug lesson link).
    + intros [= <- <-].
      apply load_rendered_spec in Hload as [(Hset1 & Hl1 & Hf1 & Hr1) _].
      split; [by eapply same_settings_trans|]. split; [by rewrite Hf1|done].
  - intros [= <- <-]. split; [done|]. by split.
Qed.

Lemma load_lessons_frozen (slugs : gset string) (c : Course.t) :
  Course._frozen c = true →
  Course.load_lessons slugs c = (Raise (Exn Exception_ "course is frozen"), c).
Proof. intros Hfrozen. unfold Course.load_lessons. by rewrite Hfrozen. Qed.

(** C6. On a course that is not frozen, [load_lessons(slugs)] calls the
    renderer once, for exactly the given slugs that are not materialized.
    When it returns, every such slug holds the lesson that was rendered for
    it and is no longer requested, the other lessons are as before, and a
    second call with the same slugs asks the renderer for no slug at all. *)
Theorem load_lessons_fetches_missing_slugs
    (self self' : Course.t) (slugs : gset string) (r : Result unit) :
  Course._frozen self = false →
  Course.load_lessons slugs self = (r, self') →
  Course.fetched self'
  = Course.fetched self ++ [slugs ∖ dom (Course._lessons self)]
  ∧ (r = Ok tt →
     (∃ rendered,
        Course.renderer_get_lessons self (slugs ∖ dom (Course._lessons self))
        = Ok rendered
        ∧ ∀ slug, slug ∈ slugs → slug ∉ dom (Course._lessons self) →
            ∃ lesson, rendered !! slug = Some lesson
                      ∧ Course._lessons self' !! slug = Some lesson
                      ∧ slug ∉ Course._requested_lessons self')
     ∧ (∀ slug, slug ∈ dom (Course._lessons self) ∨ slug ∉ slugs →
          Course._lessons self' !! slug = Course._lessons self !! slug)
     ∧ dom (Course._lessons self') = dom (Course._lessons self) ∪ slugs
     ∧ (∀ r2 self2,
          Course.load_lessons slugs self' = (r2, self2) →
          Course.fetched self2 = Course.fetched self' ++ [∅])).
Proof.
  intros Hfrozen Hload.
  destruct (load_lessons_spec _ _ _ _ Hfrozen Hload) as (Hset & Hfetched & Hok).
  split; [exact Hfetched|]. intros Hr.
  destruct (Hok Hr) as (rendered & requested & Hrender & Hsub & Hlessons & _ & Hreq & _).
  assert (Hdom : dom (Course._lessons self') = dom (Course._lessons self) ∪ slugs).
  { apply set_eq. intros slug.
    rewrite elem_of_union, !elem_of_dom, Hlessons.
    destruct (decide (slug ∈ slugs ∖ dom (Course._lessons self))) as [Hin|Hout].
    - split; [intros _; right; set_solver|intros _].
      apply elem_of_dom. by apply Hsub.
    - split; [by left|]. intros [Hl|Hs]; [done|].
      apply elem_of_dom. set_solver. }
  split; [|split; [|split]].
  - exists rendered. split; [done|]. intros slug Hin Hnew.
    assert (Htodo : slug ∈ slugs ∖ dom (Course._lessons self)) by set_solver.
    assert (Hsome : is_Some (rendered !! slug)) by (apply elem_of_dom; by apply Hsub).
    destruct Hsome as [lesson Hlesson]. exists lesson.
    split; [done|]. split.
    + rewrite Hlessons. by rewrite decide_True.
    + rewrite Hreq. set_solver.
  - intros slug Hcase. rewrite Hlessons. rewrite decide_False; [done|]. set_solver.
  - exact Hdom.
  - intros r2 self2 Hload2.
    assert (Hfrozen' : Course._frozen self' = false).
    { by rewrite (same_frozen _ _ Hset). }
    destruct (load_lessons_spec _ _ _ _ Hfrozen' Hload2) as (_ & Hfetched2 & _).
    rewrite Hfetched2. do 2 f_equal. rewrite Hdom. set_solver.
Qed.

Lemma load_lessons_fetches_missing_slugs_witness :
  Course.fetched (Course.load_lessons {["lesson1"]} (Sample.chain_course 2)).2
  = [{["lesson1"]} ∖ dom (Course._lessons (Sample.chain_course 2))]
  ∧ Course.fetched
      (Course.load_lessons {["lesson1"]}
         (Course.load_lessons {["lesson1"]} (Sample.chain_course 2)).2).2
    = Course.fetched (Course.load_lessons {["lesson1"]} (Sample.chain_course 2)).2
      ++ [∅].
Proof.
  pose proof (load_lessons_fetches_missing_slugs (Sample.chain_course 2)
                (Course.load_lessons {["lesson1"]} (Sample.chain_course 2)).2
                {["lesson1"]}
                (Course.load_lessons {["lesson1"]} (Sample.chain_course 2)).1
                eq_refl (surjective_pairing _)) as [Hfetched Hok].
  split; [exact Hfetched|].
  destruct (Hok ltac:(vm_compute; reflexivity)) as (_ & _ & _ & Hagain).
  apply (Hagain _ _ (surjective_pairing _)).
Defined.

(** ** Loading all lessons *)

Lemma load_all_loop_unfold (link_depth : nat) (c : Course.t) :
  Course.load_all_loop link_depth c
  = if decide (Course._requested_lessons c = ∅) then (Ok tt, c)
    else
      let c1 := Course.set_requested_lessons
                  (Course._requested_lessons c ∖ dom (Course._lessons c)) c in
      if decide (Course._requested_lessons c1 = ∅) then (Ok tt, c1)
      else match Course.load_lessons (Course._requested_lessons c1) c1 with
           | (Raise e, c2) => (Raise e, c2)
           | (Ok _, c2) =>
               match link_depth with
               | O => (Raise (Course.too_deep c2), c2)
               | S link_depth => Course.load_all_loop link_depth c2
               end
           end.
Proof. destruct link_depth; reflexivity. Qed.

(** The loop with the counter at [link_depth]: it ends with nothing
    requested after at most [link_depth] rounds, or raises the depth error
    after exactly [link_depth + 1] rounds that all went well, or passes on
    the exception of a round that failed. *)
Lemma load_all_loop_spec (link_depth : nat) (c c' : Course.t) (r : Result unit) :
  Course._frozen c = false →
  Course.load_all_loop link_depth c = (r, c') →
  same_settings c c'
  ∧ match r with
    | Ok _ =>
        Course._requested_lessons c' = ∅
        ∧ (length (Course.fetched c') ≤ length (Course.fetched c) + link_depth)%nat
    | Raise e =>
        (e = Course.too_deep c
         ∧ length (Course.fetched c')
           = (length (Course.fetched c) + S link_depth)%nat)
        ∨ (∃ c1, same_settings c c1
                 ∧ (length (Course.fetched c1)
                    ≤ length (Course.fetched c) + link_depth)%nat
                 ∧ Course.load_lessons (Course._requested_lessons c1) c1
                   = (Raise e, c')
                 ∧ length (Course.fetched c') = S (length (Course.fetched c1)))
    end.
Proof.
  revert c. induction link_depth as [|d IH]; intros c Hfrozen;
    rewrite load_all_loop_unfold;
    (destruct (decide (Course._requested_lessons c = ∅)) as [Hnone|_];
     [intros [= <- <-]; split; [apply same_settings_refl|split; [done|lia]]|]);
    cbv zeta;
    set (c1 := Course.set_requested_lessons
                 (Course._requested_lessons c ∖ dom (Course._lessons c)) c);
    (assert (Hc1 : same_settings c c1) by (by split));
    (assert (Hf1 : Course.fetched c1 = Course.fetched c) by done);
    (assert (Hfrozen1 : Course._frozen c1 = false) by done);
    (destruct (decide (Course._requested_lessons c1 = ∅)) as [Hnone|_];
     [intros [= <- <-]; split; [done|split; [done|rewrite Hf1; lia]]|]);
    destruct (Course.load_lessons (Course._requested_lessons c1) c1)
      as [[[]|e] c2] eqn:Hload;
    pose proof (load_lessons_spec _ _ _ _ Hfrozen1 Hload) as (Hset2 & Hf2 & _);
    (assert (Hlen2 : length (Course.fetched c2) = S (length (Course.fetched c)))
       by (rewrite Hf2, length_app, Hf1; simpl; lia)).
  - intros [= <- <-]. split; [by eapply same_settings_trans|]. left. split.
    + unfold Course.too_deep. f_equal. f_equal. f_equal.
      rewrite (same_slug _ _ Hset2). apply (same_slug _ _ Hc1).
    + lia.
  - intros [= <- <-]. split; [by eapply same_settings_trans|]. right.
    exists c1. split; [done|]. split; [rewrite Hf1; lia|].
    split; [done|rewrite Hf1; lia].
  - intros Hrest.
    assert (Hfrozen2 : Course._frozen c2 = false).
    { by rewrite (same_frozen _ _ Hset2). }
    destruct (IH c2 Hfrozen2 Hrest) as [Hset' Hr].
    assert (Hc2 : same_settings c c2) by (by eapply same_settings_trans).
    split; [by eapply same_settings_trans|].
    destruct r as [[]|e'].
    + destruct Hr as [Hreq Hlen]. split; [done|lia].
    + destruct Hr as [[-> Hlen]|(c3 & Hset3 & Hlen3 & Hload3 & Hlen')].
      * left. split; [|lia]. unfold Course.too_deep.
        by rewrite (same_slug _ _ Hc2).
      * right. exists c3. split; [by eapply same_settings_trans|].
        split; [lia|]. by split.
  - intros [= <- <-]. split; [by eapply same_settings_trans|]. right.
    exists c1. split; [done|]. split; [rewrite Hf1; lia|].
    split; [done|rewrite Hf1; lia].
Qed.

(** [load_all_lessons] on a course that is not frozen. *)
Lemma load_all_lessons_unfold (c : Course.t) :
  Course._frozen c = false →
  Course.load_all_lessons c
  = Course.load_all_loop 50
      (Course.set_requested_lessons
         (Course._requested_lessons c ∖ dom (Course._lessons c)) c).
Proof. intros Hfrozen. unfold Course.load_all_lessons. by rewrite Hfrozen. Qed.

Lemma load_all_lessons_frozen (c : Course.t) :
  Course._frozen c = true → Course.load_all_lessons c = (Ok tt, c).
Proof. intros Hfrozen. unfold Course.load_all_lessons. by rewrite Hfrozen. Qed.

(** The two sample chains, by evaluation. *)
Lemma chain_of_50_is_loaded :
  (Course.load_all_lessons (Sample.chain_course 50)).1 = Ok tt
  ∧ size (Course._lessons (Course.load_all_lessons (Sample.chain_course 50)).2) = 50%nat
  ∧ bool_decide
      (Course._requested_lessons (Course.load_all_lessons (Sample.chain_course 50)).2
       = ∅) = true.
Proof. vm_compute. repeat split. Qed.

Lemma chain_of_51_is_too_deep :
  (Course.load_all_lessons (Sample.chain_course 51)).1
  = Raise (Exn ValueError "Lessons in course course are linked too deeply")
  ∧ length (Course.fetched (Course.load_all_lessons (Sample.chain_course 51)).2)
    = 51%nat.
Proof. vm_compute. repeat split. Qed.

(** [load_all_lessons] always returns or raises: its loop recurses on the
    counter, which starts at 50.  It calls the renderer at most 51 times.
    When it returns it has made at most 50 rounds, and on a course that was
    not frozen nothing is requested any more.  When it raises, either 51
    rounds went well and the exception is the [ValueError] that names the
    course, or the exception is that of the round of [load_lessons] that
    failed.  A chain of 50 lessons is loaded; a chain of 51 lessons, each
    linking to the next, raises the depth error, after the 51st round has
    loaded the last lesson. *)
Theorem load_all_lessons_bounded_by_link_depth :
  (∀ self r self',
      Course.load_all_lessons self = (r, self') →
      (length (Course.fetched self') ≤ length (Course.fetched self) + 51)%nat
      ∧ match r with
        | Ok _ =>
            (length (Course.fetched self') ≤ length (Course.fetched self) + 50)%nat
            ∧ (Course._frozen self = false → Course._requested_lessons self' = ∅)
        | Raise e =>
            (e = Exn ValueError
                   ("Lessons in course " +:+ Course.slug self
                    +:+ " are linked too deeply")
             ∧ length (Course.fetched self')
               = (length (Course.fetched self) + 51)%nat)
            ∨ (∃ c, same_settings self c
                    ∧ Course.load_lessons (Course._requested_lessons c) c
                      = (Raise e, self'))
        end)
  ∧ (∃ self',
        Course.load_all_lessons (Sample.chain_course 50) = (Ok tt, self')
        ∧ size (Course._lessons self') = 50%nat
        ∧ Course._requested_lessons self' = ∅)
  ∧ (∃ self',
        Course.load_all_lessons (Sample.chain_course 51)
        = (Raise (Exn ValueError "Lessons in course course are linked too deeply"),
           self')
        ∧ length (Course.fetched self') = 51%nat).
Proof.
  split; [|split].
  - intros self r self' Hrun.
    destruct (Course._frozen self) eqn:Hfrozen.
    { rewrite (load_all_lessons_frozen _ Hfrozen) in Hrun.
      injection Hrun as <- <-. split; [lia|]. split; [lia|done]. }
    rewrite (load_all_lessons_unfold _ Hfrozen) in Hrun.
    set (c0 := Course.set_requested_lessons
                 (Course._requested_lessons self ∖ dom (Course._lessons self)) self) in *.
    assert (Hc0 : same_settings self c0) by (by split).
    destruct (load_all_loop_spec 50 c0 self' r Hfrozen Hrun) as [Hset Hr].
    change (Course.fetched c0) with (Course.fetched self) in Hr.
    split.
    + destruct r as [[]|e].
      * destruct Hr as [_ Hlen]. lia.
      * destruct Hr as [[_ Hlen]|(c1 & _ & Hlen1 & _ & Hlen)]; lia.
    + destruct r as [[]|e].
      * destruct Hr as [Hreq Hlen]. split; [lia|done].
      * destruct Hr as [[-> Hlen]|(c1 & Hset1 & _ & Hload & _)].
        -- left. by split.
        -- right. exists c1. split; [by eapply same_settings_trans|done].
  - pose proof chain_of_50_is_loaded as (Hr & Hsize & Hreq).
    revert Hr Hsize Hreq.
    generalize (Course.load_all_lessons (Sample.chain_course 50)).
    intros [r self'] Hr Hsize Hreq. simpl in Hr, Hsize, Hreq. subst r.
    exists self'. split; [done|]. split; [done|].
    by apply bool_decide_eq_true in Hreq.
  - pose proof chain_of_51_is_too_deep as (Hr & Hlen).
    revert Hr Hlen.
    generalize (Course.load_all_lessons (Sample.chain_course 51)).
    intros [r self'] Hr Hlen. simpl in Hr, Hlen. subst r.
    by exists self'.
Qed.

Lemma load_all_lessons_bounded_by_link_depth_witness :
  (length (Course.fetched (Course.load_all_lessons (Sample.chain_course 3)).2)
   ≤ length (Course.fetched (Sample.chain_course 3)) + 51)%nat.
Proof.
  pose proof load_all_lessons_bounded_by_link_depth as [Hbound _].
  exact (proj1 (Hbound (Sample.chain_course 3) _ _ (surjective_pairing _))).
Defined.

(** ** Freezing *)

(** A round of loading keeps the lessons that were loaded, loads the slugs
    it was given, and keeps track of every request and link. *)
Lemma load_lessons_grows (slugs : gset string) (c c' : Course.t) :
  Course._frozen c = false →
  Course.load_lessons slugs c = (Ok tt, c') →
  (∀ slug lesson, Course._lessons c !! slug = Some lesson →
                  Course._lessons c' !! slug = Some lesson)
  ∧ slugs ⊆ dom (Course._lessons c')
  ∧ Course._requested_lessons c
    ⊆ dom (Course._lessons c') ∪ Course._requested_lessons c'
  ∧ (links_tracked c → links_tracked c').
Proof.
  intros Hfrozen Hload.
  destruct (load_lessons_spec _ _ _ _ Hfrozen Hload) as (_ & _ & Hok).
  destruct (Hok eq_refl)
    as (rendered & requested & _ & Hsub & Hlessons & Hreq0 & Hreq & Hlinks).
  clear Hok Hload.
  set (todo := slugs ∖ dom (Course._lessons c)) in *.
  assert (Hkeep : ∀ slug lesson, Course._lessons c !! slug = Some lesson →
                                 Course._lessons c' !! slug = Some lesson).
  { intros slug lesson Hslug. rewrite Hlessons. rewrite decide_False; [done|].
    unfold todo. intros Hin. apply elem_of_difference in Hin as [_ Hout].
    apply Hout, elem_of_dom. by eexists. }
  assert (Htodo : todo ⊆ dom (Course._lessons c')).
  { intros slug Hin. apply elem_of_dom. rewrite Hlessons, decide_True by done.
    apply elem_of_dom. by apply Hsub. }
  assert (Hdom : dom (Course._lessons c) ⊆ dom (Course._lessons c')).
  { intros slug Hin. apply elem_of_dom in Hin as [lesson Hin].
    apply elem_of_dom. exists lesson. by apply Hkeep. }
  assert (Hmid : requested ⊆ dom (Course._lessons c') ∪ Course._requested_lessons c').
  { rewrite Hreq. intros slug Hin.
    destruct (decide (slug ∈ todo)) as [Ht|Ht]; set_solver. }
  split; [exact Hkeep|]. split; [|split].
  - intros slug Hin. destruct (decide (slug ∈ dom (Course._lessons c))) as [Hl|Hl].
    + by apply Hdom.
    + apply Htodo. unfold todo. set_solver.
  - set_solver.
  - intros Htracked slug lesson link Hslug Hlink.
    apply elem_of_union. rewrite Hlessons in Hslug.
    destruct (decide (slug ∈ todo)) as [Ht|Ht].
    + destruct (Hlinks slug lesson link Hslug Hlink) as [Hin|Hin]; set_solver.
    + destruct (Htracked slug lesson link Hslug Hlink) as [Hin|Hin]; set_solver.
Qed.

(** When the loop of [load_all_lessons] ends, the lessons loaded before are
    still there, every requested lesson is loaded, and every link of a
    loaded lesson leads to a loaded lesson. *)
Lemma load_all_loop_resolves (link_depth : nat) (c c' : Course.t) :
  Course._frozen c = false →
  Course.load_all_loop link_depth c = (Ok tt, c') →
  (∀ slug lesson, Course._lessons c !! slug = Some lesson →
                  Course._lessons c' !! slug = Some lesson)
  ∧ Course._requested_lessons c ⊆ dom (Course._lessons c')
  ∧ (links_tracked c → links_resolved c').
Proof.
  revert c. induction link_depth as [|d IH]; intros c Hfrozen;
    rewrite load_all_loop_unfold;
    (destruct (decide (Course._requested_lessons c = ∅)) as [Hnone|_];
     [intros [= <-]; split; [done|]; split; [set_solver|];
      intros Htracked slug lesson link Hslug Hlink;
      destruct (Htracked slug lesson link Hslug Hlink); set_solver|]);
    cbv zeta;
    set (c1 := Course.set_requested_lessons
                 (Course._requested_lessons c ∖ dom (Course._lessons c)) c);
    (assert (Htracked1 : links_tracked c → links_tracked c1)
       by (intros Htracked slug lesson link Hslug Hlink;
           destruct (Htracked slug lesson link Hslug Hlink);
           [by left|];
           destruct (decide (link.1 ∈ dom (Course._lessons c)));
           [by left|right; simpl; set_solver]));
    (assert (Hreq1 : Course._requested_lessons c
                     ⊆ dom (Course._lessons c) ∪ Course._requested_lessons c1)
       by (intros slug Hin;
           destruct (decide (slug ∈ dom (Course._lessons c))); simpl; set_solver));
    (destruct (decide (Course._requested_lessons c1 = ∅)) as [Hnone|_];
     [intros [= <-]; split; [done|]; split; [set_solver|];
      intros Htracked slug lesson link Hslug Hlink;
      destruct (Htracked1 Htracked slug lesson link Hslug Hlink); set_solver|]);
    destruct (Course.load_lessons (Course._requested_lessons c1) c1)
      as [[[]|e] c2] eqn:Hload; try discriminate.
  intros Hrest.
  assert (Hfrozen1 : Course._frozen c1 = false) by done.
  destruct (load_lessons_grows _ _ _ Hfrozen1 Hload) as (Hkeep & Hloaded & _ & Htracked2).
  assert (Hfrozen2 : Course._frozen c2 = false).
  { destruct (load_lessons_spec _ _ _ _ Hfrozen1 Hload) as (Hset & _).
    by rewrite (same_frozen _ _ Hset). }
  destruct (IH c2 Hfrozen2 Hrest) as (Hkeep' & _ & Hresolved).
  assert (Hdom : dom (Course._lessons c2) ⊆ dom (Course._lessons c')).
  { intros slug Hin. apply elem_of_dom in Hin as [lesson Hin].
    apply elem_of_dom. exists lesson. by apply Hkeep'. }
  split; [|split].
  - intros slug lesson Hslug. by apply Hkeep', Hkeep.
  - intros slug Hin. apply Hdom. apply Hreq1 in Hin.
    apply elem_of_union in Hin as [Hin|Hin]; [|by apply Hloaded].
    apply elem_of_dom in Hin as [lesson Hin]. apply elem_of_dom.
    exists lesson. by apply Hkeep.
  - intros Htracked. by apply Hresolved, Htracked2, Htracked1.
Qed.

Lemma freeze_unfold (c : Course.t) :
  Course._frozen c = false →
  Course.freeze c
  = match Course.load_all_lessons c with
    | (Ok _, c') => (Ok tt, Course.set_frozen true c')
    | (Raise e, c') => (Raise e, c')
    end.
Proof.
  intros Hfrozen. unfold Course.freeze, bind, modify. rewrite Hfrozen.
  by destruct (Course.load_all_lessons c) as [[[]|e] c'].
Qed.

(** [freeze] ends with the course frozen, or raises and leaves it unfrozen
    (if it was); either way the settings of the course stay. *)
Lemma freeze_spec (c c' : Course.t) (r : Result unit) :
  Course.freeze c = (r, c') →
  match r with
  | Ok _ => Course._frozen c' = true
  | Raise _ => Course._frozen c' = false
  end
  ∧ Course.parent c' = Course.parent c ∧ Course.slug c' = Course.slug c
  ∧ Course.renderer_get_lessons c' = Course.renderer_get_lessons c.
Proof.
  destruct (Course._frozen c) eqn:Hfrozen.
  - unfold Course.freeze. rewrite Hfrozen. by intros [= <- <-].
  - rewrite (freeze_unfold _ Hfrozen), (load_all_lessons_unfold _ Hfrozen).
    set (c0 := Course.set_requested_lessons _ c).
    destruct (Course.load_all_loop 50 c0) as [[[]|e] c1] eqn:Hloop;
      intros [= <- <-];
      destruct (load_all_loop_spec 50 c0 c1 _ Hfrozen Hloop) as [Hset _];
      (split; [by rewrite ?(same_frozen _ _ Hset)|]);
      (split; [exact (same_parent _ _ Hset)|]);
      (split; [exact (same_slug _ _ Hset)|exact (same_renderer _ _ Hset)]).
Qed.

Lemma freeze_ok_spec (self self' : Course.t) :
  Course.freeze self = (Ok tt, self') →
  Course._frozen self' = true
  ∧ Course.freeze self' = (Ok tt, self')
  ∧ (∀ slugs, Course.load_lessons slugs self'
              = (Raise (Exn Exception_ "course is frozen"), self'))
  ∧ (∀ slug lesson, Course._lessons self !! slug = Some lesson →
                    Course._lessons self' !! slug = Some lesson)
  ∧ (Course._frozen self = false →
     Course._requested_lessons self' = ∅
     ∧ Course._requested_lessons self ⊆ dom (Course._lessons self')
     ∧ (links_tracked self → links_resolved self')).
Proof.
  intros Hfreeze.
  assert (Hfrozen' : Course._frozen self' = true).
  { by destruct (freeze_spec _ _ _ Hfreeze) as [? _]. }
  split; [done|]. split; [|split].
  - unfold Course.freeze. by rewrite Hfrozen'.
  - intros slugs. by apply load_lessons_frozen.
  - destruct (Course._frozen self) eqn:Hfrozen.
    { unfold Course.freeze in Hfreeze. rewrite Hfrozen in Hfreeze.
      injection Hfreeze as <-. by split. }
    rewrite (freeze_unfold _ Hfrozen), (load_all_lessons_unfold _ Hfrozen) in Hfreeze.
    set (c0 := Course.set_requested_lessons
                 (Course._requested_lessons self ∖ dom (Course._lessons self)) self) in *.
    destruct (Course.load_all_loop 50 c0) as [[[]|e] c1] eqn:Hloop; [|discriminate].
    injection Hfreeze as <-.
    destruct (load_all_loop_spec 50 c0 c1 _ Hfrozen Hloop) as [_ [Hreq _]].
    destruct (load_all_loop_resolves 50 c0 c1 Hfrozen Hloop) as (Hkeep & Hloaded & Hres).
    split; [exact Hkeep|]. intros _. split; [exact Hreq|]. split.
    + intros slug Hin. destruct (decide (slug ∈ dom (Course._lessons self))) as [Hl|Hl].
      * apply elem_of_dom in Hl as [lesson Hl]. apply elem_of_dom.
        exists lesson. by apply Hkeep.
      * apply Hloaded. simpl. set_solver.
    + intros Htracked. apply Hres.
      intros slug lesson link Hslug Hlink.
      destruct (Htracked slug lesson link Hslug Hlink) as [Hin|Hin]; [by left|].
      destruct (decide (link.1 ∈ dom (Course._lessons self))); [by left|].
      right. simpl. set_solver.
Qed.

(** Freezing.  When [freeze] returns, the course is frozen; a further
    [freeze] changes nothing and returns; every [load_lessons] raises and
    changes nothing; the lessons loaded before are still there, the lessons
    that were requested are loaded, nothing is requested any more, and, if
    the links of the lessons loaded so far were tracked, every link of every
    lesson leads to a loaded lesson. *)
Theorem freeze_completes_and_locks (self self' : Course.t) :
  Course.freeze self = (Ok tt, self') →
  Course._frozen self' = true
  ∧ Course.freeze self' = (Ok tt, self')
  ∧ (∀ slugs, Course.load_lessons slugs self'
              = (Raise (Exn Exception_ "course is frozen"), self'))
  ∧ (∀ slug lesson, Course._lessons self !! slug = Some lesson →
                    Course._lessons self' !! slug = Some lesson)
  ∧ (Course._frozen self = false →
     Course._requested_lessons self' = ∅
     ∧ Course._requested_lessons self ⊆ dom (Course._lessons self')
     ∧ (links_tracked self → links_resolved self')).
Proof. apply freeze_ok_spec. Qed.

Lemma freeze_completes_and_locks_witness :
  Course._frozen (Course.freeze (Sample.chain_course 3)).2 = true
  ∧ Course._requested_lessons (Course.freeze (Sample.chain_course 3)).2 = ∅.
Proof.
  assert (Hrun : Course.freeze (Sample.chain_course 3)
                 = (Ok tt, (Course.freeze (Sample.chain_course 3)).2)).
  { assert (Hr : (Course.freeze (Sample.chain_course 3)).1 = Ok tt)
      by (vm_compute; reflexivity).
    revert Hr. generalize (Course.freeze (Sample.chain_course 3)).
    by intros [r c] [= ->]. }
  destruct (freeze_completes_and_locks _ _ Hrun) as (Hfrozen & _ & _ & _ & Hreq).
  split; [exact Hfrozen|]. by destruct (Hreq eq_refl) as [? _].
Defined.

(** ** The lazy mapping of lessons *)

(** Iterating over [course.lessons] or taking its length freezes the
    course first: they return exactly when [freeze] returns, and raise what
    [freeze] raises.  Iteration yields the keys of the lessons of the
    frozen course, every requested lesson among them, and the length is
    their number.  On the course they leave, iteration and length give the
    same keys and the same number again and change nothing. *)
Theorem lessons_dict_enumeration_freezes (course course' : Course.t) :
  (∀ keys, _LessonsDict.__iter__ course = (Ok keys, course') →
     Course.freeze course = (Ok tt, course')
     ∧ Course._frozen course' = true
     ∧ keys = dom (Course._lessons course')
     ∧ (Course._frozen course = false → Course._requested_lessons course ⊆ keys)
     ∧ _LessonsDict.__iter__ course' = (Ok keys, course')
     ∧ _LessonsDict.__len__ course' = (Ok (size keys), course'))
  ∧ (∀ n, _LessonsDict.__len__ course = (Ok n, course') →
     Course.freeze course = (Ok tt, course')
     ∧ n = size (Course._lessons course')
     ∧ _LessonsDict.__len__ course' = (Ok n, course')
     ∧ ∃ keys, _LessonsDict.__iter__ course' = (Ok keys, course') ∧ size keys = n)
  ∧ (∀ e, _LessonsDict.__iter__ course = (Raise e, course')
          ↔ Course.freeze course = (Raise e, course'))
  ∧ (∀ e, _LessonsDict.__len__ course = (Raise e, course')
          ↔ Course.freeze course = (Raise e, course')).
Proof.
  assert (Hagain : ∀ c, Course._frozen c = true → Course.freeze c = (Ok tt, c)).
  { intros c Hc. unfold Course.freeze. by rewrite Hc. }
  unfold _LessonsDict.__iter__, _LessonsDict.__len__, bind,
    _LessonsDict.keys, _LessonsDict.length.
  split; [|split; [|split]].
  - intros keys Hrun.
    destruct (Course.freeze course) as [[[]|e] c1] eqn:Hfreeze; [|discriminate].
    injection Hrun as <- <-.
    destruct (freeze_ok_spec _ _ Hfreeze) as (Hfrozen & _ & _ & _ & Hdone).
    rewrite (Hagain _ Hfrozen). rewrite size_dom.
    split; [done|]. split; [done|]. split; [done|]. split; [|done].
    intros Hnot. by destruct (Hdone Hnot) as (_ & Hloaded & _).
  - intros n Hrun.
    destruct (Course.freeze course) as [[[]|e] c1] eqn:Hfreeze; [|discriminate].
    injection Hrun as <- <-.
    destruct (freeze_spec _ _ _ Hfreeze) as [Hfrozen _].
    rewrite (Hagain _ Hfrozen). split; [done|]. split; [done|]. split; [done|].
    eexists. split; [done|]. apply size_dom.
  - intros e. destruct (Course.freeze course) as [[[]|e'] c1]; split; intros H;
      try discriminate; by injection H as <- <-.
  - intros e. destruct (Course.freeze course) as [[[]|e'] c1]; split; intros H;
      try discriminate; by injection H as <- <-.
Qed.

(** Reading [course.lessons[key]].  A loaded lesson is returned as it is,
    without a call of the renderer, also on a frozen course.  For a key
    that is not loaded, a frozen course raises the exception of
    [load_lessons] (not a [KeyError]); a course that is not frozen calls the
    renderer once, for that key alone, and returns the lesson rendered for
    it, which is loaded from then on; if the renderer's answer lacks the
    key, the call raises. *)
Theorem lessons_dict_getitem (course : Course.t) (key : string) :
  (∀ lesson, Course._lessons course !! key = Some lesson →
             _LessonsDict.__getitem__ key course = (Ok lesson, course))
  ∧ (Course._lessons course !! key = None → Course._frozen course = true →
     _LessonsDict.__getitem__ key course
     = (Raise (Exn Exception_ "course is frozen"), course))
  ∧ (Course._lessons course !! key = None → Course._frozen course = false →
     ∀ r course', _LessonsDict.__getitem__ key course = (r, course') →
       Course.fetched course' = Course.fetched course ++ [{[key]}]
       ∧ (∀ lesson, r = Ok lesson →
            Course._lessons course' !! key = Some lesson
            ∧ ∃ rendered, Course.renderer_get_lessons course {[key]} = Ok rendered
                          ∧ rendered !! key = Some lesson)
       ∧ (∀ rendered, Course.renderer_get_lessons course {[key]} = Ok rendered →
            rendered !! key = None → ∃ e, r = Raise e)).
Proof.
  unfold _LessonsDict.__getitem__, try_except, _LessonsDict.lookup.
  split; [|split].
  - by intros lesson ->.
  - intros -> Hfrozen. simpl. unfold bind.
    by rewrite (load_lessons_frozen _ _ Hfrozen).
  - intros Hnone Hfrozen r course'. rewrite Hnone. simpl. unfold bind.
    assert (Htodo : ({[key]} : gset string) ∖ dom (Course._lessons course) = {[key]}).
    { apply not_elem_of_dom in Hnone. set_solver. }
    destruct (Course.load_lessons {[key]} course) as [[[]|e] c1] eqn:Hload;
      destruct (load_lessons_spec _ _ _ _ Hfrozen Hload) as (_ & Hfetched & Hok);
      rewrite Htodo in Hfetched.
    + destruct (Hok eq_refl) as (rendered & _ & Hrender & Hsub & Hlessons & _).
      rewrite Htodo in Hrender, Hsub, Hlessons.
      assert (Hsome : is_Some (rendered !! key)).
      { apply elem_of_dom, Hsub. set_solver. }
      destruct Hsome as [lesson Hlesson].
      assert (Hloaded : Course._lessons c1 !! key = Some lesson).
      { rewrite Hlessons, decide_True by set_solver. done. }
      rewrite Hloaded. intros [= <- <-]. split; [done|]. split.
      * intros lesson' [= <-]. split; [done|]. by exists rendered.
      * intros rendered' Hrender' Hmissing. congruence.
    + intros [= <- <-]. split; [done|]. split; [done|]. by eexists.
Qed.

Lemma lessons_dict_getitem_witness :
  _LessonsDict.__getitem__ "lesson1" Sample.frozen_course
  = (Raise (Exn Exception_ "course is frozen"), Sample.frozen_course).
Proof.
  apply (proj1 (proj2 (lessons_dict_getitem Sample.frozen_course "lesson1")));
    reflexivity.
Defined.

Lemma lessons_dict_enumeration_freezes_witness :
  Course.freeze (Sample.chain_course 2)
  = (Ok tt, (_LessonsDict.__iter__ (Sample.chain_course 2)).2).
Proof.
  assert (Hrun : ∃ keys, _LessonsDict.__iter__ (Sample.chain_course 2)
                         = (Ok keys, (_LessonsDict.__iter__ (Sample.chain_course 2)).2)).
  { assert (Hr : ∃ keys, (_LessonsDict.__iter__ (Sample.chain_course 2)).1 = Ok keys)
      by (vm_compute; by eexists).
    revert Hr. generalize (_LessonsDict.__iter__ (Sample.chain_course 2)).
    intros [r c] [keys Hr]. simpl in Hr. subst r. by exists keys. }
  destruct Hrun as [keys Hrun].
  exact (proj1 (proj1 (lessons_dict_enumeration_freezes _ _) keys Hrun)).
Defined.

(** ** The indices of the root *)

Lemma run_of_del_run (slug : string) (year : Z) (self : Root.t) :
  is_Some (run_of self year slug) →
  ∃ self', Root.del_run slug year self = (Ok tt, self')
    ∧ Root.courses self' = Root.courses self
    ∧ Root.self_study_courses self' = Root.self_study_courses self
    ∧ ∀ y s, run_of self' y s
             = if decide (y = year ∧ s = slug) then None else run_of self y s.
Proof.
  unfold run_of at 1. unfold Root.del_run.
  destruct (Root.run_years self !! year) as [run_year|] eqn:Hyear; simpl;
    [|by intros [? ?]].
  intros [old Hold]. rewrite Hold. eexists. split; [done|].
  split; [done|]. split; [done|].
  intros y s. unfold run_of. simpl.
  destruct (decide (y = year)) as [->|Hne].
  - rewrite lookup_insert_eq, Hyear. simpl.
    destruct (decide (s = slug)) as [->|Hs].
    + rewrite decide_True by done. apply lookup_delete_eq.
    + rewrite decide_False by (by intros [_ ?]). by apply lookup_delete_ne.
  - rewrite lookup_insert_ne by done.
    by rewrite decide_False by (by intros [? _]).
Qed.

Lemma run_of_del_runs (slug : string) (l : list Z) :
  NoDup l →
  ∀ self, (∀ y, y ∈ l → is_Some (run_of self y slug)) →
  ∃ self', for_each (Root.del_run slug) l self = (Ok tt, self')
    ∧ Root.courses self' = Root.courses self
    ∧ Root.self_study_courses self' = Root.self_study_courses self
    ∧ ∀ y s, run_of self' y s
             = if decide (y ∈ l ∧ s = slug) then None else run_of self y s.
Proof.
  induction 1 as [|year l Hnotin Hnodup IH]; intros self Hall.
  - exists self. split; [done|]. split; [done|]. split; [done|].
    intros y s. case_decide as Hc; [|done].
    destruct Hc as [Hin _]. by apply elem_of_nil in Hin.
  - cbn [for_each]. destruct (run_of_del_run slug year self) as (s1 & Hdel & Hc1 & Hs1 & Hrun1).
    { apply Hall. by left. }
    unfold bind. rewrite Hdel.
    destruct (IH s1) as (s2 & Hloop & Hc2 & Hs2 & Hrun2).
    { intros y Hy. rewrite Hrun1. rewrite decide_False.
      - apply Hall. by right.
      - intros [-> _]. done. }
    exists s2. split; [done|]. split; [congruence|]. split; [congruence|].
    intros y s. rewrite Hrun2, Hrun1.
    destruct (decide (y ∈ l ∧ s = slug)) as [[Hin ->]|Hout].
    + rewrite decide_True; [done|]. split; [by right|done].
    + destruct (decide (y = year ∧ s = slug)) as [[-> ->]|Hout'].
      * rewrite decide_True; [done|]. split; [by left|done].
      * rewrite decide_False; [done|].
        intros [Hin ->]. apply elem_of_cons in Hin as [->|Hin]; tauto.
Qed.

Lemma run_of_add_run (slug : string) (course : Course.t) (year : Z) (self : Root.t) :
  ∃ self', Root.add_run slug course year self = (Ok tt, self')
    ∧ Root.courses self' = Root.courses self
    ∧ Root.self_study_courses self' = Root.self_study_courses self
    ∧ ∀ y s, run_of self' y s
             = if decide (y = year ∧ s = slug) then Some course else run_of self y s.
Proof.
  unfold Root.add_run, modify. eexists. split; [done|].
  split; [done|]. split; [done|].
  intros y s. unfold run_of. simpl.
  destruct (decide (y = year)) as [->|Hne].
  - rewrite lookup_insert_eq. simpl.
    destruct (decide (s = slug)) as [->|Hs].
    + rewrite decide_True by done. apply lookup_insert_eq.
    + rewrite decide_False by (by intros [_ ?]).
      rewrite lookup_insert_ne by done.
      by destruct (Root.run_years self !! year).
  - rewrite lookup_insert_ne by done.
    by rewrite decide_False by (by intros [? _]).
Qed.

Lemma run_of_add_runs (slug : string) (course : Course.t) (l : list Z) (self : Root.t) :
  ∃ self', for_each (Root.add_run slug course) l self = (Ok tt, self')
    ∧ Root.courses self' = Root.courses self
    ∧ Root.self_study_courses self' = Root.self_study_courses self
    ∧ ∀ y s, run_of self' y s
             = if decide (y ∈ l ∧ s = slug) then Some course else run_of self y s.
Proof.
  revert self. induction l as [|year l IH]; intros self.
  - exists self. split; [done|]. split; [done|]. split; [done|].
    intros y s. case_decide as Hc; [|done].
    destruct Hc as [Hin _]. by apply elem_of_nil in Hin.
  - cbn [for_each]. destruct (run_of_add_run slug course year self) as (s1 & Hadd & Hc1 & Hs1 & Hrun1).
    unfold bind. rewrite Hadd.
    destruct (IH s1) as (s2 & Hloop & Hc2 & Hs2 & Hrun2).
    exists s2. split; [done|]. split; [congruence|]. split; [congruence|].
    intros y s. rewrite Hrun2, Hrun1.
    destruct (decide (y ∈ l ∧ s = slug)) as [[Hin ->]|Hout].
    + rewrite decide_True; [done|]. split; [by right|done].
    + destruct (decide (y = year ∧ s = slug)) as [[-> ->]|Hout'].
      * rewrite decide_True; [done|]. split; [by left|done].
      * rewrite decide_False; [done|].
        intros [Hin ->]. apply elem_of_cons in Hin as [->|Hin]; tauto.
Qed.

(** The years of a course with both dates are those of its span. *)
Lemma years_span (course : Course.t) (start_date end_date : datetime.date) :
  Course.start_date course = Some start_date →
  Course.end_date course = Some end_date →
  ∃ l, Root.years start_date course = Ok l ∧ NoDup l
       ∧ span course = Some (datetime.year start_date, datetime.year end_date)
       ∧ ∀ y, y ∈ l ↔ datetime.year start_date ≤ y ≤ datetime.year end_date.
Proof.
  intros Hs He. unfold Root.years, span. rewrite Hs, He.
  eexists. split; [done|]. split; [apply NoDup_seqZ|]. split; [done|].
  intros y. rewrite elem_of_seqZ. lia.
Qed.

(** With indices derived from the courses, the removal of the course stored
    under [slug] raises nothing and leaves no index entry for [slug]. *)
Lemma remove_old_spec (self : Root.t) (slug : string) :
  indices_derived self →
  ∃ self', Root.remove_old slug self = (Ok tt, self')
    ∧ Root.courses self' = Root.courses self
    ∧ (∀ y, run_of self' y slug = None)
    ∧ Root.self_study_courses self' !! slug = None
    ∧ (∀ y s, s ≠ slug → run_of self' y s = run_of self y s)
    ∧ (∀ s, s ≠ slug →
         Root.self_study_courses self' !! s = Root.self_study_courses self !! s).
Proof.
  intros [Hkeyed Hruns Hself]. unfold Root.remove_old.
  destruct (Root.courses self !! slug) as [old|] eqn:Hold.
  - destruct (Hkeyed _ _ Hold) as [_ Hpaired].
    destruct (Course.start_date old) as [start_date|] eqn:Hstart.
    + destruct (proj1 Hpaired ltac:(by eexists)) as [end_date Hend].
      destruct (years_span old _ _ Hstart Hend) as (l & -> & Hnodup & Hspan & Hl).
      destruct (run_of_del_runs slug l Hnodup self) as (s1 & -> & Hc & Hs & Hrun).
      { intros y Hy. exists old. apply Hruns. split; [done|].
        eexists _, _. split; [done|]. by apply Hl. }
      exists s1. split; [done|]. split; [done|]. split; [|split; [|split]].
      * intros y. rewrite Hrun.
        destruct (decide (y ∈ l ∧ slug = slug)) as [_|Hout]; [done|].
        destruct (run_of self y slug) as [c|] eqn:Hc'; [|done].
        apply Hruns in Hc' as [Hlook (f & la & Hsp & Hy)].
        rewrite Hold in Hlook. injection Hlook as <-.
        rewrite Hspan in Hsp. injection Hsp as <- <-.
        exfalso. apply Hout. split; [by apply Hl|done].
      * rewrite Hs.
        destruct (Root.self_study_courses self !! slug) as [c|] eqn:Hc'; [|done].
        apply Hself in Hc' as [Hlook Hnone]. congruence.
      * intros y s Hne. rewrite Hrun. by rewrite decide_False by (by intros [_ ?]).
      * intros s _. by rewrite Hs.
    + assert (Hstudy : Root.self_study_courses self !! slug = Some old).
      { by apply Hself. }
      unfold Root.del_self_study. rewrite Hstudy.
      eexists. split; [done|]. split; [done|]. split; [|split; [|split]].
      * intros y. simpl.
        change (run_of (Root.set_self_study_courses _ self) y slug)
          with (run_of self y slug).
        destruct (run_of self y slug) as [c|] eqn:Hc'; [|done].
        apply Hruns in Hc' as [Hlook (f & la & Hsp & _)].
        rewrite Hold in Hlook. injection Hlook as <-.
        unfold span in Hsp. by rewrite Hstart in Hsp.
      * simpl. apply lookup_delete_eq.
      * done.
      * intros s Hne. simpl. by apply lookup_delete_ne.
  - exists self. split; [done|]. split; [done|]. split; [|split; [|split]]; try done.
    + intros y. destruct (run_of self y slug) as [c|] eqn:Hc'; [|done].
      apply Hruns in Hc' as [Hlook _]. congruence.
    + destruct (Root.self_study_courses self !! slug) as [c|] eqn:Hc'; [|done].
      apply Hself in Hc' as [Hlook _]. congruence.
Qed.

Lemma in_span_spec (course : Course.t) (year : Z) :
  in_span course year = true
  ↔ ∃ first last, span course = Some (first, last) ∧ first ≤ year ≤ last.
Proof.
  unfold in_span. destruct (span course) as [[first last]|].
  - rewrite bool_decide_eq_true. split.
    + intros Hy. by eexists _, _.
    + by intros (f & la & [= <- <-] & Hy).
  - split; [done|]. by intros (f & la & Hsp & _).
Qed.

(** What [add_course] does on a root whose indices are derived from its
    courses. *)
Lemma add_course_spec (self : Root.t) (course : Course.t) :
  indices_derived self → dates_paired course →
  ∃ self',
    Root.add_course course self = (Ok tt, self')
    ∧ indices_derived self'
    ∧ Root.courses self' = <[Course.slug course := course]> (Root.courses self)
    ∧ (∀ year c, run_of self' year (Course.slug course) = Some c →
         c = course
         ∧ ∃ first last, span course = Some (first, last) ∧ first ≤ year ≤ last)
    ∧ (∀ c, Root.self_study_courses self' !! Course.slug course = Some c →
         c = course ∧ Course.start_date course = None)
    ∧ (∀ year slug, slug ≠ Course.slug course →
         run_of self' year slug = run_of self year slug
         ∧ Root.self_study_courses self' !! slug
           = Root.self_study_courses self !! slug).
Proof.
  intros Hderived Hpaired.
  destruct (remove_old_spec self (Course.slug course) Hderived)
    as (s1 & Hremove & Hc1 & Hrun1 & Hstudy1 & Hrun1' & Hstudy1').
  destruct Hderived as [Hkeyed Hruns Hself].
  unfold Root.add_course, bind, modify. rewrite Hremove.
  set (slug := Course.slug course) in *.
  set (s2 := Root.set_courses (<[slug := course]> (Root.courses s1)) s1).
  assert (Hfinal : ∃ self',
    match Course.start_date course with
    | Some start_date =>
        λ self0, match Root.years start_date course with
                 | Ok ys => for_each (Root.add_run slug course) ys self0
                 | Raise e => (Raise e, self0)
                 end
    | None =>
        λ s, (Ok tt, Root.set_self_study_courses
                       (<[slug := course]> (Root.self_study_courses s)) s)
    end s2 = (Ok tt, self')
    ∧ Root.courses self' = <[slug := course]> (Root.courses self)
    ∧ (∀ y s, run_of self' y s
              = if decide (s = slug)
                then (if in_span course y then Some course else None)
                else run_of self y s)
    ∧ (∀ s, Root.self_study_courses self' !! s
            = if decide (s = slug)
              then match Course.start_date course with
                   | None => Some course
                   | Some _ => None
                   end
              else Root.self_study_courses self !! s)).
  { destruct (Course.start_date course) as [start_date|] eqn:Hstart.
    - destruct (proj1 Hpaired ltac:(by eexists)) as [end_date Hend].
      destruct (years_span course _ _ Hstart Hend) as (l & -> & _ & Hspan & Hl).
      destruct (run_of_add_runs slug course l s2) as (s3 & -> & Hc3 & Hs3 & Hrun3).
      exists s3. split; [done|]. split; [by rewrite Hc3; simpl; rewrite Hc1|].
      split.
      + intros y s. rewrite Hrun3.
        change (run_of s2 y s) with (run_of s1 y s).
        destruct (decide (s = slug)) as [->|Hne].
        * rewrite Hrun1.
          unfold in_span. rewrite Hspan.
          destruct (decide (y ∈ l ∧ slug = slug)) as [[Hin _]|Hout].
          -- rewrite bool_decide_true; [done|]. by apply Hl.
          -- rewrite bool_decide_false; [done|].
             intros Hy. apply Hout. split; [by apply Hl|done].
        * rewrite decide_False by (by intros [_ ?]). by apply Hrun1'.
      + intros s. rewrite Hs3. simpl.
        destruct (decide (s = slug)) as [->|Hne]; [|by apply Hstudy1'].
        by rewrite Hstudy1.
    - eexists. split; [done|]. split; [by simpl; rewrite Hc1|]. split.
      + intros y s.
        change (run_of (Root.set_self_study_courses _ s2) y s) with (run_of s1 y s).
        destruct (decide (s = slug)) as [->|Hne]; [|by apply Hrun1'].
        rewrite Hrun1. unfold in_span, span. by rewrite Hstart.
      + intros s. simpl.
        destruct (decide (s = slug)) as [->|Hne].
        * by rewrite lookup_insert_eq.
        * rewrite lookup_insert_ne by done. by apply Hstudy1'. }
  destruct Hfinal as (self' & Hrun & Hcourses & Hruns' & Hself').
  exists self'. split; [exact Hrun|]. split; [|split; [done|split; [|split]]].
  - split.
    + intros s c. rewrite Hcourses.
      destruct (decide (s = slug)) as [->|Hne].
      * rewrite lookup_insert_eq. by intros [= <-].
      * rewrite lookup_insert_ne by done. apply Hkeyed.
    + intros y s c. rewrite Hruns', Hcourses.
      destruct (decide (s = slug)) as [->|Hne].
      * rewrite lookup_insert_eq.
        destruct (in_span course y) eqn:Hin; split.
        -- intros [= <-]. split; [done|]. by apply in_span_spec.
        -- by intros [[= <-] _].
        -- done.
        -- intros [[= <-] Hin']. apply in_span_spec in Hin'. congruence.
      * rewrite lookup_insert_ne by done. apply Hruns.
    + intros s c. rewrite Hself', Hcourses.
      destruct (decide (s = slug)) as [->|Hne].
      * rewrite lookup_insert_eq.
        destruct (Course.start_date course) as [start_date|] eqn:Hstart; split.
        -- done.
        -- intros [[= <-] Hnone]. congruence.
        -- by intros [= <-].
        -- by intros [[= <-] _].
      * rewrite lookup_insert_ne by done. apply Hself.
  - intros y c. rewrite Hruns', decide_True by done.
    destruct (in_span course y) eqn:Hin; [|done].
    intros [= <-]. split; [done|]. by apply in_span_spec.
  - intros c. rewrite Hself', decide_True by done.
    destruct (Course.start_date course) as [start_date|] eqn:Hstart; [done|].
    by intros [= <-].
  - intros y s Hne. rewrite Hruns', Hself'. by rewrite !decide_False by done.
Qed.

(** A root without courses has its (empty) indices derived. *)
Lemma indices_derived_empty (url_factories : gmap string (gmap ModelClass UrlFactory)) :
  indices_derived (Root.mk url_factories ∅ ∅ ∅).
Proof.
  split.
  - intros slug course Hc. simpl in Hc. by rewrite lookup_empty in Hc.
  - intros year slug course. unfold run_of. simpl. rewrite !lookup_empty. simpl.
    split; [done|]. by intros [? _].
  - intros slug course. simpl. rewrite !lookup_empty. split; [done|]. by intros [? _].
Qed.

Lemma dated_course_paired (slug : string) (first last : Z) :
  dates_paired (Sample.dated_course slug first last).
Proof. split; intros _; by eexists. Qed.

(** The sample roots with one run have their indices derived. *)
Lemma added_to_empty_derived (course : Course.t) :
  dates_paired course →
  indices_derived (Root.add_course course Sample.empty_root).2.
Proof.
  intros Hpaired.
  destruct (add_course_spec Sample.empty_root course
              (indices_derived_empty Sample.web_urls) Hpaired)
    as (self' & -> & Hderived & _).
  exact Hderived.
Qed.

(** Adding a course to a root whose indices are derived from its courses:
    [add_course] raises nothing; the course is stored under its slug, also
    when it replaces another one; the indices are again those derived from
    the courses, so under the slug they hold the new course only, in
    exactly the years of its span or among the self-study courses; the
    entries of other slugs are as before. *)
Theorem add_course_keeps_indices_derived (self : Root.t) (course : Course.t) :
  indices_derived self → dates_paired course →
  ∃ self',
    Root.add_course course self = (Ok tt, self')
    ∧ indices_derived self'
    ∧ Root.courses self' = <[Course.slug course := course]> (Root.courses self)
    ∧ (∀ year c, run_of self' year (Course.slug course) = Some c →
         c = course
         ∧ ∃ first last, span course = Some (first, last) ∧ first ≤ year ≤ last)
    ∧ (∀ c, Root.self_study_courses self' !! Course.slug course = Some c →
         c = course ∧ Course.start_date course = None)
    ∧ (∀ year slug, slug ≠ Course.slug course →
         run_of self' year slug = run_of self year slug
         ∧ Root.self_study_courses self' !! slug
           = Root.self_study_courses self !! slug).
Proof. apply add_course_spec. Qed.

(** The run [2023/spring] of the years 2023 and 2024 is replaced by a run
    of the years 2024 and 2025: the entry of the year 2023 goes. *)
Lemma add_course_keeps_indices_derived_witness :
  run_of Sample.root_with_run 2023 "2023/spring"
  = Some (Sample.dated_course "2023/spring" 2023 2024)
  ∧ ∃ self',
      Root.add_course (Sample.dated_course "2023/spring" 2024 2025) Sample.root_with_run
      = (Ok tt, self')
      ∧ indices_derived self'
      ∧ Root.courses self' !! "2023/spring"
        = Some (Sample.dated_course "2023/spring" 2024 2025)
      ∧ run_of self' 2023 "2023/spring" = None.
Proof.
  split; [by vm_compute|].
  destruct (add_course_keeps_indices_derived Sample.root_with_run
              (Sample.dated_course "2023/spring" 2024 2025)
              (added_to_empty_derived _ (dated_course_paired _ _ _))
              (dated_course_paired _ _ _))
    as (self' & Hrun & Hderived & Hcourses & Hruns & _).
  exists self'. split; [done|]. split; [done|]. split.
  - rewrite Hcourses. apply lookup_insert_eq.
  - destruct (run_of self' 2023 "2023/spring") as [c|] eqn:Hc; [|done].
    apply Hruns in Hc as [_ (first & last & Hspan & Hyear)].
    vm_compute in Hspan. injection Hspan as <- <-. lia.
Defined.

(** [add_course] creates run years and never deletes one, whatever its
    outcome: a year that has lost its last course stays in [run_years],
    with no courses. *)
Theorem add_course_never_drops_a_run_year
    (self self' : Root.t) (course : Course.t) (r : Result unit) :
  Root.add_course course self = (r, self') →
  dom (Root.run_years self) ⊆ dom (Root.run_years self').
Proof.
  set (P := λ s : Root.t, dom (Root.run_years self) ⊆ dom (Root.run_years s)).
  assert (Hdel : ∀ slug y s r' s', P s → Root.del_run slug y s = (r', s') → P s').
  { intros slug y s r' s' HP. unfold Root.del_run.
    destruct (Root.run_years s !! y) as [ry|] eqn:Hy; [|by intros [= _ <-]].
    destruct (RunYear.runs ry !! slug); [|by intros [= _ <-]].
    intros [= _ <-]. unfold P in *. simpl. rewrite dom_insert_L. set_solver. }
  assert (Hadd : ∀ slug c y s r' s', P s → Root.add_run slug c y s = (r', s') → P s').
  { intros slug c y s r' s' HP [= _ <-]. unfold P in *. simpl.
    rewrite dom_insert_L. set_solver. }
  assert (Hremove : ∀ slug s r' s', P s → Root.remove_old slug s = (r', s') → P s').
  { intros slug s r' s' HP. unfold Root.remove_old.
    destruct (Root.courses s !! slug) as [old|]; [|by intros [= _ <-]].
    destruct (Course.start_date old) as [start_date|].
    - destruct (Root.years start_date old) as [ys|e]; [|by intros [= _ <-]].
      apply (for_each_invariant P); [|done].
      intros y s0 r0 s0' _. apply Hdel.
    - unfold Root.del_self_study.
      destruct (Root.self_study_courses s !! slug); by intros [= _ <-]. }
  unfold Root.add_course, bind, modify.
  destruct (Root.remove_old (Course.slug course) self) as [[[]|e] s1] eqn:Hold.
  - assert (HP1 : P s1) by (eapply Hremove; [|done]; by unfold P).
    destruct (Course.start_date course) as [start_date|].
    + destruct (Root.years start_date course) as [ys|e]; [|by intros [= _ <-]].
      apply (for_each_invariant P); [|done].
      intros y s0 r0 s0' _. apply Hadd.
    + by intros [= _ <-].
  - intros [= _ <-]. eapply Hremove; [|done]. by unfold P.
Qed.

(** The run of 2023 and 2024 is replaced by a self-study course: both
    years lose their only course and stay. *)
Lemma add_course_never_drops_a_run_year_witness :
  dom (Root.run_years Sample.root_with_run) = {[2023; 2024]}
  ∧ dom (Root.run_years Sample.root_with_run)
    ⊆ dom (Root.run_years
             (Root.add_course (Sample.self_study "2023/spring") Sample.root_with_run).2)
  ∧ run_of (Root.add_course (Sample.self_study "2023/spring") Sample.root_with_run).2
      2023 "2023/spring" = None.
Proof.
  split; [by_evaluation|]. split; [|by vm_compute].
  exact (add_course_never_drops_a_run_year _ _ _ _ (surjective_pairing _)).
Defined.

(** ** Looking a course up *)

(** [Root.get_course] on a root whose indices are derived from its courses.
    What it returns is the course stored under the slug.  The slug
    ["lessons"] and a slug ["courses/<name>"] are looked up among the
    courses.  A slug ["<year>/<name>"] is looked up in the run year that the
    builtin [int] reads from its first part: the course stored under it is
    returned exactly when that year lies in the span of its dates, and a
    course without dates, or with dates in other years only, gives a
    [KeyError]. *)
Theorem get_course_needs_the_year_in_span
    (int : string → Result Z) (self : Root.t) (slug : string) :
  indices_derived self →
  (∀ course, get_course int slug self = Ok course →
             Root.courses self !! slug = Some course)
  ∧ (slug = "lessons" ∨ (∃ name, split_slash slug = ["courses"; name]) →
     get_course int slug self = courses_getitem slug self)
  ∧ (∀ year name y,
       slug ≠ "lessons" → split_slash slug = [year; name] → year ≠ "courses" →
       int year = Ok y →
       (∀ course, get_course int slug self = Ok course
                  ↔ Root.courses self !! slug = Some course
                    ∧ in_span course y = true)
       ∧ (∀ course, Root.courses self !! slug = Some course →
                    in_span course y = false →
                    ∃ e, get_course int slug self = Raise e
                         ∧ exn_class e = KeyError)).
Proof.
  intros [Hkeyed Hruns Hself].
  assert (Hyear : ∀ year name y,
            slug ≠ "lessons" → split_slash slug = [year; name] → year ≠ "courses" →
            int year = Ok y →
            get_course int slug self
            = match run_of self y slug with
              | Some course => Ok course
              | None =>
                  Raise (Exn KeyError
                           (match Root.run_years self !! y with
                            | Some _ => slug
                            | None => pretty y
                            end))
              end).
  { intros year name y Hne Hsplit Hyear Hint. unfold get_course, run_of.
    rewrite decide_False by done. rewrite Hsplit.
    rewrite decide_False by done. rewrite Hint.
    destruct (Root.run_years self !! y) as [ry|]; simpl; [|done].
    by destruct (RunYear.runs ry !! slug). }
  split; [|split].
  - intros course. unfold get_course, courses_getitem.
    destruct (decide (slug = "lessons")) as [->|Hne].
    { destruct (Root.courses self !! "lessons"); by intros [= <-]. }
    destruct (split_slash slug) as [|year [|name [|more parts]]] eqn:Hsplit;
      try discriminate.
    destruct (decide (year = "courses")) as [->|Hyr].
    { destruct (Root.courses self !! slug); by intros [= <-]. }
    destruct (int year) as [y|e] eqn:Hint; [|discriminate].
    destruct (Root.run_years self !! y) as [ry|] eqn:Hry; [|discriminate].
    destruct (RunYear.runs ry !! slug) as [c|] eqn:Hc; [|discriminate].
    intros [= <-]. apply (Hruns y slug c). unfold run_of. by rewrite Hry.
  - intros [->|[name Hsplit]]; unfold get_course.
    + by rewrite decide_True.
    + destruct (decide (slug = "lessons")); [done|].
      rewrite Hsplit. by rewrite decide_True.
  - intros year name y Hne Hsplit Hyr Hint.
    rewrite (Hyear year name y Hne Hsplit Hyr Hint). split.
    + intros course. destruct (run_of self y slug) as [c|] eqn:Hc.
      * apply Hruns in Hc as [Hlook Hin]. apply in_span_spec in Hin.
        split; [by intros [= <-]|]. intros [Hlook' _]. congruence.
      * split; [done|]. intros [Hlook Hin]. apply in_span_spec in Hin.
        assert (run_of self y slug = Some course) by (by apply Hruns). congruence.
    + intros course Hlook Hout. destruct (run_of self y slug) as [c|] eqn:Hc.
      * apply Hruns in Hc as [Hlook' Hin]. apply in_span_spec in Hin. congruence.
      * by eexists.
Qed.

(** The run [2023/spring] of 2023 and 2024 is found in the run year 2023;
    a run of the same years under the slug [2022/spring] is among the
    courses and is not found, as no run year 2022 holds it. *)
Lemma get_course_needs_the_year_in_span_witness :
  let int := λ year : string,
    if decide (year = "2023") then Ok 2023
    else if decide (year = "2022") then Ok 2022
    else Raise (Exn ValueError ("invalid literal for int(): " +:+ year)) in
  get_course int "2023/spring" Sample.root_with_run
  = Ok (Sample.dated_course "2023/spring" 2023 2024)
  ∧ Root.courses Sample.root_with_misfiled_run !! "2022/spring"
    = Some (Sample.dated_course "2022/spring" 2023 2024)
  ∧ ∃ e, get_course int "2022/spring" Sample.root_with_misfiled_run = Raise e
         ∧ exn_class e = KeyError.
Proof.
  intros int.
  assert (Hmisfiled : Root.courses Sample.root_with_misfiled_run !! "2022/spring"
                      = Some (Sample.dated_course "2022/spring" 2023 2024))
    by (by vm_compute).
  split; [|split; [exact Hmisfiled|]].
  - destruct (get_course_needs_the_year_in_span int Sample.root_with_run "2023/spring"
                (added_to_empty_derived _ (dated_course_paired _ _ _)))
      as (_ & _ & Hyear).
    destruct (Hyear "2023" "spring" 2023) as [Hfound _];
      [discriminate | reflexivity | discriminate | reflexivity |].
    apply Hfound. split; [by vm_compute | by vm_compute].
  - destruct (get_course_needs_the_year_in_span int Sample.root_with_misfiled_run
                "2022/spring" (added_to_empty_derived _ (dated_course_paired _ _ _)))
      as (_ & _ & Hyear).
    destruct (Hyear "2022" "spring" 2022) as [_ Hmissing];
      [discriminate | reflexivity | discriminate | reflexivity |].
    apply (Hmissing _ Hmisfiled). by vm_compute.
Defined.

(** ** Previous and next *)

(** The loop of [set_prev_next] over three lists of matching lengths: each
    object gets the pair at its position, other objects keep theirs. *)
Lemma assign_triples `{Countable K} (sequence : list K) :
  ∀ (prevs nexts : list (option K)) (attrs : gmap K (option K * option K)),
    NoDup sequence →
    (length sequence ≤ length prevs)%nat → (length sequence ≤ length nexts)%nat →
    (∀ i now, sequence !! i = Some now →
       ∃ p n, prevs !! i = Some p ∧ nexts !! i = Some n
              ∧ fold_left (λ attrs pnn, <[pnn.1.2 := (pnn.1.1, pnn.2)]> attrs)
                  (zip (zip prevs sequence) nexts) attrs !! now = Some (p, n))
    ∧ (∀ k, k ∉ sequence →
         fold_left (λ attrs pnn, <[pnn.1.2 := (pnn.1.1, pnn.2)]> attrs)
           (zip (zip prevs sequence) nexts) attrs !! k = attrs !! k).
Proof.
  induction sequence as [|x sequence IH]; intros prevs nexts attrs Hnodup Hprevs Hnexts.
  - split; [intros i now Hi; by rewrite lookup_nil in Hi|].
    intros k _. by destruct prevs.
  - destruct prevs as [|p prevs]; [simpl in Hprevs; lia|].
    destruct nexts as [|n nexts]; [simpl in Hnexts; lia|].
    apply NoDup_cons in Hnodup as [Hx Hnodup].
    simpl in Hprevs, Hnexts.
    destruct (IH prevs nexts (<[x := (p, n)]> attrs) Hnodup
                ltac:(lia) ltac:(lia)) as [Hin Hout].
    split.
    + intros [|i] now Hi; simpl in Hi.
      * injection Hi as <-. exists p, n. split; [done|]. split; [done|].
        simpl. rewrite (Hout x Hx). apply lookup_insert_eq.
      * destruct (Hin i now Hi) as (p' & n' & Hp & Hn & Hres).
        exists p', n'. by repeat split.
    + intros k Hk. apply not_elem_of_cons in Hk as [Hne Hk].
      simpl. rewrite (Hout k Hk). by apply lookup_insert_ne.
Qed.

Lemma set_prev_next_spec `{Countable K} (sequence : list K)
    (attrs : gmap K (option K * option K)) :
  NoDup sequence →
  (∀ i now, sequence !! i = Some now →
     set_prev_next sequence attrs !! now
     = Some (match i with O => None | S j => sequence !! j end, sequence !! S i))
  ∧ (∀ k, k ∉ sequence → set_prev_next sequence attrs !! k = attrs !! k).
Proof.
  intros Hnodup. unfold set_prev_next.
  destruct (assign_triples sequence (None :: (Some <$> sequence))
              ((Some <$> tail sequence) ++ [None]) attrs Hnodup) as [Hin Hout].
  { simpl. rewrite length_fmap. lia. }
  { rewrite length_app, length_fmap. destruct sequence; simpl; lia. }
  split; [|exact Hout].
  intros i now Hi. destruct (Hin i now Hi) as (p & n & Hp & Hn & ->).
  f_equal. f_equal.
  - destruct i as [|j]; simpl in Hp; [by injection Hp|].
    rewrite list_lookup_fmap in Hp.
    destruct (sequence !! j); simpl in Hp; [by injection Hp|done].
  - assert (Hlen : (i < length sequence)%nat) by (by eapply lookup_lt_Some).
    destruct (decide (S i < length sequence)%nat) as [Hlt|Hge].
    + rewrite lookup_app_l in Hn
        by (rewrite length_fmap; destruct sequence; simpl in *; lia).
      rewrite list_lookup_fmap, lookup_tail in Hn.
      destruct (sequence !! S i); simpl in Hn; [by injection Hn|done].
    + rewrite lookup_app_r in Hn
        by (rewrite length_fmap; destruct sequence; simpl in *; lia).
      rewrite length_fmap in Hn.
      replace (i - length (tail sequence))%nat with 0%nat in Hn
        by (destruct sequence; simpl in *; lia).
      injection Hn as <-. symmetry. apply lookup_ge_None. lia.
Qed.

(** [set_prev_next] over distinct objects: the object at position [i] gets
    the object before it as [prev] ([None] for the first) and the object
    after it as [next] ([None] for the last); an object that is not in the
    sequence keeps the attributes it had, or has none. *)
Theorem set_prev_next_links `{Countable K} (sequence : list K)
    (attrs : gmap K (option K * option K)) :
  NoDup sequence →
  (∀ i now, sequence !! i = Some now →
     set_prev_next sequence attrs !! now
     = Some (match i with O => None | S j => sequence !! j end, sequence !! S i))
  ∧ (∀ k, k ∉ sequence → set_prev_next sequence attrs !! k = attrs !! k).
Proof. apply set_prev_next_spec. Qed.

Lemma set_prev_next_links_witness :
  set_prev_next ["intro"; "install"; "hello"] (∅ : gmap string _) !! "install"
  = Some (Some "intro", Some "hello").
Proof.
  refine (proj1 (set_prev_next_links ["intro"; "install"; "hello"] ∅ _) 1%nat "install" _).
  - apply (bool_decide_unpack _). vm_compute. exact I.
  - reflexivity.
Defined.

Lemma filter_seq_sorted (P : nat → Prop) `{∀ i, Decision (P i)} (n : nat) :
  ∀ start, StronglySorted lt (filter P (seq start n)).
Proof.
  induction n as [|n IH]; intros start; simpl; [constructor|].
  rewrite filter_cons. destruct (decide (P start)); [|apply IH].
  constructor; [apply IH|].
  apply Forall_forall. intros i Hi.
  apply list_elem_of_filter in Hi as [_ Hi]. apply elem_of_seq in Hi. lia.
Qed.

(** [Session._index_materials] links the materials that have a lesson, in
    their order, and only them: the list of their indices is increasing and
    holds exactly the materials with a non-empty [lesson_slug]; the material
    at position [j] of that list gets its neighbours in the list as [prev]
    and [next]; a material without a lesson gets neither attribute. *)
Theorem index_materials_links_lessons_only (materials : list Node) :
  ∃ lessons : list nat,
    StronglySorted lt lessons
    ∧ (∀ i, i ∈ lessons
            ↔ ∃ material, materials !! i = Some material
                          ∧ truthy (lesson_slug_of material) = true)
    ∧ (∀ j i, lessons !! j = Some i →
         _index_materials materials ∅ !! i
         = Some (match j with O => None | S j' => lessons !! j' end, lessons !! S j))
    ∧ (∀ i, i ∉ lessons → _index_materials materials ∅ !! i = None).
Proof.
  unfold _index_materials.
  set (P := λ i, truthy (lesson_slug_of (default (RootNode ∅) (materials !! i))) = true).
  exists (filter P (seq 0 (length materials))).
  assert (Hnodup : NoDup (filter P (seq 0 (length materials)))).
  { apply NoDup_filter, NoDup_seq. }
  destruct (set_prev_next_spec (filter P (seq 0 (length materials))) ∅ Hnodup)
    as [Hin Hout].
  split; [apply filter_seq_sorted|]. split; [|split].
  - intros i. rewrite list_elem_of_filter, elem_of_seq. unfold P. split.
    + intros [HP [_ Hlt]].
      destruct (lookup_lt_is_Some_2 materials i Hlt) as [material Hm].
      exists material. split; [done|]. by rewrite Hm in HP.
    + intros (material & Hm & Ht). rewrite Hm. split; [done|].
      split; [lia|]. by eapply lookup_lt_Some.
  - exact Hin.
  - intros i Hi. rewrite (Hout i Hi). apply lookup_empty.
Qed.

(** ** The sessions of a course *)

Lemma request_all (slugs : list string) (course : Course.t) :
  fold_left
    (λ course slug,
       Course.set_requested_lessons ({[slug]} ∪ Course._requested_lessons course) course)
    slugs course
  = Course.set_requested_lessons
      (list_to_set slugs ∪ Course._requested_lessons course) course.
Proof.
  revert course. induction slugs as [|slug slugs IH]; intros course; simpl.
  - destruct course. unfold Course.set_requested_lessons. simpl. f_equal. set_solver.
  - rewrite IH. unfold Course.set_requested_lessons. simpl. f_equal. set_solver.
Qed.

Lemma material_lesson_slugs_spec (sessions : list SessionObj) (slug : string) :
  slug ∈ material_lesson_slugs sessions
  ↔ ∃ session material,
      session ∈ sessions ∧ material ∈ session_materials session
      ∧ lesson_slug_of material = Some slug ∧ slug ≠ "".
Proof.
  unfold material_lesson_slugs. rewrite list_elem_of_bind. split.
  - intros (session & Hslug & Hsession).
    apply list_elem_of_omap in Hslug as (material & Hmaterial & Hsome).
    exists session, material. split; [done|]. split; [done|].
    destruct (lesson_slug_of material) as [s|] eqn:Hs; simpl in Hsome; [|done].
    destruct (bool_decide (s ≠ "")) eqn:Hne; [|done].
    injection Hsome as ->. split; [done|]. by apply bool_decide_eq_true in Hne.
  - intros (session & material & Hsession & Hmaterial & Hs & Hne).
    exists session. split; [|done].
    apply list_elem_of_omap. exists material. split; [done|].
    rewrite Hs. simpl. by rewrite bool_decide_true.
Qed.

Lemma number_sessions_lookup (sessions : list SessionObj) :
  ∀ serial i session,
    sessions !! i = Some session →
    number_sessions serial sessions !! i
    = Some (mkSessionObj (session_slug session) (session_date session)
              (session_materials session) (Some (pretty (serial + i)%nat))).
Proof.
  induction sessions as [|s sessions IH]; intros serial [|i] session Hi;
    simpl in *; try done.
  - injection Hi as <-. by rewrite Nat.add_0_r.
  - rewrite (IH (S serial) i session Hi). do 3 f_equal. f_equal. lia.
Qed.

(** The hook [Course._sessions_after_load].  It requests exactly the
    non-empty lesson slugs of the materials of the sessions, on top of what
    was requested, and changes nothing else in the course.  For a document
    of an API version below 0.1 with more than one session, the sessions
    are numbered from 1 in their order; a single session, or a later
    version, keeps the serials as loaded.  With distinct slugs, each
    session gets the sessions before and after it as [prev] and [next]. *)
Theorem sessions_after_load_requests_and_numbers (version : Z * Z) (self : CourseLoad) :
  load_course (_sessions_after_load version self)
  = Course.set_requested_lessons
      (Course._requested_lessons (load_course (_sessions_after_load version self)))
      (load_course self)
  ∧ (∀ slug,
       slug ∈ Course._requested_lessons (load_course (_sessions_after_load version self))
       ↔ slug ∈ Course._requested_lessons (load_course self)
         ∨ ∃ session material,
             session ∈ load_sessions self ∧ material ∈ session_materials session
             ∧ lesson_slug_of material = Some slug ∧ slug ≠ "")
  ∧ (version_lt version (0, 1) = true → (1 < length (load_sessions self))%nat →
     ∀ i session, load_sessions self !! i = Some session →
       load_sessions (_sessions_after_load version self) !! i
       = Some (mkSessionObj (session_slug session) (session_date session)
                 (session_materials session) (Some (pretty (S i)))))
  ∧ (version_lt version (0, 1) = false ∨ (length (load_sessions self) ≤ 1)%nat →
     load_sessions (_sessions_after_load version self) = load_sessions self)
  ∧ (NoDup (session_slug <$> load_sessions self) →
     ∀ i session, load_sessions self !! i = Some session →
       load_links (_sessions_after_load version self) !! session_slug session
       = Some (match i with
               | O => None
               | S j => session_slug <$> load_sessions self !! j
               end,
               session_slug <$> load_sessions self !! S i)).
Proof.
  unfold _sessions_after_load. cbn [load_course load_sessions load_links].
  rewrite request_all.
  split; [done|]. split; [|split; [|split]].
  - intros slug. simpl. rewrite elem_of_union, elem_of_list_to_set.
    rewrite material_lesson_slugs_spec. tauto.
  - intros Hlt Hlen i session Hi. rewrite Hlt, bool_decide_true by done. simpl.
    by rewrite (number_sessions_lookup _ 1 i session Hi).
  - intros [Hge|Hlen].
    + by rewrite Hge.
    + rewrite bool_decide_false by lia. by rewrite andb_false_r.
  - intros Hnodup i session Hi.
    destruct (set_prev_next_spec (session_slug <$> load_sessions self)
                (load_links self) Hnodup) as [Hin _].
    rewrite (Hin i (session_slug session)).
    + destruct i; simpl; by rewrite ?list_lookup_fmap.
    + by rewrite list_lookup_fmap, Hi.
Qed.

Lemma sessions_after_load_requests_and_numbers_witness :
  load_sessions
    (_sessions_after_load (0, 0)
       (mkCourseLoad (Sample.chain_course 2)
          [mkSessionObj "first" None [Sample.material None (Some "lesson1")] None] ∅))
  = [mkSessionObj "first" None [Sample.material None (Some "lesson1")] None].
Proof.
  apply (proj1 (proj2 (proj2 (proj2 (sessions_after_load_requests_and_numbers (0, 0)
           (mkCourseLoad (Sample.chain_course 2)
              [mkSessionObj "first" None [Sample.material None (Some "lesson1")] None]
              ∅)))))).
  right. simpl. lia.
Defined.

(** Loading the sessions and then freezing the course: every material
    that names a lesson finds it loaded, and its URL is the URL of that
    lesson, for every URL type that is asked for. *)
Theorem materials_resolve_after_freeze
    (version : Z * Z) (self : CourseLoad) (course' : Course.t) :
  Course._frozen (load_course self) = false →
  Course.freeze (load_course (_sessions_after_load version self)) = (Ok tt, course') →
  ∀ session material slug url_type,
    session ∈ load_sessions self → material ∈ session_materials session →
    lesson_slug_of material = Some slug → slug ≠ "" →
    slug ∈ dom (Course._lessons course')
    ∧ Material.get_url material url_type course'
      = (Model.get_url (Course.lesson_node course' slug) "web" false, course').
Proof.
  intros Hfrozen Hfreeze session material slug url_type Hsession Hmaterial Hslug Hne.
  assert (Hcourse : load_course (_sessions_after_load version self)
                    = Course.set_requested_lessons
                        (list_to_set (material_lesson_slugs (load_sessions self))
                         ∪ Course._requested_lessons (load_course self))
                        (load_course self)).
  { unfold _sessions_after_load. cbn [load_course]. apply request_all. }
  rewrite Hcourse in Hfreeze.
  destruct (freeze_ok_spec _ _ Hfreeze) as (_ & _ & _ & _ & Hdone).
  destruct (Hdone Hfrozen) as (_ & Hloaded & _).
  assert (Hin : slug ∈ dom (Course._lessons course')).
  { apply Hloaded. simpl. apply elem_of_union. left.
    apply elem_of_list_to_set, material_lesson_slugs_spec.
    by exists session, material. }
  split; [done|].
  destruct material as [|cls parent pk [| |title type external_url lesson_slug]];
    try discriminate.
  simpl in Hslug. subst lesson_slug. unfold Material.get_url. simpl.
  rewrite bool_decide_true by done.
  unfold Course.get_lesson_url. by rewrite decide_True.
Qed.

Lemma materials_resolve_after_freeze_witness :
  "lesson2"
  ∈ dom (Course._lessons
           (Course.freeze
              (load_course (_sessions_after_load (0, 3) SampleSessions.loading))).2).
Proof.
  assert (Hrun : Course.freeze
                   (load_course (_sessions_after_load (0, 3) SampleSessions.loading))
                 = (Ok tt,
                    (Course.freeze
                       (load_course
                          (_sessions_after_load (0, 3) SampleSessions.loading))).2)).
  { assert (Hr : (Course.freeze
                    (load_course
                       (_sessions_after_load (0, 3) SampleSessions.loading))).1
                 = Ok tt) by (vm_compute; reflexivity).
    revert Hr.
    generalize (Course.freeze
                  (load_course (_sessions_after_load (0, 3) SampleSessions.loading))).
    by intros [r c] [= ->]. }
  refine (proj1 (materials_resolve_after_freeze (0, 3) SampleSessions.loading _
                   eq_refl Hrun SampleSessions.second
                   (Sample.material None (Some "lesson2")) "lesson2" "web" _ _ _ _)).
  - right; left.
  - left.
  - reflexivity.
  - discriminate.
Defined.

(** ** The dates of a course *)

Lemma date_lt_spec (d1 d2 : datetime.date) :
  date_lt d1 d2 = true
  ↔ datetime.year d1 < datetime.year d2
    ∨ (datetime.year d1 = datetime.year d2
       ∧ (datetime.month d1 < datetime.month d2
          ∨ (datetime.month d1 = datetime.month d2
             ∧ datetime.day d1 < datetime.day d2))).
Proof.
  unfold date_lt.
  rewrite !orb_true_iff, !andb_true_iff, !orb_true_iff, !andb_true_iff,
    !Z.ltb_lt, !Z.eqb_eq.
  tauto.
Qed.

Lemma date_not_lt_trans (d1 d2 d3 : datetime.date) :
  date_lt d1 d2 = false → date_lt d2 d3 = false → date_lt d1 d3 = false.
Proof.
  rewrite <- !not_true_iff_false, !date_lt_spec. lia.
Qed.

Lemma date_lt_false_of_lt (d1 d2 : datetime.date) :
  date_lt d1 d2 = true → date_lt d2 d1 = false.
Proof. rewrite <- not_true_iff_false, !date_lt_spec. lia. Qed.

Lemma date_lt_irrefl (d : datetime.date) : date_lt d d = false.
Proof. rewrite <- not_true_iff_false, date_lt_spec. lia. Qed.

(** The running minimum: an element of the list, below all of them. *)
Lemma fold_min_date (dates : list datetime.date) :
  ∀ m, let m' := fold_left (λ m d', if date_lt d' m then d' else m) dates m in
       m' ∈ m :: dates ∧ ∀ d, d ∈ m :: dates → date_lt d m' = false.
Proof.
  induction dates as [|d' dates IH]; intros m; simpl.
  - split; [by left|]. intros d Hd. apply list_elem_of_singleton in Hd as ->.
    apply date_lt_irrefl.
  - destruct (IH (if date_lt d' m then d' else m)) as [Hin Hmin].
    split.
    + apply elem_of_cons in Hin as [Hin|Hin]; [|by do 2 right].
      rewrite Hin. destruct (date_lt d' m); [right; by left|by left].
    + intros d Hd.
      assert (Hhead : date_lt (if date_lt d' m then d' else m)
                        (fold_left (λ m d', if date_lt d' m then d' else m) dates
                           (if date_lt d' m then d' else m)) = false).
      { apply Hmin. by left. }
      apply elem_of_cons in Hd as [->|Hd]; [|apply elem_of_cons in Hd as [->|Hd]].
      * destruct (date_lt d' m) eqn:Hlt; [|done].
        eapply date_not_lt_trans; [|exact Hhead]. by apply date_lt_false_of_lt.
      * destruct (date_lt d' m) eqn:Hlt; [done|].
        eapply date_not_lt_trans; [|exact Hhead]. done.
      * apply Hmin. by right.
Qed.

Lemma fold_max_date (dates : list datetime.date) :
  ∀ m, let m' := fold_left (λ m d', if date_lt m d' then d' else m) dates m in
       m' ∈ m :: dates ∧ ∀ d, d ∈ m :: dates → date_lt m' d = false.
Proof.
  induction dates as [|d' dates IH]; intros m; simpl.
  - split; [by left|]. intros d Hd. apply list_elem_of_singleton in Hd as ->.
    apply date_lt_irrefl.
  - destruct (IH (if date_lt m d' then d' else m)) as [Hin Hmax].
    split.
    + apply elem_of_cons in Hin as [Hin|Hin]; [|by do 2 right].
      rewrite Hin. destruct (date_lt m d'); [right; by left|by left].
    + intros d Hd.
      assert (Hhead : date_lt
                        (fold_left (λ m d', if date_lt m d' then d' else m) dates
                           (if date_lt m d' then d' else m))
                        (if date_lt m d' then d' else m) = false).
      { apply Hmax. by left. }
      apply elem_of_cons in Hd as [->|Hd]; [|apply elem_of_cons in Hd as [->|Hd]].
      * destruct (date_lt m d') eqn:Hlt; [|done].
        eapply date_not_lt_trans; [exact Hhead|]. by apply date_lt_false_of_lt.
      * destruct (date_lt m d') eqn:Hlt; [done|].
        eapply date_not_lt_trans; [exact Hhead|]. done.
      * apply Hmax. by right.
Qed.

(** The default [start_date] and [end_date] of a course.  They are both
    absent, exactly when no session has a date, or both present; then they
    are dates of sessions, no session is dated before the start or after the
    end, and the year of the start is at most the year of the end.  So a
    course with these dates is time-bound or self-study, as [add_course]
    expects, and the years it is indexed under are not empty. *)
Theorem default_dates_bound_the_sessions (sessions : list SessionObj) :
  (default_start_date sessions = None ↔ default_end_date sessions = None)
  ∧ (default_start_date sessions = None
     ↔ ∀ session, session ∈ sessions → session_date session = None)
  ∧ (∀ first last,
       default_start_date sessions = Some first →
       default_end_date sessions = Some last →
       (∃ session, session ∈ sessions ∧ session_date session = Some first)
       ∧ (∃ session, session ∈ sessions ∧ session_date session = Some last)
       ∧ (∀ session d, session ∈ sessions → session_date session = Some d →
            date_lt d first = false ∧ date_lt last d = false)
       ∧ datetime.year first ≤ datetime.year last)
  ∧ (∀ course,
       Course.start_date course = default_start_date sessions →
       Course.end_date course = default_end_date sessions →
       dates_paired course
       ∧ ∀ first last, span course = Some (first, last) → first ≤ last).
Proof.
  unfold default_start_date, default_end_date, min_date, max_date.
  assert (Hdates : ∀ d, d ∈ session_dates sessions
                        ↔ ∃ session, session ∈ sessions ∧ session_date session = Some d).
  { intros d. unfold session_dates. apply list_elem_of_omap. }
  assert (Hbounds : ∀ first last,
    match session_dates sessions with
    | [] => None
    | d :: dates => Some (fold_left (λ m d', if date_lt d' m then d' else m) dates d)
    end = Some first →
    match session_dates sessions with
    | [] => None
    | d :: dates => Some (fold_left (λ m d', if date_lt m d' then d' else m) dates d)
    end = Some last →
    first ∈ session_dates sessions ∧ last ∈ session_dates sessions
    ∧ (∀ d, d ∈ session_dates sessions →
            date_lt d first = false ∧ date_lt last d = false)
    ∧ datetime.year first ≤ datetime.year last).
  { intros first last. destruct (session_dates sessions) as [|d dates]; [done|].
    intros [= <-] [= <-].
    destruct (fold_min_date dates d) as [Hmin_in Hmin].
    destruct (fold_max_date dates d) as [Hmax_in Hmax].
    split; [done|]. split; [done|]. split; [by split; [apply Hmin|apply Hmax]|].
    specialize (Hmax _ Hmin_in).
    apply not_true_iff_false in Hmax. rewrite date_lt_spec in Hmax. lia. }
  split; [|split; [|split]].
  - by destruct (session_dates sessions).
  - split.
    + intros Hnone session Hsession.
      destruct (session_date session) as [d|] eqn:Hd; [|done].
      assert (Hin : d ∈ session_dates sessions) by (apply Hdates; by exists session).
      destruct (session_dates sessions); [by apply elem_of_nil in Hin|done].
    + intros Hall. destruct (session_dates sessions) as [|d dates] eqn:Hl; [done|].
      destruct (proj1 (Hdates d) ltac:(by left)) as (session & Hsession & Hd).
      rewrite (Hall session Hsession) in Hd. done.
  - intros first last Hfirst Hlast.
    destruct (Hbounds first last Hfirst Hlast) as (Hf & Hl & Hall & Hyears).
    split; [by apply Hdates|]. split; [by apply Hdates|]. split; [|done].
    intros session d Hsession Hd. apply Hall, Hdates. by exists session.
  - intros course Hstart Hend. split.
    + unfold dates_paired. rewrite Hstart, Hend.
      destruct (session_dates sessions); split; intros [? ?]; done.
    + intros first last. unfold span. rewrite Hstart, Hend.
      destruct (session_dates sessions) as [|d dates] eqn:Hl; [done|].
      intros [= <- <-].
      by destruct (Hbounds _ _ eq_refl eq_refl) as (_ & _ & _ & ?).
Qed.

(** ** URLs that may be missing *)









(** On a frozen course, a material whose lesson is not loaded has the
    [KeyError] object that [get_lesson_url] returns as its URL: [get_url],
    [url_or_none] and the property [_url] all return it as a value. *)
Theorem material_url_on_frozen_course
    (parent : Node) (pk : PyVal) (title : option string) (type : string)
    (external_url : option string) (slug url_type : string) (external : bool)
    (course : Course.t) :
  slug ≠ "" → Course._frozen course = true → slug ∉ dom (Course._lessons course) →
  get_url (ChildNode ClsMaterial parent pk
             (MaterialFields title type external_url (Some slug)))
    url_type external course
  = (Ok (VExc KeyError slug), course)
  ∧ url_or_none (ChildNode ClsMaterial parent pk
                   (MaterialFields title type external_url (Some slug)))
      url_type course
    = (Ok (VExc KeyError slug), course)
  ∧ _url (ChildNode ClsMaterial parent pk
            (MaterialFields title type external_url (Some slug))) course
    = (Ok (VExc KeyError slug), course).
Proof.
  intros Hslug Hfrozen Hmissing.
  assert (Hget : ∀ ut,
            Material.get_url (ChildNode ClsMaterial parent pk
                                (MaterialFields title type external_url (Some slug)))
              ut course
            = (Ok (VExc KeyError slug), course)).
  { intros ut. unfold Material.get_url. simpl. rewrite bool_decide_true by done.
    unfold Course.get_lesson_url. rewrite decide_False by done. by rewrite Hfrozen. }
  assert (Hdispatch : ∀ ut ext,
            get_url (ChildNode ClsMaterial parent pk
                       (MaterialFields title type external_url (Some slug)))
              ut ext course
            = (Ok (VExc KeyError slug), course)).
  { intros ut ext. unfold get_url. simpl type_of. cbv iota. apply Hget. }
  split; [|split].
  - apply Hdispatch.
  - unfold url_or_none, try_except. by rewrite Hget.
  - unfold _url, try_except. by rewrite Hdispatch.
Qed.

Lemma material_url_on_frozen_course_witness :
  _url (Sample.material None (Some "lesson1")) Sample.frozen_course
  = (Ok (VExc KeyError "lesson1"), Sample.frozen_course).
Proof.
  refine (proj2 (proj2 (material_url_on_frozen_course Sample.session_node VNone
                          (Some "A material") "link" None "lesson1" "web" true
                          Sample.frozen_course _ _ _))).
  - discriminate.
  - reflexivity.
  - vm_compute; discriminate.
Defined.

(** ** Known lessons *)

Lemma has_lesson_spec (slug : string) (c : Course.t) :
  _has_lesson slug c = true
  ↔ slug ∈ dom (Course._lessons c) ∨ slug ∈ Course._requested_lessons c.
Proof.
  unfold _has_lesson. by rewrite orb_true_iff, !bool_decide_eq_true.
Qed.

Lemma merge_lesson_keeps_known (new_lessons : gmap string Lesson) (x slug : string)
    (c c' : Course.t) (r : Result unit) :
  Course.merge_lesson new_lessons x c = (r, c') →
  _has_lesson slug c = true → _has_lesson slug c' = true.
Proof.
  unfold Course.merge_lesson. destruct (new_lessons !! x) as [lesson|].
  - intros [= _ <-]. rewrite !has_lesson_spec. simpl. rewrite dom_insert_L.
    destruct (decide (slug = x)); set_solver.
  - by intros [= _ <-].
Qed.

Lemma load_lessons_keeps_known (slugs : gset string) (slug : string)
    (c c' : Course.t) (r : Result unit) :
  Course.load_lessons slugs c = (r, c') →
  _has_lesson slug c = true → _has_lesson slug c' = true.
Proof.
  unfold Course.load_lessons. destruct (Course._frozen c); [by intros [= _ <-]|].
  set (c0 := Course.set_fetched _ c).
  destruct (Course.renderer_get_lessons c0 _) as [rendered|e]; [|by intros [= _ <-]].
  unfold bind.
  destruct (Course.load_rendered rendered c0) as [[new_lessons|e] c1] eqn:Hload;
    apply load_rendered_spec in Hload as [(_ & Hl & _ & Hreq) _].
  - intros Hmerge Hknown.
    assert (Hknown1 : _has_lesson slug c1 = true).
    { apply has_lesson_spec. apply has_lesson_spec in Hknown.
      rewrite Hl. destruct Hknown as [?|Hin]; [by left|right]. by apply Hreq. }
    exact (for_each_invariant (λ s, _has_lesson slug s = true)
             (Course.merge_lesson new_lessons) _
             (λ x s r' s' _ Hs Hx, merge_lesson_keeps_known _ x slug s s' r' Hx Hs)
             c1 r c' Hknown1 Hmerge).
  - intros [= _ <-] Hknown. apply has_lesson_spec. apply has_lesson_spec in Hknown.
    rewrite Hl. destruct Hknown as [?|Hin]; [by left|right]. by apply Hreq.
Qed.

Lemma load_all_loop_keeps_known (link_depth : nat) (slug : string) :
  ∀ (c c' : Course.t) (r : Result unit),
    Course.load_all_loop link_depth c = (r, c') →
    _has_lesson slug c = true → _has_lesson slug c' = true.
Proof.
  induction link_depth as [|d IH]; intros c c' r; rewrite load_all_loop_unfold;
    (destruct (decide (Course._requested_lessons c = ∅)); [by intros [= _ <-]|]);
    cbv zeta;
    set (c1 := Course.set_requested_lessons
                 (Course._requested_lessons c ∖ dom (Course._lessons c)) c);
    (assert (Hc1 : _has_lesson slug c = true → _has_lesson slug c1 = true)
       by (rewrite !has_lesson_spec; simpl;
           destruct (decide (slug ∈ dom (Course._lessons c))); set_solver));
    (destruct (decide (Course._requested_lessons c1 = ∅));
     [by intros [= _ <-]; apply Hc1|]);
    destruct (Course.load_lessons (Course._requested_lessons c1) c1)
      as [[[]|e] c2] eqn:Hload;
    pose proof (load_lessons_keeps_known _ slug _ _ _ Hload) as Hc2.
  - intros [= _ <-] Hknown. by apply Hc2, Hc1.
  - intros [= _ <-] Hknown. by apply Hc2, Hc1.
  - intros Hrest Hknown. eapply IH; [exact Hrest|]. by apply Hc2, Hc1.
  - intros [= _ <-] Hknown. by apply Hc2, Hc1.
Qed.

(** A lesson that a course knows of ([_has_lesson]: loaded or requested) is
    known for good: [get_lesson_url], [load_lessons], [load_all_lessons] and
    [freeze] never make the course forget it, whether they return or
    raise. *)
Theorem known_lessons_stay_known (slug : string) (self : Course.t) :
  _has_lesson slug self = true →
  (∀ other page url_type external,
      _has_lesson slug
        (Course.get_lesson_url other page url_type external self).2 = true)
  ∧ (∀ slugs, _has_lesson slug (Course.load_lessons slugs self).2 = true)
  ∧ _has_lesson slug (Course.load_all_lessons self).2 = true
  ∧ _has_lesson slug (Course.freeze self).2 = true.
Proof.
  intros Hknown.
  assert (Hall : _has_lesson slug (Course.load_all_lessons self).2 = true).
  { unfold Course.load_all_lessons. destruct (Course._frozen self); [done|].
    unfold bind, Course.difference_update, modify.
    set (c1 := Course.set_requested_lessons _ self).
    assert (Hc1 : _has_lesson slug c1 = true).
    { apply has_lesson_spec. apply has_lesson_spec in Hknown. simpl.
      destruct (decide (slug ∈ dom (Course._lessons self))); set_solver. }
    destruct (Course.load_all_loop 50 c1) as [r c2] eqn:Hloop.
    by apply (load_all_loop_keeps_known 50 slug c1 c2 r Hloop). }
  split; [|split; [|split]].
  - intros other page url_type external.
    destruct (Course.get_lesson_url other page url_type external self)
      as [r c'] eqn:Hget.
    apply get_lesson_url_spec in Hget as [(_ & Hl & _ & Hreq) _].
    apply has_lesson_spec. apply has_lesson_spec in Hknown. simpl. rewrite Hl.
    destruct Hknown as [?|Hin]; [by left|right]. by apply Hreq.
  - intros slugs. destruct (Course.load_lessons slugs self) as [r c'] eqn:Hload.
    by apply (load_lessons_keeps_known slugs slug self c' r Hload).
  - exact Hall.
  - unfold Course.freeze. destruct (Course._frozen self); [done|].
    unfold bind, modify.
    destruct (Course.load_all_lessons self) as [[[]|e] c']; simpl in *; done.
Qed.

Lemma known_lessons_stay_known_witness :
  _has_lesson "lesson1" (Course.freeze (Sample.chain_course 2)).2 = true.
Proof.
  exact (proj2 (proj2 (proj2 (known_lessons_stay_known "lesson1"
                                (Sample.chain_course 2) eq_refl)))).
Defined.

(** ** The cover pages of a session *)

Lemma set_pages_unfold (pages : option (gmap string SessionPageObj)) :
  _set_pages pages
  = let pages := default ∅ pages in
    let pages := if decide ("front" ∈ dom pages) then pages
                 else <["front" := default_session_page "front"]> pages in
    if decide ("back" ∈ dom pages) then pages
    else <["back" := default_session_page "back"]> pages.
Proof.
  unfold _set_pages. destruct pages as [pages|]; [|reflexivity].
  simpl. by destruct (decide (pages = ∅)) as [->|].
Qed.

(** After [Session._set_pages] a session has the pages it was given and the
    two cover pages: the keys are the given ones with [front] and [back]; a
    page that was given, also under [front] or [back], is kept as it is; a
    cover page that was not given is the page loaded from the empty
    document, under its own slug.  Pages that are absent ([None]) are
    treated as an empty dict. *)
Theorem set_pages_adds_missing_covers (pages : option (gmap string SessionPageObj)) :
  dom (_set_pages pages)
  = dom (default ∅ pages) ∪ ({["front"; "back"]} : gset string)
  ∧ (∀ slug page, default ∅ pages !! slug = Some page →
                  _set_pages pages !! slug = Some page)
  ∧ (∀ slug, slug ∈ ({["front"; "back"]} : gset string) →
             default ∅ pages !! slug = None →
             _set_pages pages !! slug = Some (default_session_page slug)).
Proof.
  rewrite set_pages_unfold. cbv zeta.
  set (given := default ∅ pages). clearbody given.
  assert (Hne : "front" ≠ "back") by discriminate.
  split; [|split].
  - repeat case_decide; rewrite ?dom_insert_L; set_solver.
  - intros slug page Hgiven.
    assert (Hin : slug ∈ dom given) by (apply elem_of_dom; eauto).
    destruct (decide ("front" ∈ dom given)) as [Hfront|Hfront].
    + destruct (decide ("back" ∈ dom given)) as [Hback|Hback]; [done|].
      rewrite lookup_insert_ne; [done|]. by intros <-.
    + assert (Hsf : "front" ≠ slug) by (by intros <-).
      destruct (decide ("back" ∈ dom (<["front" := default_session_page "front"]> given)))
        as [Hback|Hback].
      * by rewrite lookup_insert_ne.
      * rewrite lookup_insert_ne.
        -- by rewrite lookup_insert_ne.
        -- intros <-. apply Hback. rewrite dom_insert_L. set_solver.
  - intros slug Hslug Hnone.
    apply not_elem_of_dom in Hnone.
    assert (Hcases : slug = "front" ∨ slug = "back") by set_solver.
    clear Hslug.
    destruct (decide ("front" ∈ dom given)) as [Hfront|Hfront].
    + destruct Hcases as [-> | ->]; [done|].
      rewrite decide_False by done. by rewrite lookup_insert_eq.
    + destruct (decide ("back" ∈ dom (<["front" := default_session_page "front"]> given)))
        as [Hback|Hback].
      * rewrite dom_insert_L in Hback.
        destruct Hcases as [-> | ->].
        -- by rewrite lookup_insert_eq.
        -- exfalso. set_solver.
      * destruct Hcases as [-> | ->].
        -- rewrite lookup_insert_ne by done. by rewrite lookup_insert_eq.
        -- by rewrite lookup_insert_eq.
Qed.

(** ** The timezone of a course and the times of its sessions *)

Lemma stamp_with_timezone (self : Session.t) (kind : string)
    (dt : datetime.datetime) (tz : datetime.tzinfo) :
  Course.timezone (Session.course self) = Some tz →
  ∃ dt', Session.stamp self kind dt = Ok dt'.
Proof.
  intros Htz. unfold Session.stamp. rewrite Htz.
  destruct (datetime.tzinfo_ (datetime.timetz dt)); eauto.
Qed.

Lemma resolve_given (self : Session.t) (kind : string) (v : Session.TimeValue) :
  ∃ r, Session.resolve self kind (Some v) = Ok r.
Proof.
  destruct v as [dt|t]; simpl; [eauto|].
  destruct (Session.date self); eauto.
Qed.

(** The timezone that [Course.set_timezone] sets decides what becomes of the
    naive times of the sessions.  (1) In a course of an API version below
    0.3 the timezone is the zone Europe/Prague, whatever the document
    names: when the tz database knows that zone, a session whose time gives
    [start] and [end] always loads.  (2) From version 0.3 on, a course that
    names no timezone, an empty one, or one that [gettz] does not know, has
    the timezone [None]: a session with a date whose [start] is a bare time
    without an offset fails with the [ValueError] about the missing
    timezone of its start time, and [self.time] is left as it was.  (3) From
    version 0.3 on, with a name that [gettz] knows, such a start time is
    stamped with that zone. *)
Theorem set_timezone_decides_naive_times
    (gettz : string → option datetime.tzinfo) (version : Z * Z)
    (_timezone_name : option string) (self : Session.t)
    (times : gmap string Session.TimeValue) :
  Course.timezone (Session.course self)
  = (set_timezone gettz version _timezone_name).2 →
  Session.time self = Some times →
  dom times = ({["start"; "end"]} : gset string) →
  (version_lt version (0, 3) = true →
   (set_timezone gettz version _timezone_name).1 = Some "Europe/Prague"
   ∧ ∀ tz, gettz "Europe/Prague" = Some tz →
       ∃ self', Session._fix_time self = (Ok tt, self'))
  ∧ (version_lt version (0, 3) = false →
     (set_timezone gettz version _timezone_name).1 = _timezone_name
     ∧ ∀ d t,
       Session.date self = Some d →
       times !! "start" = Some (Session.TTime t) →
       datetime.tzinfo_ t = None →
       match (if truthy _timezone_name then gettz (default "" _timezone_name)
              else None) with
       | None =>
           Session._fix_time self
           = (Raise (Session.missing_timezone "start" self), self)
       | Some tz =>
           Session.stamp self "start" (datetime.combine d t)
           = Ok (datetime.replace_tzinfo (datetime.combine d t) tz)
       end).
Proof.
  intros Htz Htime Hdom.
  rewrite (fix_time_unfold _ _ Htime Hdom).
  assert (Hstart : is_Some (times !! "start")).
  { apply elem_of_dom. rewrite Hdom. set_solver. }
  assert (Hend : is_Some (times !! "end")).
  { apply elem_of_dom. rewrite Hdom. set_solver. }
  unfold set_timezone in *.
  split; intros Hversion; rewrite Hversion in *; simpl in Htz.
  - split; [done|]. intros tz Hgettz. rewrite Hgettz in Htz.
    destruct Hstart as [s Hs], Hend as [e He]. simpl. rewrite Hs, He.
    destruct (resolve_given self "start" s) as [rs ->].
    destruct rs as [s1|]; [|eauto].
    destruct (stamp_with_timezone self "start" s1 tz Htz) as [s2 ->].
    destruct (resolve_given self "end" e) as [re ->].
    destruct re as [e1|]; [|eauto].
    destruct (stamp_with_timezone self "end" e1 tz Htz) as [e2 ->].
    eauto.
  - split; [by destruct (truthy _timezone_name)|].
    intros d t Hdate Hs Hnaive.
    assert (Hzone : Course.timezone (Session.course self)
                    = if truthy _timezone_name
                      then gettz (default "" _timezone_name) else None).
    { rewrite Htz. by destruct (truthy _timezone_name). }
    clear Htz.
    destruct (if truthy _timezone_name then gettz (default "" _timezone_name)
              else None) as [tz|].
    + unfold Session.stamp. simpl. by rewrite Hnaive, Hzone.
    + simpl. rewrite Hs. simpl. rewrite Hdate.
      unfold Session.stamp. simpl. by rewrite Hnaive, Hzone.
Qed.

Lemma set_timezone_decides_naive_times_witness :
  let gettz := λ name, if decide (name = "Europe/Prague")
                       then Some (datetime.tzfile name) else None in
  let times : gmap string Session.TimeValue :=
    {[ "start" := Session.TTime (Sample.t 9 0);
       "end" := Session.TTime (Sample.t 12 0) ]} in
  let self := Sample.session (Some (datetime.mkdate 2024 3 4)) (Some times)
                (Sample.dated_course "course" 2024 2025) in
  (set_timezone gettz (0, 3) (Some "Mars/Olympus")).2 = None
  ∧ Session._fix_time self = (Raise (Session.missing_timezone "start" self), self).
Proof.
  intros gettz times self. split; [reflexivity|].
  assert (Hdom : dom times = ({["start"; "end"]} : gset string)) by by_evaluation.
  pose proof (set_timezone_decides_naive_times gettz (0, 3) (Some "Mars/Olympus")
                self times eq_refl eq_refl Hdom) as [_ Hnew].
  destruct (Hnew eq_refl) as [_ Hstart].
  exact (Hstart (datetime.mkdate 2024 3 4) (Sample.t 9 0) eq_refl eq_refl eq_refl).
Defined.

(** ** The slugs of the model classes *)














(** ** The material of a lesson *)

Lemma getitem_loaded (course : Course.t) (key : string) (lesson : Lesson) :
  Course._lessons course !! key = Some lesson →
  _LessonsDict.__getitem__ key course = (Ok lesson, course).
Proof.
  intros Hloaded.
  unfold _LessonsDict.__getitem__, try_except, _LessonsDict.lookup.
  by rewrite Hloaded.
Qed.

Lemma getitem_frozen (course : Course.t) (key : string) :
  Course._lessons course !! key = None → Course._frozen course = true →
  _LessonsDict.__getitem__ key course
  = (Raise (Exn Exception_ "course is frozen"), course).
Proof.
  intros Hnone Hfrozen.
  unfold _LessonsDict.__getitem__, try_except, _LessonsDict.lookup.
  rewrite Hnone. simpl. unfold bind.
  by rewrite (load_lessons_frozen _ _ Hfrozen).
Qed.

(** [Lesson.material] goes through the materials of the sessions in order
    and reads the lesson of each one that has a [lesson_slug].  (1) When
    the lessons that the materials name are loaded, it returns the first
    material whose [lesson_slug] is the slug of the lesson, or [None] when
    there is none, and leaves the course as it is: no call of the renderer.
    (2) On a frozen course, a material naming a lesson that is not loaded
    makes the property raise, when no earlier material is the one looked
    for: also when a later material refers to the lesson. *)
Theorem lesson_material_is_first_use (course : Course.t) (self_slug : string) :
  (∀ materials,
      (∀ material slug, material ∈ materials →
                        lesson_slug_of material = Some slug →
                        slug ∈ dom (Course._lessons course)) →
      lesson_material self_slug materials course
      = (Ok (head (filter (λ material, lesson_slug_of material = Some self_slug)
                          materials)),
         course))
  ∧ (∀ before material after slug,
      Course._frozen course = true →
      (∀ m slug', m ∈ before → lesson_slug_of m = Some slug' →
                  slug' ∈ dom (Course._lessons course) ∧ slug' ≠ self_slug) →
      lesson_slug_of material = Some slug →
      slug ∉ dom (Course._lessons course) →
      lesson_material self_slug (before ++ material :: after) course
      = (Raise (Exn Exception_ "course is frozen"), course)).
Proof.
  split.
  - induction materials as [|material rest IH]; intros Hloaded; [reflexivity|].
    assert (Hrest : ∀ m slug, m ∈ rest → lesson_slug_of m = Some slug →
                              slug ∈ dom (Course._lessons course)).
    { intros m slug Hm. apply Hloaded. by right. }
    simpl. destruct (lesson_slug_of material) as [slug|] eqn:Hslug.
    + assert (Hin : slug ∈ dom (Course._lessons course)).
      { apply (Hloaded material); [left | done]. }
      apply elem_of_dom in Hin as [lesson Hlesson].
      unfold bind. rewrite (getitem_loaded _ _ _ Hlesson).
      destruct (decide (slug = self_slug)) as [->|Hne].
      * rewrite filter_cons_True by done. reflexivity.
      * rewrite filter_cons_False by congruence. by apply IH.
    + rewrite filter_cons_False by (by rewrite Hslug). by apply IH.
  - intros before material after slug Hfrozen Hbefore Hslug Hmissing.
    apply not_elem_of_dom in Hmissing.
    induction before as [|m before IH]; simpl.
    + rewrite Hslug. unfold bind. by rewrite (getitem_frozen _ _ Hmissing Hfrozen).
    + assert (Htail : ∀ m' slug', m' ∈ before → lesson_slug_of m' = Some slug' →
                slug' ∈ dom (Course._lessons course) ∧ slug' ≠ self_slug).
      { intros m' slug' Hm'. apply Hbefore. by right. }
      destruct (lesson_slug_of m) as [slug'|] eqn:Hm; [|by apply IH].
      destruct (Hbefore m slug') as [Hin Hne]; [left | done |].
      apply elem_of_dom in Hin as [lesson Hlesson].
      unfold bind. rewrite (getitem_loaded _ _ _ Hlesson).
      rewrite decide_False by done. by apply IH.
Qed.

(** ** Titles of pages and lessons *)

(** Titles after the hooks [Page._generate_title] and [Lesson._set_title].
    (1) The hook of a page fails only for a page other than [index] that
    gives neither a title nor a subtitle.  (2) Otherwise the slug and the
    subtitle are untouched and a title that was given is kept; the [index]
    page without a title takes the title of the lesson, and another page
    takes the title of the lesson and its own subtitle around a dash; so
    the page ends with a title when the lesson has one.  (3) A lesson keeps
    the title it gives, and one without a title takes the title of its
    [index] page: after both hooks the lesson and its [index] page have the
    same title, unless both gave one.  (4) A lesson without a title and
    without an [index] page fails with a [KeyError]. *)
Theorem titles_after_load (lesson_title : option string) :
  (∀ self,
      (∃ e, _generate_title lesson_title self = Raise e)
      ↔ page_title self = None ∧ page_slug self ≠ "index"
        ∧ page_subtitle self = None)
  ∧ (∀ self self',
      _generate_title lesson_title self = Ok self' →
      page_slug self' = page_slug self
      ∧ page_subtitle self' = page_subtitle self
      ∧ page_title self'
        = match page_title self, page_subtitle self with
          | Some title, _ => Some title
          | None, subtitle =>
              if decide (page_slug self = "index") then lesson_title
              else Some (str_of_option lesson_title +:+ " – "
                         +:+ default "" subtitle)
          end
      ∧ (is_Some lesson_title → is_Some (page_title self')))
  ∧ (∀ index index' pages,
      page_slug index = "index" →
      _generate_title lesson_title index = Ok index' →
      pages !! "index" = Some index' →
      ∃ title, _set_title lesson_title pages = Ok title
               ∧ (is_Some lesson_title → title = lesson_title)
               ∧ (page_title index = None ∨ lesson_title = None →
                  title = page_title index'))
  ∧ (∀ pages, lesson_title = None → pages !! "index" = None →
              _set_title lesson_title pages = Raise (Exn KeyError "index")).
Proof.
  split; [|split; [|split]].
  - intros [slug [title|] subtitle]; unfold _generate_title; simpl.
    + split; [intros [e He]; discriminate | intros [Hnone _]; discriminate].
    + destruct (decide (slug = "index")) as [->|Hne].
      * split; [intros [e He]; discriminate | by intros (_ & Hne & _)].
      * destruct subtitle as [subtitle|].
        -- split; [intros [e He]; discriminate
                  | intros (_ & _ & Hsub); discriminate].
        -- split; [done | intros _; eauto].
  - intros [slug [title|] subtitle] self'; unfold _generate_title; simpl.
    + intros [= <-]. simpl. eauto.
    + destruct (decide (slug = "index")) as [->|Hne].
      * intros [= <-]. simpl. eauto.
      * destruct subtitle as [subtitle|]; [|discriminate].
        intros [= <-]. simpl. eauto 10.
  - intros [slug [title|] subtitle] index' pages Hslug; simpl in Hslug; subst slug;
      unfold _generate_title, _set_title; simpl;
      intros [= <-] ->; simpl; destruct lesson_title as [t|]; eexists;
      (split; [reflexivity|]); (split; [intros [? ?]; congruence|]);
      intros [?|?]; congruence.
  - intros pages -> Hnone. unfold _set_title. by rewrite Hnone.
Qed.

(** ** The recent runs derived from a course *)

Lemma insert_reverse_perm {A} (x : datetime.date * A) (l : list (datetime.date * A)) :
  insert_reverse x l ≡ₚ x :: l.
Proof.
  induction l as [|y l IH]; simpl; [done|].
  destruct (date_lt x.1 y.1); [|done].
  rewrite IH. apply Permutation_swap.
Qed.

Lemma sort_reverse_perm {A} (l : list (datetime.date * A)) : sort_reverse l ≡ₚ l.
Proof.
  induction l as [|x l IH]; simpl; [done|].
  rewrite insert_reverse_perm. by rewrite IH.
Qed.

Lemma insert_reverse_sorted {A} (x : datetime.date * A) (l : list (datetime.date * A)) :
  StronglySorted (λ a b, date_lt a.1 b.1 = false) l →
  StronglySorted (λ a b, date_lt a.1 b.1 = false) (insert_reverse x l).
Proof.
  induction 1 as [|y l Hsorted IH Hy]; simpl.
  - repeat constructor.
  - destruct (date_lt x.1 y.1) eqn:Hxy.
    + constructor; [done|].
      rewrite insert_reverse_perm. constructor; [|done].
      by apply date_lt_false_of_lt.
    + constructor; [by constructor|].
      constructor; [done|].
      eapply Forall_impl; [exact Hy|]. intros z Hz. simpl in Hz.
      by eapply date_not_lt_trans.
Qed.

Lemma sort_reverse_sorted {A} (l : list (datetime.date * A)) :
  StronglySorted (λ a b, date_lt a.1 b.1 = false) (sort_reverse l).
Proof.
  induction l as [|x l IH]; simpl; [constructor | by apply insert_reverse_sorted].
Qed.

Lemma recent_loop_spec (cutoff : datetime.date) (self : CourseObj)
    (courses : list CourseObj) :
  (∀ course, course ∈ courses → ¬ lacks_end_date self course) →
  ∀ result, recent_loop cutoff self courses result
            = Ok (result ++ keyed_recent_runs cutoff self courses).
Proof.
  unfold keyed_recent_runs, is_recent_run, lacks_end_date.
  induction courses as [|course rest IH]; intros Hdated result; simpl.
  - by rewrite app_nil_r.
  - assert (Hrest : ∀ c, c ∈ rest → ¬ lacks_end_date self c).
    { intros c Hc. apply Hdated. by right. }
    assert (Hhead : ¬ lacks_end_date self course) by (apply Hdated; left).
    unfold lacks_end_date in Hhead.
    destruct (Course.start_date (obj_course course)) as [start|]; [|by apply IH].
    destruct (decide (base_course course = Some (obj_id self))) as [Hbase|Hbase].
    + destruct (Course.end_date (obj_course course)) as [end_date|].
      * rewrite bool_decide_eq_true_2 by done. simpl.
        destruct (date_lt cutoff end_date); simpl; [|by apply IH].
        rewrite (IH Hrest). by rewrite <- app_assoc.
      * exfalso. apply Hhead. eauto.
    + destruct (Course.end_date (obj_course course)) as [end_date|]; [|by apply IH].
      rewrite bool_decide_eq_false_2 by done. simpl. by apply IH.
Qed.

Lemma recent_loop_raises (cutoff : datetime.date) (self : CourseObj)
    (courses : list CourseObj) :
  (∃ course, course ∈ courses ∧ lacks_end_date self course) →
  ∀ result, ∃ e, recent_loop cutoff self courses result = Raise e
                 ∧ exn_class e = TypeError.
Proof.
  induction courses as [|course rest IH]; intros (c & Hc & Hlacks) result.
  - by apply elem_of_nil in Hc.
  - simpl. apply elem_of_cons in Hc as [<- | Hc].
    + destruct Hlacks as ([start Hstart] & Hbase & Hend).
      rewrite Hstart, decide_True, Hend by done. eauto.
    + assert (Hrest : ∃ c, c ∈ rest ∧ lacks_end_date self c) by eauto.
      destruct (Course.start_date (obj_course course)); [|by apply IH].
      destruct (decide _); [|by apply IH].
      destruct (Course.end_date (obj_course course)) as [end_date|]; [|eauto].
      destruct (date_lt cutoff end_date); by apply IH.
Qed.

Lemma keyed_recent_runs_courses (cutoff : datetime.date) (self : CourseObj)
    (courses : list CourseObj) :
  (keyed_recent_runs cutoff self courses).*2
  = filter (λ course, is_recent_run cutoff self course = true) courses.
Proof.
  unfold keyed_recent_runs.
  induction courses as [|course rest IH]; [done|]. csimpl.
  destruct (is_recent_run cutoff self course) eqn:Hrecent.
  - rewrite filter_cons_True by done.
    unfold is_recent_run in Hrecent.
    destruct (Course.start_date (obj_course course)); [|done]. csimpl.
    by rewrite IH.
  - rewrite filter_cons_False by (by rewrite Hrecent). done.
Qed.

Lemma keyed_recent_runs_keys (cutoff : datetime.date) (self : CourseObj)
    (courses : list CourseObj) :
  ∀ p, p ∈ keyed_recent_runs cutoff self courses →
       Course.start_date (obj_course p.2) = Some p.1.
Proof.
  unfold keyed_recent_runs. intros p Hp.
  apply list_elem_of_omap in Hp as (course & _ & Hp).
  destruct (is_recent_run cutoff self course); [|done].
  destruct (Course.start_date (obj_course course)) eqn:Hstart; [|done].
  by injection Hp as <-.
Qed.

(** [Course.get_recent_derived_runs]: the runs of the root that derive from
    the course and have not ended before the cutoff, newest first.  (1) A
    course that is not canonical has no such runs.  (2) For a canonical
    course, the result holds exactly the courses that have a start date,
    whose [base_course] is this course and whose end date is after the
    cutoff, each as often as the root lists it, and no course of the result
    starts before one that follows it.  (3) A course with a start date and
    this base course but no end date makes the call fail with a
    [TypeError]. *)
Theorem recent_derived_runs_newest_first (cutoff : datetime.date)
    (courses : list CourseObj) (self : CourseObj) :
  (canonical self = false →
   get_recent_derived_runs cutoff courses self = Ok [])
  ∧ (canonical self = true →
     (∀ course, course ∈ courses → ¬ lacks_end_date self course) →
     ∃ result,
       get_recent_derived_runs cutoff courses self = Ok result
       ∧ result ≡ₚ filter (λ course, is_recent_run cutoff self course = true) courses
       ∧ StronglySorted
           (λ a b, ∀ da db, Course.start_date (obj_course a) = Some da →
                            Course.start_date (obj_course b) = Some db →
                            date_lt da db = false)
           result)
  ∧ (canonical self = true →
     (∃ course, course ∈ courses ∧ lacks_end_date self course) →
     ∃ e, get_recent_derived_runs cutoff courses self = Raise e
          ∧ exn_class e = TypeError).
Proof.
  unfold get_recent_derived_runs. split; [|split].
  - by intros ->.
  - intros -> Hdated. rewrite (recent_loop_spec _ _ _ Hdated). simpl.
    set (keyed := keyed_recent_runs cutoff self courses).
    eexists. split; [reflexivity|]. split.
    + rewrite sort_reverse_perm. subst keyed. by rewrite keyed_recent_runs_courses.
    + assert (Hkeys : ∀ p, p ∈ sort_reverse keyed →
                Course.start_date (obj_course p.2) = Some p.1).
      { intros p Hp. rewrite sort_reverse_perm in Hp.
        by apply keyed_recent_runs_keys in Hp. }
      pose proof (sort_reverse_sorted keyed) as Hsorted.
      induction Hsorted as [|p l Hsorted IH Hp]; simpl; [constructor|].
      constructor.
      * apply IH. intros q Hq. apply Hkeys. by right.
      * apply Forall_fmap. rewrite Forall_forall in Hp |- *.
        intros q Hq da db Ha Hb. simpl in Ha, Hb.
        rewrite (Hkeys p) in Ha by left.
        rewrite (Hkeys q) in Hb by (by right).
        injection Ha as <-. injection Hb as <-. by apply Hp.
  - intros -> Hlacks.
    destruct (recent_loop_raises cutoff self courses Hlacks []) as (e & -> & He).
    eauto.
Qed.

(** ** Session times in documents *)

Lemma chars_app (s t : string) : chars (s +:+ t) = chars s ++ chars t.
Proof. induction s as [|a s IH]; simpl; [done | by rewrite IH]. Qed.

(** A date, a space and a time without an offset do not end with an
    offset. *)
Lemma naive_datetime_has_no_offset (date time : string) :
  "+"%char ∉ chars time → "-"%char ∉ chars time →
  (∀ before, chars time ≠ before ++ ["Z"%char]) →
  (∀ before, chars time ≠ before ++ ["z"%char]) →
  ¬ ends_with_offset (date +:+ " " +:+ time).
Proof.
  intros Hplus Hminus HZ Hz. unfold ends_with_offset. rewrite !chars_app. simpl.
  assert (Hlast : ∀ c before, c ≠ " "%char →
            (∀ before, chars time ≠ before ++ [c]) →
            chars date ++ " "%char :: chars time ≠ before ++ [c]).
  { intros c before Hc Hnot Hend.
    destruct (chars time) as [|c' time'] eqn:Htime using rev_ind.
    - apply app_inj_tail in Hend as [_ Hend]. congruence.
    - clear IHtime'. rewrite app_comm_cons, app_assoc in Hend.
      apply app_inj_tail in Hend as [_ ->]. by apply (Hnot time'). }
  intros [[before Hend] | [[before Hend]
           | (before & sign & offset & Hsplit & Hsign & Hspace & Hp & Hm)]].
  - by apply (Hlast "Z"%char before).
  - by apply (Hlast "z"%char before).
  - apply app_eq_inv in Hsplit as [(k & Hdate & Hrest) | (k & Hbefore & Hrest)].
    + destruct k as [|c k]; simpl in Hrest.
      * injection Hrest as Hs _. destruct Hsign; congruence.
      * injection Hrest as _ Hoffset. apply Hspace. rewrite Hoffset. set_solver.
    + destruct k as [|c k]; simpl in Hrest.
      * injection Hrest as Hs _. destruct Hsign; congruence.
      * injection Hrest as _ Htime.
        assert (Hin : sign ∈ chars time) by (rewrite Htime; set_solver).
        destruct Hsign; congruence.
Qed.

Lemma optional_z_keeps_format
    (strptime : string → string → Result datetime.datetime) (data dateformat : string) :
  "-"%char ∈ chars data →
  _strptime_with_optional_z strptime data dateformat = strptime data dateformat.
Proof.
  intros Hdash. unfold _strptime_with_optional_z.
  rewrite (bool_decide_eq_true_2 ("-"%char ∈ chars data)) by done.
  by rewrite orb_true_r.
Qed.

Lemma strptime_needs_offset
    (strptime : string → string → Result datetime.datetime) (data format : string) :
  strptime_of_library strptime → format ∈ formats_without_z →
  ¬ ends_with_offset data →
  ∃ e, strptime data (format +:+ "%z") = Raise e ∧ exn_class e = ValueError.
Proof.
  intros Hlib Hformat Hnaive.
  destruct (strptime data (format +:+ "%z")) as [value|e] eqn:Hparse.
  - exfalso. apply Hnaive. by eapply strptime_offset.
  - exists e. split; [done|]. eapply strptime_raises_ValueError; [done| |done].
    apply elem_of_app. right. apply list_elem_of_fmap. by exists format.
Qed.

(** [SessionTimeConverter.load] rejects a date and a time without an
    offset.  The dash of the date keeps the directive [%z] in both formats
    that the converter tries, and [strptime] needs an offset for it: for a
    string made of a part that holds a dash, a space, and a part with no
    sign that does not end in [Z] (as [2024-03-04 09:00]), both attempts
    fail and the [ValueError] of the second one is raised.  Data without
    any sign is parsed with the formats without [%z]: a bare time with one
    colon that is no date and a time, and that [strptime] reads with
    [%H:%M], loads as that time of day. *)
Theorem load_rejects_datetime_without_offset
    (strptime : string → string → Result datetime.datetime)
    (Hlibrary : strptime_of_library strptime) :
  (∀ date time,
      "-"%char ∈ chars date →
      "+"%char ∉ chars time → "-"%char ∉ chars time →
      (∀ before, chars time ≠ before ++ ["Z"%char]) →
      (∀ before, chars time ≠ before ++ ["z"%char]) →
      ∃ e, SessionTimeConverter_load strptime (date +:+ " " +:+ time) = Raise e
           ∧ exn_class e = ValueError)
  ∧ (∀ data e value,
      "+"%char ∉ chars data → "-"%char ∉ chars data →
      length (filter (λ c, c = ":"%char) (chars data)) ≠ 2%nat →
      strptime data "%Y-%m-%d %H:%M" = Raise e →
      strptime data "%H:%M" = Ok value →
      SessionTimeConverter_load strptime data
      = Ok (Session.TTime (datetime.timetz value))).
Proof.
  split.
  - intros date time Hdash Hplus Hminus HZ Hz.
    pose proof (naive_datetime_has_no_offset date time Hplus Hminus HZ Hz) as Hnaive.
    set (data := date +:+ " " +:+ time) in *.
    assert (Hin : "-"%char ∈ chars data).
    { subst data. rewrite chars_app. set_solver. }
    unfold SessionTimeConverter_load.
    rewrite !(optional_z_keeps_format _ _ _ Hin).
    destruct (decide _) as [Hcolons|Hcolons].
    + destruct (strptime_needs_offset strptime data "%Y-%m-%d %H:%M:%S" Hlibrary
                  ltac:(set_solver) Hnaive) as (e1 & H1 & Hclass1).
      destruct (strptime_needs_offset strptime data "%H:%M:%S" Hlibrary
                  ltac:(set_solver) Hnaive) as (e2 & H2 & Hclass2).
      change (strptime data "%Y-%m-%d %H:%M:%S%z" = Raise e1) in H1.
      change (strptime data "%H:%M:%S%z" = Raise e2) in H2.
      change ("%Y-%m-%d " +:+ "%H:%M:%S" +:+ "%z") with "%Y-%m-%d %H:%M:%S%z".
      change ("%H:%M:%S" +:+ "%z") with "%H:%M:%S%z".
      rewrite H1. unfold isinstance. rewrite Hclass1. simpl.
      rewrite H2. eauto.
    + destruct (strptime_needs_offset strptime data "%Y-%m-%d %H:%M" Hlibrary
                  ltac:(set_solver) Hnaive) as (e1 & H1 & Hclass1).
      destruct (strptime_needs_offset strptime data "%H:%M" Hlibrary
                  ltac:(set_solver) Hnaive) as (e2 & H2 & Hclass2).
      change (strptime data "%Y-%m-%d %H:%M%z" = Raise e1) in H1.
      change (strptime data "%H:%M%z" = Raise e2) in H2.
      change ("%Y-%m-%d " +:+ "%H:%M" +:+ "%z") with "%Y-%m-%d %H:%M%z".
      change ("%H:%M" +:+ "%z") with "%H:%M%z".
      rewrite H1. unfold isinstance. rewrite Hclass1. simpl.
      rewrite H2. eauto.
  - intros data e value Hplus Hminus Hcolons Hdate Htime.
    unfold SessionTimeConverter_load, _strptime_with_optional_z.
    rewrite !bool_decide_eq_false_2 by done.
    rewrite decide_False by done.
    change (remove_z ("%Y-%m-%d " +:+ "%H:%M" +:+ "%z")) with "%Y-%m-%d %H:%M".
    change (remove_z ("%H:%M" +:+ "%z")) with "%H:%M".
    simpl. rewrite Hdate. unfold isinstance.
    rewrite (strptime_raises_ValueError _ Hlibrary _ "%Y-%m-%d %H:%M" _
               ltac:(set_solver) Hdate).
    simpl. by rewrite Htime.
Qed.

(** A [strptime] that reads three strings: a bare time, a time with an
    offset, and a date and time with an offset. *)
Lemma load_rejects_datetime_without_offset_witness :
  let at_nine := λ d tz, datetime.mkdatetime d (datetime.mktime 9 0 0 tz) in
  let strptime := λ data format : string,
    if decide (data = "09:00" ∧ format = "%H:%M")
    then Ok (at_nine (datetime.mkdate 1900 1 1) None)
    else if decide (data = "09:00+0100" ∧ format = "%H:%M%z")
    then Ok (at_nine (datetime.mkdate 1900 1 1) (Some (datetime.tzoffset 60)))
    else if decide (data = "2024-03-04 09:00+0100" ∧ format = "%Y-%m-%d %H:%M%z")
    then Ok (at_nine (datetime.mkdate 2024 3 4) (Some (datetime.tzoffset 60)))
    else Raise (Exn ValueError "time data does not match format") in
  strptime_of_library strptime
  ∧ (∃ e, SessionTimeConverter_load strptime "2024-03-04 09:00" = Raise e
          ∧ exn_class e = ValueError)
  ∧ SessionTimeConverter_load strptime "09:00"
    = Ok (Session.TTime (datetime.mktime 9 0 0 None))
  ∧ SessionTimeConverter_load strptime "2024-03-04 09:00+0100"
    = Ok (Session.TDatetime
            (at_nine (datetime.mkdate 2024 3 4) (Some (datetime.tzoffset 60)))).
Proof.
  intros at_nine strptime.
  assert (Hlibrary : strptime_of_library strptime).
  { split.
    - intros data format e _. unfold strptime.
      repeat (destruct (decide _); [done|]). by intros [= <-].
    - intros data format value _. unfold strptime.
      destruct (decide _) as [[_ Hformat]|_].
      { exfalso. destruct format as [|a [|b [|c [|d [|e [|f format]]]]]];
          simpl in Hformat; discriminate. }
      destruct (decide _) as [[-> _]|_].
      { intros _. right; right. exists (chars "09:00"), "+"%char, (chars "0100").
        split; [reflexivity|]. split; [by left|].
        repeat split; by_evaluation. }
      destruct (decide _) as [[-> _]|_]; [|done].
      intros _. right; right.
      exists (chars "2024-03-04 09:00"), "+"%char, (chars "0100").
      split; [reflexivity|]. split; [by left|].
      repeat split; by_evaluation. }
  split; [done|].
  pose proof (load_rejects_datetime_without_offset strptime Hlibrary) as [Hreject Hbare].
  split; [|split].
  - apply (Hreject "2024-03-04" "09:00"); try by_evaluation;
      intros before Hend;
      destruct before as [|a [|b [|c [|d [|e [|f before]]]]]]; simpl in Hend;
      discriminate.
  - apply (Hbare "09:00" (Exn ValueError "time data does not match format")
             (datetime.mkdatetime (datetime.mkdate 1900 1 1)
                (datetime.mktime 9 0 0 None)));
      try by_evaluation; reflexivity.
  - reflexivity.
Defined.

(** ** The default time of a course *)

Lemma time_from_string_naive
    (strptime : string → string → Result datetime.datetime)
    (time_string : string) (t : datetime.time) :
  strptime_without_z_is_naive strptime →
  time_from_string strptime time_string = Ok t → datetime.tzinfo_ t = None.
Proof.
  intros Hnaive. unfold time_from_string, _strptime_with_optional_z.
  assert (Hformat : (if negb (bool_decide ("+"%char ∈ chars time_string)
                              || bool_decide ("-"%char ∈ chars time_string))
                     then remove_z "%H:%M" else "%H:%M") = "%H:%M").
  { by destruct (negb _). }
  rewrite Hformat.
  destruct (strptime time_string "%H:%M") as [value|e] eqn:Hparse; [|done].
  intros [= <-]. by eapply Hnaive.
Qed.

(** The times of [default_time] never carry an offset: the format that
    [time_from_string] passes to [strptime] has no [%z], with or without a
    sign in the data.  A [default_time] that [TimeIntervalConverter.load]
    returns has the keys [start] and [end], both naive.  So in a course
    without a timezone, a session that has a date and no time of its own
    fails in [_fix_time] with the [ValueError] about the missing timezone
    of its start time. *)
Theorem default_time_is_naive
    (strptime : string → string → Result datetime.datetime)
    (data : gmap string string) (default_time : gmap string datetime.time) :
  strptime_without_z_is_naive strptime →
  TimeIntervalConverter_load strptime data = Ok default_time →
  dom default_time = ({["start"; "end"]} : gset string)
  ∧ (∀ kind t, default_time !! kind = Some t → datetime.tzinfo_ t = None)
  ∧ (∀ self d,
      Session.date self = Some d →
      Session.time self = None →
      Course.default_time (Session.course self) = Some default_time →
      Course.timezone (Session.course self) = None →
      Session._fix_time self
      = (Raise (Session.missing_timezone "start" self),
         Session.set_time (Some ∅) self)).
Proof.
  intros Hnaive. unfold TimeIntervalConverter_load.
  destruct (data !! "start") as [start|]; [|done].
  destruct (time_from_string strptime start) as [s|] eqn:Hs; [|done].
  destruct (data !! "end") as [end_|]; [|done].
  destruct (time_from_string strptime end_) as [e|] eqn:He; [|done].
  intros [= <-].
  apply (time_from_string_naive _ _ _ Hnaive) in Hs, He.
  split; [|split].
  - rewrite !dom_insert_L, dom_empty_L. set_solver.
  - intros kind t Hkind.
    destruct (decide (kind = "end")) as [->|Hne1].
    + rewrite lookup_insert_eq in Hkind. by injection Hkind as <-.
    + rewrite lookup_insert_ne in Hkind by done.
      destruct (decide (kind = "start")) as [->|Hne2].
      * rewrite lookup_insert_eq in Hkind. by injection Hkind as <-.
      * by rewrite lookup_insert_ne in Hkind.
  - intros self d Hdate Htime Hdefault Hzone.
    unfold Session._fix_time. rewrite Htime. cbn [Session.fix_loop].
    rewrite resolve_ignores_time, lookup_empty. unfold Session.resolve.
    rewrite Hdate, Hdefault.
    rewrite decide_False.
    + rewrite lookup_insert_ne by done. rewrite lookup_insert_eq.
      rewrite stamp_ignores_time. unfold Session.stamp. simpl.
      by rewrite Hs, Hzone.
    + intros Hempty. apply (f_equal (λ m, m !! "end")) in Hempty.
      by rewrite lookup_insert_eq in Hempty.
Qed.

Lemma default_time_is_naive_witness :
  let strptime := λ data format : string,
    if decide (format = "%H:%M" ∧ (data = "09:00" ∨ data = "12:00"))
    then Ok (datetime.mkdatetime (datetime.mkdate 1900 1 1)
               (Sample.t (if decide (data = "09:00") then 9 else 12) 0))
    else Raise (Exn ValueError "time data does not match format") in
  let self := Sample.session (Some (datetime.mkdate 2024 3 4)) None
                (Course.mk Sample.root "2024/spring"
                   (Some {[ "start" := Sample.t 9 0; "end" := Sample.t 12 0 ]})
                   None None None false ∅ ∅ (Sample.repo_renderer ∅) []) in
  Session._fix_time self
  = (Raise (Session.missing_timezone "start" self), Session.set_time (Some ∅) self).
Proof.
  intros strptime self.
  assert (Hnaive : strptime_without_z_is_naive strptime).
  { intros data value. unfold strptime.
    destruct (decide _); [|done]. by intros [= <-]. }
  assert (Hload : TimeIntervalConverter_load strptime
                    {[ "start" := "09:00"; "end" := "12:00" ]}
                  = Ok (<["end" := Sample.t 12 0]> (<["start" := Sample.t 9 0]> ∅))).
  { by vm_compute. }
  destruct (default_time_is_naive strptime _ _ Hnaive Hload) as (_ & _ & Hfix).
  apply (Hfix self (datetime.mkdate 2024 3 4)); reflexivity.
Defined.
